(** * ai-release-notes-action: a shallow embedding of the orchestration core

  The JavaScript sources embedded here are
  - [src/main.js]                 ([checkTriggerConditions], [run]),
  - [src/utils/git.js]            ([getLatestTag], [getShortCommit],
                                   [parseCommits], [getCommitsSinceTag]),
  - the configuration class       ([Config]),
  - the pull-request analyzer     ([PRAnalyzer.analyzeChanges]),
  - the version manager           ([VersionManager]),
  - the release-notes generator   ([ReleaseNotesGenerator]),
  - the changelog manager         ([ChangelogManager]),
  - the Slack notifier            ([SlackNotifier]),
  - the GitHub release manager    ([GitHubReleaseManager]).

  JavaScript strings are sequences of UTF-16 code units; they are modelled
  as lists of [N].  Calls that leave the process (git, the generation
  service, the file system) are modelled by the value they hand back, which
  the embedded function receives as an argument. *)

From Stdlib Require Import List NArith ZArith Bool Lia Permutation.
From Stdlib Require String Ascii.
Import ListNotations String.StringSyntax.

Open Scope string_scope.
Open Scope list_scope.

(* ================================================================== *)
(** ** JavaScript strings *)
(* ================================================================== *)

Module JsString.

(** A UTF-16 code unit. *)
Definition char16 := N.

Definition jsstring := list char16.

(** An ASCII literal as a JavaScript string. *)
Definition js (s : String.string) : jsstring :=
  map Ascii.N_of_ascii (String.list_ascii_of_string s).

Definition LF : char16 := 10%N.
Definition CR : char16 := 13%N.

(** [a === b] on strings. *)
Fixpoint eqb (a b : jsstring) : bool :=
  match a, b with
  | [], [] => true
  | x :: a', y :: b' => N.eqb x y && eqb a' b'
  | _, _ => false
  end.

(** A string in a condition: the empty string is falsy. *)
Definition truthy (s : jsstring) : bool :=
  match s with [] => false | _ :: _ => true end.

(** The class [\s] of a regular expression (no [u] flag), which is also
    the set that [String.prototype.trim] strips: WhiteSpace and
    LineTerminator of ECMA-262. *)
Definition isWhiteSpace (c : char16) : bool :=
  ((9 <=? c) && (c <=? 13) || (c =? 32) || (c =? 160) || (c =? 5760)
   || (8192 <=? c) && (c <=? 8202) || (c =? 8232) || (c =? 8233)
   || (c =? 8239) || (c =? 8287) || (c =? 12288) || (c =? 65279))%N.

(** The class [\d]: the ASCII digits only. *)
Definition isDigit (c : char16) : bool := ((48 <=? c) && (c <=? 57))%N.

(** What [.] does not match: the line terminators. *)
Definition isLineTerminator (c : char16) : bool :=
  ((c =? 10) || (c =? 13) || (c =? 8232) || (c =? 8233))%N.

(** [s.startsWith(p)] *)
Fixpoint startsWith (s p : jsstring) {struct p} : bool :=
  match p with
  | [] => true
  | x :: p' =>
      match s with
      | [] => false
      | y :: s' => N.eqb x y && startsWith s' p'
      end
  end.

(** [s.includes(needle)] *)
Fixpoint includes (s needle : jsstring) {struct s} : bool :=
  startsWith s needle
  || match s with
     | [] => false
     | _ :: s' => includes s' needle
     end.

(** [s.substring(n)] for [0 <= n]. *)
Definition substring (n : nat) (s : jsstring) : jsstring := skipn n s.

Fixpoint trimStart (s : jsstring) : jsstring :=
  match s with
  | [] => []
  | c :: t => if isWhiteSpace c then trimStart t else s
  end.

Definition trimEnd (s : jsstring) : jsstring := rev (trimStart (rev s)).

(** [s.trim()] *)
Definition trim (s : jsstring) : jsstring := trimEnd (trimStart s).

(** [s.split(sep)] for a separator of one code unit.  The result is never
    the empty array: ["".split("\n")] is [[""]]. *)
Fixpoint split (sep : char16) (s : jsstring) : list jsstring :=
  match s with
  | [] => [[]]
  | c :: t =>
      if N.eqb c sep then [] :: split sep t
      else match split sep t with
           | cur :: rest => (c :: cur) :: rest
           | [] => [[c]]
           end
  end.

(** [arr.join(sep)] *)
Fixpoint join (sep : jsstring) (arr : list jsstring) : jsstring :=
  match arr with
  | [] => []
  | x :: rest =>
      match rest with
      | [] => x
      | _ :: _ => x ++ sep ++ join sep rest
      end
  end.

(** [arr.slice(0, n)] for an integer [n]: a negative end counts from the
    end of the array. *)
Definition slice0 {A} (n : Z) (arr : list A) : list A :=
  if (n <? 0)%Z
  then firstn (Z.to_nat (Z.max (Z.of_nat (length arr) + n) 0)) arr
  else firstn (Z.to_nat n) arr.

(** [arr[0]] of a split result, which always has a first element. *)
Definition firstLine (s : jsstring) : jsstring := hd [] (split LF s).

(** The prefix [p] removed from [s], when [s] starts with it. *)
Fixpoint stripPrefix (p s : jsstring) {struct p} : option jsstring :=
  match p with
  | [] => Some s
  | x :: p' =>
      match s with
      | [] => None
      | y :: s' => if N.eqb x y then stripPrefix p' s' else None
      end
  end.

(** An unanchored regular expression tries every start position from the
    left; [m] is the match attempted at one position. *)
Fixpoint searchFrom {A} (m : jsstring -> option A) (s : jsstring)
  : option A :=
  match m s with
  | Some r => Some r
  | None =>
      match s with
      | [] => None
      | _ :: t => searchFrom m t
      end
  end.

(** ASCII lower-casing. [String.prototype.toLowerCase] agrees with it on
    every string of ASCII code units; on others the Unicode case tables
    decide, and the embedded functions take [toLowerCase] as a
    parameter. *)
Definition asciiLower (c : char16) : char16 :=
  if ((65 <=? c) && (c <=? 90))%N then (c + 32)%N else c.

Definition asciiToLowerCase (s : jsstring) : jsstring := map asciiLower s.

End JsString.

Import JsString.

(** How a function body completes: with a value, or by throwing. *)
Inductive completion (A : Type) : Type :=
| Normal (a : A)
| Throw (e : jsstring).

Arguments Normal {A} a.
Arguments Throw {A} e.

(* ================================================================== *)
(** ** Configuration *)
(* ================================================================== *)

Module Config.

(** The inputs read by the embedded functions. *)
Record Inputs := {
  triggerLabel : jsstring;
  targetBranch : jsstring;
  geminiApiKey : jsstring;
  versionStrategy : jsstring;
  versionPrefix : jsstring;
  environment : jsstring;
  skipIfNoChanges : bool;
  includeCommitLinks : bool;
  maxCommitsFallback : Z;
  useVertexAi : bool
}.

Section Getters.
Variable toLowerCase : jsstring -> jsstring.

  (** [get isAiEnabled] *)
Definition isAiEnabled (inputs : Inputs) : bool :=
    truthy (geminiApiKey inputs) || useVertexAi inputs.

  (** [get isProductionEnvironment] *)
Definition isProductionEnvironment (inputs : Inputs) : bool :=
    eqb (toLowerCase (environment inputs)) (js "prod").
End Getters.

End Config.

(* ================================================================== *)
(** ** main.js: the trigger evaluator *)
(* ================================================================== *)

(** A label object of the GitHub API. *)
Record Label := { name : jsstring }.

Module Main.
Import Config.

Record PullRequest := {
  merged : bool;
  base_ref : jsstring;
  labels : list Label
}.

(** [context.payload.pull_request] is undefined on events that carry no
    pull request. *)
Record Context := {
  eventName : jsstring;
  payload_pull_request : option PullRequest
}.

Record TriggerResult := { run : bool; reason : jsstring }.

Definition allowedBranches : list jsstring :=
  [js "main"; js "master"; js "dev"; js "development"].

(** [checkTriggerConditions(config, context)].  Reading [pr.merged] of an
    undefined [pr] throws a TypeError.  The [skipIfNoChanges] branch only
    writes a log line. *)
Definition checkTriggerConditions (inputs : Inputs) (context : Context)
  : completion TriggerResult :=
  if negb (eqb (eventName context) (js "pull_request")) then
    Normal {| run := false; reason := js "Not a pull request event" |}
  else
    match payload_pull_request context with
    | None => Throw (js "TypeError")
    | Some pr =>
        if negb (merged pr) then
          Normal {| run := false; reason := js "PR is not merged" |}
        else if negb (eqb (base_ref pr) (targetBranch inputs))
                && negb (existsb (eqb (base_ref pr)) allowedBranches) then
          Normal {| run := false;
                    reason := js "Target branch " ++ base_ref pr
                              ++ js " not in allowed list" |}
        else if truthy (triggerLabel inputs)
                && negb (existsb
                           (fun label => eqb (name label)
                                             (triggerLabel inputs))
                           (labels pr)) then
          Normal {| run := false;
                    reason := js "Missing required label: "
                              ++ triggerLabel inputs |}
        else
          Normal {| run := true; reason := js "All conditions met" |}
    end.

End Main.

(* ================================================================== *)
(** ** The pull-request analyzer *)
(* ================================================================== *)

Module PRAnalyzer.

(** The pull request as the API returns it; a field the code guards with
    [||] or [?.] may be absent. *)
Record PullRequest := {
  pr_title : jsstring;
  pr_body : option jsstring;
  pr_labels : option (list Label);
  pr_base_ref : option jsstring;
  pr_head_ref : option jsstring;
  pr_user_login : option jsstring;
  pr_created_at : jsstring;
  pr_merged_at : jsstring
}.

(** An element of the array built by [getPRCommits]. *)
Record Commit := {
  sha : jsstring;
  shortSha : jsstring;
  message : jsstring;
  author : jsstring;
  email : jsstring;
  date : jsstring;
  url : jsstring
}.

(** The [analysis] object.  [changeTypes] is a [Set] while the analysis is
    built: its elements are kept in insertion order, without duplicates,
    which is the order [Array.from] gives at the end. *)
Record Analysis := {
  title : jsstring;
  body : jsstring;
  labels : list jsstring;
  baseBranch : jsstring;
  headBranch : jsstring;
  analysisAuthor : jsstring;
  createdAt : jsstring;
  mergedAt : jsstring;
  filesChanged : list jsstring;
  changeTypes : list jsstring;
  isBreakingChange : bool;
  isBugfix : bool;
  isFeature : bool;
  isChore : bool
}.

(** [x || d] for an optional string. *)
Definition orElse (x : option jsstring) (d : jsstring) : jsstring :=
  match x with
  | Some s => if truthy s then s else d
  | None => d
  end.

(** [set.add(x)] *)
Definition setAdd (x : jsstring) (s : list jsstring) : list jsstring :=
  if existsb (eqb x) s then s else s ++ [x].

(** [analysis.isBreakingChange = true; analysis.changeTypes.add('breaking')] *)
Definition markBreaking (a : Analysis) : Analysis :=
  {| title := title a; body := body a; labels := labels a;
     baseBranch := baseBranch a; headBranch := headBranch a;
     analysisAuthor := analysisAuthor a; createdAt := createdAt a;
     mergedAt := mergedAt a; filesChanged := filesChanged a;
     changeTypes := setAdd (js "breaking") (changeTypes a);
     isBreakingChange := true; isBugfix := isBugfix a;
     isFeature := isFeature a; isChore := isChore a |}.

Definition markFeature (a : Analysis) : Analysis :=
  {| title := title a; body := body a; labels := labels a;
     baseBranch := baseBranch a; headBranch := headBranch a;
     analysisAuthor := analysisAuthor a; createdAt := createdAt a;
     mergedAt := mergedAt a; filesChanged := filesChanged a;
     changeTypes := setAdd (js "feature") (changeTypes a);
     isBreakingChange := isBreakingChange a; isBugfix := isBugfix a;
     isFeature := true; isChore := isChore a |}.

Definition markBugfix (a : Analysis) : Analysis :=
  {| title := title a; body := body a; labels := labels a;
     baseBranch := baseBranch a; headBranch := headBranch a;
     analysisAuthor := analysisAuthor a; createdAt := createdAt a;
     mergedAt := mergedAt a; filesChanged := filesChanged a;
     changeTypes := setAdd (js "bugfix") (changeTypes a);
     isBreakingChange := isBreakingChange a; isBugfix := true;
     isFeature := isFeature a; isChore := isChore a |}.

Definition markChore (a : Analysis) : Analysis :=
  {| title := title a; body := body a; labels := labels a;
     baseBranch := baseBranch a; headBranch := headBranch a;
     analysisAuthor := analysisAuthor a; createdAt := createdAt a;
     mergedAt := mergedAt a; filesChanged := filesChanged a;
     changeTypes := setAdd (js "chore") (changeTypes a);
     isBreakingChange := isBreakingChange a; isBugfix := isBugfix a;
     isFeature := isFeature a; isChore := true |}.

(** [analysis.filesChanged.push(file)] when the file is not yet listed. *)
Definition addFile (file : jsstring) (a : Analysis) : Analysis :=
  {| title := title a; body := body a; labels := labels a;
     baseBranch := baseBranch a; headBranch := headBranch a;
     analysisAuthor := analysisAuthor a; createdAt := createdAt a;
     mergedAt := mergedAt a;
     filesChanged := if existsb (eqb file) (filesChanged a)
                     then filesChanged a
                     else filesChanged a ++ [file];
     changeTypes := changeTypes a;
     isBreakingChange := isBreakingChange a; isBugfix := isBugfix a;
     isFeature := isFeature a; isChore := isChore a |}.

(** [if (cond) { mark }] *)
Definition when (cond : bool) (mark : Analysis -> Analysis) (a : Analysis)
  : Analysis :=
  if cond then mark a else a.

(** The greedy [.+] of a regular expression followed by the rest [k] of the
    pattern: at least one character that is no line terminator, the longest
    run tried first. *)
Fixpoint dotPlusThen {A} (k : jsstring -> option A) (s : jsstring)
  : option A :=
  match s with
  | [] => None
  | c :: t =>
      if isLineTerminator c then None
      else match dotPlusThen k t with
           | Some r => Some r
           | None => k t
           end
  end.

(** The final greedy [(.+)]: the longest run of characters that are no line
    terminators. *)
Fixpoint dotRun (s : jsstring) : jsstring :=
  match s with
  | [] => []
  | c :: t => if isLineTerminator c then [] else c :: dotRun t
  end.

(** [line.match(/diff --git a\/(.+) b\/(.+)/)], giving [match[2]]. *)
Definition matchDiffHeader (line : jsstring) : option jsstring :=
  searchFrom
    (fun s =>
       match stripPrefix (js "diff --git a/") s with
       | None => None
       | Some r =>
           dotPlusThen
             (fun t =>
                match stripPrefix (js " b/") t with
                | None => None
                | Some u =>
                    match dotRun u with
                    | [] => None
                    | c :: g => Some (c :: g)
                    end
                end)
             r
       end)
    line.

Section Analyze.
Variable toLowerCase : jsstring -> jsstring.

(** The body of [commits.forEach]. *)
Definition analyzeCommit (a : Analysis) (commit : Commit) : Analysis :=
  let message := toLowerCase (message commit) in
  let a := when (includes message (js "breaking change")
                 || includes message (js "!:")) markBreaking a in
  let a := when (startsWith message (js "feat")) markFeature a in
  let a := when (startsWith message (js "fix")) markBugfix a in
  when (startsWith message (js "chore") || startsWith message (js "ci")
        || startsWith message (js "docs")) markChore a.

(** The body of [analysis.labels.forEach]. *)
Definition analyzeLabel (a : Analysis) (label : jsstring) : Analysis :=
  let lowerLabel := toLowerCase label in
  let a := when (includes lowerLabel (js "breaking")) markBreaking a in
  let a := when (includes lowerLabel (js "bug")
                 || includes lowerLabel (js "fix")) markBugfix a in
  when (includes lowerLabel (js "feature")
        || includes lowerLabel (js "enhancement")) markFeature a.

(** The body of [diffLines.forEach]. *)
Definition analyzeDiffLine (a : Analysis) (line : jsstring) : Analysis :=
  if startsWith line (js "diff --git") then
    match matchDiffHeader line with
    | Some currentFile => addFile currentFile a
    | None => a
    end
  else a.

(** The object literal that [analyzeChanges] starts from. *)
Definition initialAnalysis (pr : PullRequest) : Analysis :=
  {| title := pr_title pr;
     body := orElse (pr_body pr) [];
     labels := map name (match pr_labels pr with
                         | Some ls => ls
                         | None => []
                         end);
     baseBranch := orElse (pr_base_ref pr) (js "unknown");
     headBranch := orElse (pr_head_ref pr) (js "unknown");
     analysisAuthor := orElse (pr_user_login pr) (js "unknown");
     createdAt := pr_created_at pr;
     mergedAt := pr_merged_at pr;
     filesChanged := [];
     changeTypes := [];
     isBreakingChange := false;
     isBugfix := false;
     isFeature := false;
     isChore := false |}.

(** [analyzeChanges(pr, diff, commits = [])].  [diff] is [None] when it is
    not a string; [commits] is [None] when it is null or omitted. *)
Definition analyzeChanges (pr : PullRequest) (diff : option jsstring)
           (commits : option (list Commit)) : Analysis :=
  let analysis := initialAnalysis pr in
  let analysis :=
    fold_left analyzeCommit
              (match commits with Some cs => cs | None => [] end) analysis in
  let analysis := fold_left analyzeLabel (labels analysis) analysis in
  match diff with
  | Some d =>
      if truthy d then fold_left analyzeDiffLine (split LF d) analysis
      else analysis
  | None => analysis
  end.

End Analyze.

(** [getSuggestedVersionIncrement(analysis)] *)
Definition getSuggestedVersionIncrement (inputs : Config.Inputs)
           (analysis : Analysis) : jsstring :=
  if negb (eqb (Config.versionStrategy inputs) (js "auto")) then
    Config.versionStrategy inputs
  else if isBreakingChange analysis then js "major"
  else if isFeature analysis then js "minor"
  else js "patch".

End PRAnalyzer.

(* ================================================================== *)
(** ** utils/git.js: the repository facts *)
(* ================================================================== *)

Module GitUtils.

(** What one [exec.exec('git', ...)] hands back: the exit code and what the
    [stdout] listener collected. *)
Record ExecResult := { exitCode : Z; stdout : jsstring }.

(** The answers of the repository to the two queries of [generateVersion]. *)
Record Repository := {
  describeTags : ExecResult;   (* git describe --tags --abbrev=0 *)
  revParseShort : ExecResult   (* git rev-parse --short HEAD *)
}.

(** [getLatestTag()], run with [ignoreReturnCode: true]. *)
Definition getLatestTag (r : ExecResult) : jsstring :=
  if (exitCode r =? 0)%Z && truthy (trim (stdout r))
  then trim (stdout r)
  else js "1.0.0".

(** [getShortCommit()]: without [ignoreReturnCode], [exec.exec] rejects on
    a non-zero exit code. *)
Definition getShortCommit (r : ExecResult) : completion jsstring :=
  if (exitCode r =? 0)%Z then Normal (trim (stdout r))
  else Throw (js "The process failed").

End GitUtils.

(* ================================================================== *)
(** ** The version manager *)
(* ================================================================== *)

Module VersionManager.
Import Config GitUtils.

Record VersionInfo := {
  newVersion : jsstring;
  previousVersion : jsstring;
  tagName : jsstring;
  cleanPreviousVersion : jsstring
}.

Definition prefixes : list jsstring :=
  [js "v"; js "release-"; js "version-"].

(** The [for (const prefix of prefixes)] loop of [cleanVersion], which
    breaks after the first prefix that matches. *)
Fixpoint stripFirstPrefix (prefixes : list jsstring) (cleaned : jsstring)
  : jsstring :=
  match prefixes with
  | [] => cleaned
  | prefix :: rest =>
      if startsWith cleaned prefix
      then substring (length prefix) cleaned
      else stripFirstPrefix rest cleaned
  end.

Section Versioning.

(** The [semver] package is a dependency of the repository, not part of
    it.  [semver.valid(v)] is [null] or the normalised version;
    [semver.inc(v, release)] is [null] or the incremented version. *)
Variable semver_valid : jsstring -> option jsstring.
Variable semver_inc : jsstring -> jsstring -> option jsstring.

(** [basicIncrement] computes on IEEE doubles ([parseInt], [+ 1] and the
    conversion back to a string); it is reached only when [semver.inc]
    gives nothing and is taken as given. *)
Variable basicIncrement : jsstring -> jsstring -> jsstring.

Variable toLowerCase : jsstring -> jsstring.

(** [!semver.valid(cleaned)] is false for a non-empty string only. *)
Definition isValid (v : jsstring) : bool :=
  match semver_valid v with
  | Some r => truthy r
  | None => false
  end.

(** [cleanVersion(version)] *)
Definition cleanVersion (version : jsstring) : jsstring :=
  let cleaned := stripFirstPrefix prefixes version in
  if negb (isValid cleaned) then js "1.0.0" else cleaned.

(** [incrementVersion(currentVersion, increment)] *)
Definition incrementVersion (currentVersion increment : jsstring)
  : jsstring :=
  let increment :=
    if negb (existsb (eqb increment) [js "patch"; js "minor"; js "major"])
    then js "patch" else increment in
  match semver_inc currentVersion increment with
  | Some newVersion =>
      if truthy newVersion then newVersion
      else basicIncrement currentVersion increment
  | None => basicIncrement currentVersion increment
  end.

(** [generateVersion(versionIncrement = null)] *)
Definition generateVersion (inputs : Inputs) (repo : Repository)
           (versionIncrement : option jsstring) : completion VersionInfo :=
  let latestTag := getLatestTag (describeTags repo) in
  let increment := PRAnalyzer.orElse versionIncrement
                                     (versionStrategy inputs) in
  let cleanLatestVersion := cleanVersion latestTag in
  let computed :=
    if isProductionEnvironment toLowerCase inputs then
      Normal (incrementVersion cleanLatestVersion increment)
    else
      match getShortCommit (revParseShort repo) with
      | Normal shortCommit =>
          Normal (cleanLatestVersion ++ js "-dev." ++ shortCommit)
      | Throw e => Throw e
      end in
  match computed with
  | Normal newVersion =>
      Normal {| newVersion := newVersion;
                previousVersion := latestTag;
                tagName := versionPrefix inputs ++ newVersion;
                cleanPreviousVersion := cleanLatestVersion |}
  | Throw e => Throw e
  end.

End Versioning.

End VersionManager.

(* ================================================================== *)
(** ** The release-notes generator *)
(* ================================================================== *)

Module ReleaseNotesGenerator.
Import Config.

(** The [versionInfo] object after [main.js] has stored the build number
    in it. *)
Record VersionInfo := {
  info : VersionManager.VersionInfo;
  buildNumber : jsstring
}.

(** The part of the [prAnalysis] object that the generator reads;
    [commits] is [None] when the property is null or undefined. *)
Record PRAnalysis := {
  analysis : PRAnalyzer.Analysis;
  commits : option (list PRAnalyzer.Commit)
}.

Record Notes := { releaseNotes : jsstring; slackMessage : jsstring }.

(** U+1F680 as a surrogate pair, and U+2022. *)
Definition rocket : jsstring := [55357%N; 56960%N].
Definition bullet : jsstring := [8226%N].

(** *** Parsing the reply of the generation service *)

(** The lazy [([\s\S]*?)] followed by a line feed and the end marker: the
    shortest capture after which the marker line starts. *)
Fixpoint lazyUntil (endMarker s : jsstring) {struct s} : option jsstring :=
  if startsWith s (LF :: endMarker) then Some []
  else match s with
       | [] => None
       | c :: t => option_map (cons c) (lazyUntil endMarker t)
       end.

(** The greedy [\s*] followed by [\n] and the capture: the longest run of
    white space is tried first, and given back one character at a time. *)
Fixpoint spacesThenLine (endMarker s : jsstring) {struct s}
  : option jsstring :=
  match s with
  | [] => None
  | c :: t =>
      if isWhiteSpace c then
        match spacesThenLine endMarker t with
        | Some r => Some r
        | None => if N.eqb c LF then lazyUntil endMarker t else None
        end
      else None
  end.

(** [aiOutput.match(/<start>\s*\n([\s\S]*?)\n<end>/)], giving [match[1]]. *)
Definition matchBlock (startMarker endMarker aiOutput : jsstring)
  : option jsstring :=
  searchFrom
    (fun s =>
       match stripPrefix startMarker s with
       | None => None
       | Some r => spacesThenLine endMarker r
       end)
    aiOutput.

(** The replacement text of one match of a pattern without capture groups
    (GetSubstitution of ECMA-262): [$$], [$`], [$&] and [$'] are expanded,
    any other [$] is literal. *)
Fixpoint getSubstitution (matched before after template : jsstring)
  : jsstring :=
  match template with
  | [] => []
  | c :: t =>
      if (c =? 36)%N then
        match t with
        | [] => [c]
        | d :: t' =>
            if (d =? 36)%N then
              36%N :: getSubstitution matched before after t'
            else if (d =? 96)%N then
              before ++ getSubstitution matched before after t'
            else if (d =? 38)%N then
              matched ++ getSubstitution matched before after t'
            else if (d =? 39)%N then
              after ++ getSubstitution matched before after t'
            else c :: getSubstitution matched before after t
        end
      else c :: getSubstitution matched before after t
  end.

(** [s.replace(/<pat>/g, template)] for a non-empty literal pattern:
    [before] is the text of [s] already passed, [skip] counts the code
    units of a match still to be passed over. *)
Fixpoint replaceAllFrom (pat template : jsstring) (skip : nat)
         (before s : jsstring) {struct s} : jsstring :=
  match s with
  | [] => []
  | c :: t =>
      match skip with
      | S k => replaceAllFrom pat template k (before ++ [c]) t
      | O =>
          match stripPrefix pat s with
          | Some rest =>
              getSubstitution pat before rest template
              ++ replaceAllFrom pat template (length pat - 1)
                                (before ++ [c]) t
          | None => c :: replaceAllFrom pat template 0 (before ++ [c]) t
          end
      end
  end.

(** [text.replace(/BUILD_NUMBER/g, buildNumber)] *)
Definition replaceBuildNumber (text buildNumber : jsstring) : jsstring :=
  replaceAllFrom (js "BUILD_NUMBER") buildNumber 0 [] text.

(** [extractSlackSummary(text, buildNumber)] *)
Definition extractSlackSummary (text buildNumber : jsstring) : jsstring :=
  let lines := filter (fun line => truthy (trim line)) (split LF text) in
  let summary := join [LF] (firstn 5 lines) in
  rocket ++ js " Build " ++ buildNumber ++ js " deployed" ++ [LF; LF]
  ++ summary.

(** [parseAIResponse(aiOutput, buildNumber)].  Its [try] block holds string
    operations only, none of which throws; the two [core.info] lines write
    to the log. *)
Definition parseAIResponse (aiOutput buildNumber : jsstring) : Notes :=
  let releaseNotes :=
    match matchBlock (js "RELEASE_NOTES_START") (js "RELEASE_NOTES_END")
                     aiOutput with
    | Some captured => trim captured
    | None => []
    end in
  let slackMessage :=
    match matchBlock (js "SLACK_MESSAGE_START") (js "SLACK_MESSAGE_END")
                     aiOutput with
    | Some captured => trim captured
    | None => []
    end in
  let filled :=
    if negb (truthy releaseNotes) && negb (truthy slackMessage) then
      (aiOutput, extractSlackSummary aiOutput buildNumber)
    else if negb (truthy releaseNotes) then
      (aiOutput, slackMessage)
    else if negb (truthy slackMessage) then
      (releaseNotes, extractSlackSummary releaseNotes buildNumber)
    else
      (releaseNotes, slackMessage) in
  {| releaseNotes := replaceBuildNumber (fst filled) buildNumber;
     slackMessage := replaceBuildNumber (snd filled) buildNumber |}.

(** *** Calling the generation service *)

(** What the generation service hands back: the call throws, or it yields
    a response whose text may be missing. *)
Inductive ServiceReply :=
| ServiceError
| ServiceText (text : option jsstring).

(** [callVertexAI(prompt)]: [Some output] stands for
    [{ success: true, output }], [None] for [{ success: false }]. *)
Definition callVertexAI (reply : ServiceReply) : option jsstring :=
  match reply with
  | ServiceText (Some output) =>
      if truthy output then Some (trim output) else None
  | _ => None
  end.

(** [callGeminiAPI(prompt)] *)
Definition callGeminiAPI (inputs : Inputs) (reply : ServiceReply)
  : option jsstring :=
  if useVertexAi inputs then callVertexAI reply
  else if negb (truthy (geminiApiKey inputs)) then None
  else match reply with
       | ServiceText (Some output) =>
           if truthy output then Some (trim output) else None
       | _ => None
       end.

(** [generateWithAI(prAnalysis, versionInfo)]: [Some notes] stands for
    [{ success: true, ... }], [None] for [{ success: false }].  The prompt
    only travels to the service, whose reply is an argument here. *)
Definition generateWithAI (inputs : Inputs) (versionInfo : VersionInfo)
           (reply : ServiceReply) : option Notes :=
  match callGeminiAPI inputs reply with
  | Some output =>
      if truthy output
      then Some (parseAIResponse output (buildNumber versionInfo))
      else None
  | None => None
  end.

(** *** The template fallback *)

Definition publicChanges (a : PRAnalyzer.Analysis) : jsstring :=
  if PRAnalyzer.isBreakingChange a then
    js "Breaking changes - please review migration notes"
  else if PRAnalyzer.isFeature a then
    js "New features and enhancements"
  else if PRAnalyzer.isBugfix a then
    js "Bug fixes and stability improvements"
  else
    js "General improvements and bug fixes".

Definition internalChanges (inputs : Inputs) (prAnalysis : PRAnalysis)
  : list jsstring :=
  let internalChanges :=
    match commits prAnalysis with
    | Some (c :: cs) =>
        map (fun commit =>
               let message := firstLine (PRAnalyzer.message commit) in
               if includeCommitLinks inputs then
                 message ++ js " ([" ++ PRAnalyzer.shortSha commit
                 ++ js "](" ++ PRAnalyzer.url commit ++ js "))"
               else message)
            (slice0 (maxCommitsFallback inputs) (c :: cs))
    | _ => []
    end in
  match internalChanges with
  | [] => [js "Various code improvements and maintenance"]
  | _ :: _ => internalChanges
  end.

Definition slackCommits (prAnalysis : PRAnalysis) : list jsstring :=
  match commits prAnalysis with
  | Some cs =>
      map (fun commit => firstLine (PRAnalyzer.message commit))
          (slice0 3 cs)
  | None => [js "Various improvements"]
  end.

(** The first line of both texts: [v<version> - <build> [<environment>]]. *)
Definition headline (inputs : Inputs) (versionInfo : VersionInfo)
  : jsstring :=
  js "v" ++ VersionManager.newVersion (info versionInfo) ++ js " - "
  ++ buildNumber versionInfo ++ js " [" ++ environment inputs ++ js "]".

(** [generateFromTemplate(prAnalysis, versionInfo)] *)
Definition generateFromTemplate (inputs : Inputs) (prAnalysis : PRAnalysis)
           (versionInfo : VersionInfo) : Notes :=
  {| releaseNotes :=
       js "## " ++ headline inputs versionInfo ++ [LF; LF]
       ++ js "### Public" ++ [LF]
       ++ publicChanges (analysis prAnalysis) ++ [LF; LF]
       ++ js "### Internal" ++ [LF]
       ++ join [LF] (map (fun change => js "- " ++ change)
                         (internalChanges inputs prAnalysis));
     slackMessage :=
       rocket ++ js " *" ++ headline inputs versionInfo ++ js "*"
       ++ [LF; LF] ++ js "*Changes:*" ++ [LF]
       ++ join [LF] (map (fun change => bullet ++ js " " ++ change)
                         (slackCommits prAnalysis)) |}.

(** *** The two paths together *)

Record Generated := {
  generatedNotes : Notes;
  aiGenerated : bool;
  generatedBuildNumber : jsstring
}.

(** [generateReleaseNotes(prAnalysis, versionInfo)].  [saveError] is the
    error of [saveReleaseNotes], if writing the two files fails; it is
    thrown again. *)
Definition generateReleaseNotes (inputs : Inputs) (prAnalysis : PRAnalysis)
           (versionInfo : VersionInfo) (reply : ServiceReply)
           (saveError : option jsstring) : completion Generated :=
  let fromAI :=
    if isAiEnabled inputs then generateWithAI inputs versionInfo reply
    else None in
  let result :=
    match fromAI with
    | Some notes =>
        {| generatedNotes := notes; aiGenerated := true;
           generatedBuildNumber := buildNumber versionInfo |}
    | None =>
        {| generatedNotes :=
             generateFromTemplate inputs prAnalysis versionInfo;
           aiGenerated := false;
           generatedBuildNumber := buildNumber versionInfo |}
    end in
  match saveError with
  | Some e => Throw e
  | None => Normal result
  end.

End ReleaseNotesGenerator.

(* ================================================================== *)
(** ** The changelog manager *)
(* ================================================================== *)

Module ChangelogManager.

(** [createInitialChangelog()]; [repository] is
    [process.env.GITHUB_REPOSITORY], [None] when the variable is unset. *)
Definition createInitialChangelog (repository : option jsstring)
  : jsstring :=
  let repoName := PRAnalyzer.orElse repository (js "Repository") in
  js "# Changelog" ++ [LF; LF]
  ++ js "All notable changes to " ++ repoName
  ++ js " will be documented in this file." ++ [LF; LF]
  ++ js "The format is based on [Keep a Changelog](https://keepachangelog.com/en/1.0.0/),"
  ++ [LF]
  ++ js "and this project adheres to [Semantic Versioning](https://semver.org/spec/v2.0.0.html)."
  ++ [LF; LF].

Fixpoint dropSpaces (s : jsstring) : jsstring :=
  match s with
  | [] => []
  | c :: t => if isWhiteSpace c then dropSpaces t else s
  end.

Fixpoint dropDigits (s : jsstring) : jsstring :=
  match s with
  | [] => []
  | c :: t => if isDigit c then dropDigits t else s
  end.

(** [\d+]: one digit at least, then every digit that follows. *)
Definition digits1 (s : jsstring) : option jsstring :=
  match s with
  | c :: t => if isDigit c then Some (dropDigits t) else None
  | [] => None
  end.

(** [\.] *)
Definition dot (s : jsstring) : option jsstring :=
  match s with
  | c :: t => if (c =? 46)%N then Some t else None
  | [] => None
  end.

(** [line.match(/^##\s+\[?\d+\.\d+\.\d+/)] as a condition.  Each greedy
    quantifier is followed by a character outside its class, so giving
    characters back never helps and the match is decided in one pass. *)
Definition matchesVersionHeading (line : jsstring) : bool :=
  match stripPrefix (js "##") line with
  | Some (c :: t) =>
      if isWhiteSpace c then
        let r := dropSpaces t in
        let r := match r with
                 | d :: r' => if (d =? 91)%N then r' else r
                 | [] => r
                 end in
        match digits1 r with
        | Some r1 =>
            match dot r1 with
            | Some r2 =>
                match digits1 r2 with
                | Some r3 =>
                    match dot r3 with
                    | Some r4 =>
                        match digits1 r4 with
                        | Some _ => true
                        | None => false
                        end
                    | None => false
                    end
                | None => false
                end
            | None => false
            end
        | None => false
        end
      else false
  | _ => false
  end.

(** The second test of the loop: past the header, a line with content
    that is neither a heading nor the format sentence. *)
Definition isContentLine (i : nat) (line : jsstring) : bool :=
  (5 <? i) && truthy line && negb (startsWith line (js "#"))
  && negb (startsWith line (js "The format is")).

(** The [for] loop of [findInsertionPoint] from index [i] on, [lines]
    being the lines from that index; it runs off the end at
    [lines.length]. *)
Fixpoint findInsertionPointFrom (i : nat) (lines : list jsstring) : nat :=
  match lines with
  | [] => i
  | l :: rest =>
      let line := trim l in
      if matchesVersionHeading line then i
      else if isContentLine i line then i
      else findInsertionPointFrom (S i) rest
  end.

(** [findInsertionPoint(lines)] *)
Definition findInsertionPoint (lines : list jsstring) : nat :=
  findInsertionPointFrom 0 lines.

(** [lines.splice(index, 0, item)] *)
Definition splice {A} (index : nat) (item : A) (lines : list A) : list A :=
  firstn index lines ++ item :: skipn index lines.

(** [insertEntry(currentContent, newEntry)] *)
Definition insertEntry (currentContent newEntry : jsstring) : jsstring :=
  let lines := split LF currentContent in
  let insertIndex := findInsertionPoint lines in
  join [LF] (splice insertIndex newEntry lines).

End ChangelogManager.

(* ================================================================== *)
(** ** A model of [semver.valid] *)
(* ================================================================== *)

(** The [semver] package is not part of the repository.  This module
    follows the strict grammar of its [valid] function, so that the version
    manager can be run on concrete tags; every general statement below
    holds for any function in its place. *)
Module Semver.

Definition MAX_LENGTH : nat := 256.
Definition MAX_SAFE_INTEGER : N := 9007199254740991%N.

Definition isLetter (c : char16) : bool :=
  ((65 <=? c) && (c <=? 90) || (97 <=? c) && (c <=? 122))%N.

(** [[0-9A-Za-z-]] *)
Definition isIdentifierChar (c : char16) : bool :=
  isDigit c || isLetter c || (c =? 45)%N.

(** The value of a run of decimal digits. *)
Definition decimalValue (ds : jsstring) : N :=
  fold_left (fun acc d => (acc * 10 + (d - 48))%N) ds 0%N.

(** [0|[1-9]\d*] for the whole of [ds]. *)
Definition isNumericIdentifier (ds : jsstring) : bool :=
  match ds with
  | [] => false
  | c :: t => forallb isDigit ds && ((c =? 48)%N && negb (truthy t)
                                     || negb (c =? 48)%N)
  end.

(** A numeric identifier, or [\d*[a-zA-Z-][0-9A-Za-z-]*]. *)
Definition isPrereleaseIdentifier (id : jsstring) : bool :=
  isNumericIdentifier id
  || forallb isIdentifierChar id && negb (forallb isDigit id).

(** [[0-9A-Za-z-]+] *)
Definition isBuildIdentifier (id : jsstring) : bool :=
  truthy id && forallb isIdentifierChar id.

(** A component of the main version: a numeric identifier within the safe
    integers. *)
Definition isComponent (ds : jsstring) : bool :=
  isNumericIdentifier ds && (decimalValue ds <=? MAX_SAFE_INTEGER)%N.

(** The text before the first occurrence of [c], and the text after it. *)
Fixpoint breakAt (c : char16) (s : jsstring)
  : jsstring * option jsstring :=
  match s with
  | [] => ([], None)
  | x :: t =>
      if N.eqb x c then ([], Some t)
      else let (a, b) := breakAt c t in (x :: a, b)
  end.

(** [semver.valid(version)]: [None] for [null]. *)
Definition valid (version : jsstring) : option jsstring :=
  if (MAX_LENGTH <? length version)%nat then None
  else
    let trimmed := trim version in
    let plain := match trimmed with
                 | c :: t => if (c =? 118)%N then t else trimmed
                 | [] => trimmed
                 end in
    let (withoutBuild, build) := breakAt 43%N plain in
    let (main, prerelease) := breakAt 45%N withoutBuild in
    let buildOk := match build with
                   | Some b => forallb isBuildIdentifier (split 46%N b)
                   | None => true
                   end in
    let prereleaseOk :=
      match prerelease with
      | Some p => forallb isPrereleaseIdentifier (split 46%N p)
      | None => true
      end in
    match split 46%N main with
    | [major; minor; patch] =>
        if isComponent major && isComponent minor && isComponent patch
           && prereleaseOk && buildOk
        then Some (withoutBuild)
        else None
    | _ => None
    end.

End Semver.

(* ================================================================== *)
(** ** The earlier copies of the release-notes generator *)
(* ================================================================== *)

(** The repository also holds two earlier copies of the generator.  Their
    [parseAIResponse] has no fallback for a missing block: it throws, and
    [generateWithAI] turns the exception into [{ success: false }]. *)
Module EarlierReleaseNotesGenerator.
Import ReleaseNotesGenerator.

(** [parseAIResponse(aiOutput, buildNumber)] of the earlier copies. *)
Definition parseAIResponse (aiOutput buildNumber : jsstring)
  : completion Notes :=
  let releaseNotes :=
    match matchBlock (js "RELEASE_NOTES_START") (js "RELEASE_NOTES_END")
                     aiOutput with
    | Some captured => trim captured
    | None => []
    end in
  let slackMessage :=
    match matchBlock (js "SLACK_MESSAGE_START") (js "SLACK_MESSAGE_END")
                     aiOutput with
    | Some captured => trim captured
    | None => []
    end in
  let releaseNotes := replaceBuildNumber releaseNotes buildNumber in
  let slackMessage := replaceBuildNumber slackMessage buildNumber in
  if negb (truthy releaseNotes) || negb (truthy slackMessage) then
    Throw (js "Failed to parse AI response - missing sections")
  else
    Normal {| releaseNotes := releaseNotes; slackMessage := slackMessage |}.

End EarlierReleaseNotesGenerator.

(* ================================================================== *)
(** ** Numbers in template literals *)
(* ================================================================== *)

Module JsNumber.

Fixpoint digitsOfUint (u : Decimal.uint) : jsstring :=
  match u with
  | Decimal.Nil => []
  | Decimal.D0 u => 48%N :: digitsOfUint u
  | Decimal.D1 u => 49%N :: digitsOfUint u
  | Decimal.D2 u => 50%N :: digitsOfUint u
  | Decimal.D3 u => 51%N :: digitsOfUint u
  | Decimal.D4 u => 52%N :: digitsOfUint u
  | Decimal.D5 u => 53%N :: digitsOfUint u
  | Decimal.D6 u => 54%N :: digitsOfUint u
  | Decimal.D7 u => 55%N :: digitsOfUint u
  | Decimal.D8 u => 56%N :: digitsOfUint u
  | Decimal.D9 u => 57%N :: digitsOfUint u
  end.

(** [String(n)] for a natural number below 2^53: its decimal digits. *)
Definition decimal (n : nat) : jsstring := digitsOfUint (Nat.to_uint n).

(** [String(z)] for an integer of the same size. *)
Definition decimalZ (z : Z) : jsstring :=
  if (z <? 0)%Z then 45%N :: decimal (Z.abs_nat z) else decimal (Z.to_nat z).

(** [s.padStart(2, '0')] *)
Definition padStart2 (s : jsstring) : jsstring :=
  match s with
  | [] => [48%N; 48%N]
  | [c] => [48%N; c]
  | _ => s
  end.

End JsNumber.

(* ================================================================== *)
(** ** utils/git.js: the commit log *)
(* ================================================================== *)

Module GitLog.
Import GitUtils.

(** An element of the array built by [parseCommits]; a field after the
    hash is [None] when the line has too few [|]. *)
Record CommitRecord := {
  hash : jsstring;
  shortHash : jsstring;
  subject : option jsstring;
  author : option jsstring;
  email : option jsstring;
  date : option jsstring
}.

(** The body of the [map] in [parseCommits]. *)
Definition parseLine (line : jsstring) : CommitRecord :=
  let fields := split 124%N line in
  let hash := hd [] fields in
  {| hash := trim hash;
     shortHash := firstn 7 (trim hash);
     subject := option_map trim (nth_error fields 1);
     author := option_map trim (nth_error fields 2);
     email := option_map trim (nth_error fields 3);
     date := option_map trim (nth_error fields 4) |}.

(** [parseCommits(output)] *)
Definition parseCommits (output : jsstring) : list CommitRecord :=
  if negb (truthy (trim output)) then []
  else filter (fun commit => truthy (hash commit))
              (map parseLine (split LF (trim output))).

(** [getCommitsSinceTag(tag)]: [range] is what [git log <tag>..HEAD]
    hands back and [recent] what [git log -<maxCommitsFallback>] does.
    Both calls reject on a non-zero exit code, and both write to the same
    [output]. *)
Definition getCommitsSinceTag (range recent : ExecResult)
  : list CommitRecord :=
  if negb (exitCode range =? 0)%Z then []
  else if negb (truthy (trim (stdout range))) then
    if negb (exitCode recent =? 0)%Z then []
    else parseCommits (stdout range ++ stdout recent)
  else parseCommits (stdout range).

End GitLog.

(** What git prints for the commits of a log under
    [--pretty=format:%H|%s|%an|%ae|%ad]. *)
Module GitLogFormat.

Record LogEntry := {
  entryHash : jsstring;
  entrySubject : jsstring;
  entryAuthor : jsstring;
  entryEmail : jsstring;
  entryDate : jsstring
}.

Definition printEntry (e : LogEntry) : jsstring :=
  entryHash e ++ [124%N] ++ entrySubject e ++ [124%N] ++ entryAuthor e
  ++ [124%N] ++ entryEmail e ++ [124%N] ++ entryDate e.

Definition printLog (entries : list LogEntry) : jsstring :=
  join [LF] (map printEntry entries).

(** The record that stands for a log entry. *)
Definition recordOf (e : LogEntry) : GitLog.CommitRecord :=
  {| GitLog.hash := entryHash e;
     GitLog.shortHash := firstn 7 (entryHash e);
     GitLog.subject := Some (entrySubject e);
     GitLog.author := Some (entryAuthor e);
     GitLog.email := Some (entryEmail e);
     GitLog.date := Some (entryDate e) |}.

(** A field as git prints it: no separator, no line feed, no white space
    at either end. *)
Definition cleanField (f : jsstring) : Prop :=
  ~ In 124%N f /\ ~ In LF f /\ trim f = f.

Definition cleanEntry (e : LogEntry) : Prop :=
  entryHash e <> []
  /\ cleanField (entryHash e) /\ cleanField (entrySubject e)
  /\ cleanField (entryAuthor e) /\ cleanField (entryEmail e)
  /\ cleanField (entryDate e).

End GitLogFormat.

(* ================================================================== *)
(** ** The version manager: build numbers and validation *)
(* ================================================================== *)

Module VersionChecks.
Import JsNumber VersionManager.

(** What the getters of [new Date()] hand back, in local time. *)
Record LocalTime := {
  fullYear : Z;
  month : nat;      (* getMonth(): 0 for January *)
  dayOfMonth : nat; (* getDate() *)
  hours : nat;
  minutes : nat
}.

(** [generateBuildNumber()] at the time [now]. *)
Definition generateBuildNumber (now : LocalTime) : jsstring :=
  let year := decimalZ (fullYear now) in
  let month := padStart2 (decimal (month now + 1)) in
  let day := padStart2 (decimal (dayOfMonth now)) in
  let hours := padStart2 (decimal (hours now)) in
  let minutes := padStart2 (decimal (minutes now)) in
  year ++ month ++ day ++ js "." ++ hours ++ minutes.

(** [validateVersion(version)] *)
Definition validateVersion (semver_valid : jsstring -> option jsstring)
           (version : jsstring) : bool :=
  let cleaned := cleanVersion semver_valid version in
  match semver_valid cleaned with
  | Some _ => true
  | None => false
  end.

End VersionChecks.

(* ================================================================== *)
(** ** Configuration: the settings of the sinks, and validation *)
(* ================================================================== *)

Module Settings.
Import Config.

(** The properties of [config.inputs] that the sinks and [validate]
    read, beside those of [Config.Inputs]. *)
Record SinkInputs := {
  createRelease : bool;
  releaseDraft : bool;
  releasePrerelease : bool;
  updateChangelog : bool;
  changelogFile : jsstring;
  enableSlack : bool;
  slackWebhookUrl : jsstring;
  slackChannel : jsstring;
  slackMentionUsers : jsstring;
  slackMentionGroups : jsstring;
  includePrLinks : bool;
  outputFormat : jsstring;
  gcpProjectId : jsstring;
  gcpWorkloadIdentityProvider : jsstring
}.

(** [get isSlackEnabled], as a condition. *)
Definition isSlackEnabled (sinks : SinkInputs) : bool :=
  enableSlack sinks && truthy (slackWebhookUrl sinks).

(** [get isReleaseEnabled] *)
Definition isReleaseEnabled (sinks : SinkInputs) : bool := createRelease sinks.

(** [get isChangelogEnabled] *)
Definition isChangelogEnabled (sinks : SinkInputs) : bool :=
  updateChangelog sinks.

Definition validVersionStrategies : list jsstring :=
  [js "patch"; js "minor"; js "major"; js "auto"].

Definition validOutputFormats : list jsstring :=
  [js "markdown"; js "html"; js "json"].

(** [if (cond) { errors.push(message) }] *)
Definition pushIf (cond : bool) (message : jsstring) (errors : list jsstring)
  : list jsstring :=
  if cond then errors ++ [message] else errors.

(** The [errors] array that [validate] builds. *)
Definition validationErrors (inputs : Inputs) (sinks : SinkInputs)
  : list jsstring :=
  let errors := [] in
  let errors :=
    pushIf (negb (existsb (eqb (versionStrategy inputs))
                          validVersionStrategies))
           (js "Invalid version_strategy: " ++ versionStrategy inputs
            ++ js ". Must be one of: "
            ++ join (js ", ") validVersionStrategies)
           errors in
  let errors :=
    pushIf (negb (existsb (eqb (outputFormat sinks)) validOutputFormats))
           (js "Invalid output_format: " ++ outputFormat sinks
            ++ js ". Must be one of: " ++ join (js ", ") validOutputFormats)
           errors in
  let errors :=
    pushIf (enableSlack sinks && negb (truthy (slackWebhookUrl sinks)))
           (js "slack_webhook_url is required when enable_slack is true")
           errors in
  let errors :=
    pushIf (useVertexAi inputs && negb (truthy (gcpProjectId sinks)))
           (js "gcp_project_id is required when use_vertex_ai is true")
           errors in
  pushIf (useVertexAi inputs
          && (negb (truthy (gcpWorkloadIdentityProvider sinks))
              && negb (truthy (geminiApiKey inputs))))
         (js "Either gcp_workload_identity_provider or gemini_api_key is required when use_vertex_ai is true")
         errors.

(** [validate()]: it returns nothing, or throws one error that lists
    every problem. *)
Definition validate (inputs : Inputs) (sinks : SinkInputs)
  : completion unit :=
  match validationErrors inputs sinks with
  | [] => Normal tt
  | e :: es =>
      Throw (js "Configuration validation failed:" ++ [LF]
             ++ join [LF] (e :: es))
  end.

End Settings.

(* ================================================================== *)
(** ** The Slack notifier *)
(* ================================================================== *)

Module SlackNotifier.
Import Config Settings JsNumber.

(** The part of [github.context] that the sinks read;
    [pullRequestUrl] is [payload.pull_request?.html_url]. *)
Record RunContext := {
  serverUrl : jsstring;
  repoOwner : jsstring;
  repoName : jsstring;
  sha : jsstring;
  pullRequestUrl : option jsstring
}.

Definition link : jsstring := [55357%N; 56599%N].      (* U+1F517 *)
Definition memo : jsstring := [55357%N; 56541%N].      (* U+1F4DD *)
Definition shuffle : jsstring := [55357%N; 56576%N].   (* U+1F500 *)
Definition computer : jsstring := [55357%N; 56507%N].  (* U+1F4BB *)

(** The pieces of a comma-separated input: trimmed, the empty ones
    dropped. *)
Definition pieces (items : jsstring) : list jsstring :=
  filter (fun piece => (0 <? length piece)%nat) (map trim (split 44%N items)).

(** [buildMentions()], the array before it is joined. *)
Definition mentionList (sinks : SinkInputs) : list jsstring :=
  let users :=
    if truthy (slackMentionUsers sinks) then
      map (fun user => if startsWith user (js "@") then user
                       else js "@" ++ user)
          (pieces (slackMentionUsers sinks))
    else [] in
  let groups :=
    if truthy (slackMentionGroups sinks) then
      map (fun group => if startsWith group (js "<!") then group
                        else js "<!" ++ group ++ js ">")
          (pieces (slackMentionGroups sinks))
    else [] in
  users ++ groups.

(** [buildMentions()] *)
Definition buildMentions (sinks : SinkInputs) : jsstring :=
  match mentionList sinks with
  | [] => []
  | m :: ms => join (js " ") (m :: ms)
  end.

Section Notifier.
Variable toLowerCase : jsstring -> jsstring.

(** [buildSlackMessage(baseMessage, versionInfo, prAnalysis)] *)
Definition buildSlackMessage (inputs : Inputs) (sinks : SinkInputs)
           (context : RunContext) (baseMessage : jsstring)
           (versionInfo : VersionManager.VersionInfo) : jsstring :=
  let message := baseMessage in
  let prLink := PRAnalyzer.orElse (pullRequestUrl context) [] in
  let repoUrl := serverUrl context ++ js "/" ++ repoOwner context
                 ++ js "/" ++ repoName context in
  let message :=
    if isProductionEnvironment toLowerCase inputs && isReleaseEnabled sinks
    then
      let releaseLink := repoUrl ++ js "/releases/tag/"
                         ++ VersionManager.tagName versionInfo in
      let changesLink := repoUrl ++ js "/compare/"
                         ++ VersionManager.previousVersion versionInfo
                         ++ js "..." ++ VersionManager.tagName versionInfo in
      let message := message ++ [LF; LF] ++ link ++ js " View release: "
                     ++ releaseLink in
      let message := message ++ [LF] ++ memo ++ js " View changes: "
                     ++ changesLink in
      if truthy prLink
      then message ++ [LF] ++ shuffle ++ js " PR: " ++ prLink
      else message
    else
      let commitLink := repoUrl ++ js "/commit/" ++ sha context in
      let message :=
        if truthy prLink
        then message ++ [LF; LF] ++ shuffle ++ js " PR: " ++ prLink
        else message in
      message ++ [LF] ++ computer ++ js " Commit: " ++ commitLink in
  let mentions := buildMentions sinks in
  if truthy mentions then message ++ [LF; LF] ++ mentions else message.

(** [getMessageColor()] *)
Definition getMessageColor (inputs : Inputs) : jsstring :=
  let env := toLowerCase (environment inputs) in
  if eqb env (js "prod") || eqb env (js "production") then js "good"
  else if eqb env (js "staging") then js "warning"
  else if eqb env (js "dev") || eqb env (js "development") then js "#36a64f"
  else js "#439FE0".

(** The payload: the text, the channel when one is configured, and the
    one attachment with its colour, its two fields, footer and time. *)
Record Payload := {
  text : jsstring;
  channel : option jsstring;
  color : jsstring;
  environmentField : jsstring;
  repositoryField : jsstring;
  footer : jsstring;
  ts : Z
}.

(** [buildSlackPayload(message)]; [seconds] is
    [Math.floor(Date.now() / 1000)]. *)
Definition buildSlackPayload (inputs : Inputs) (sinks : SinkInputs)
           (context : RunContext) (seconds : Z) (message : jsstring)
  : Payload :=
  {| text := message;
     channel :=
       if truthy (slackChannel sinks) then
         Some (if startsWith (slackChannel sinks) (js "#")
               then slackChannel sinks
               else js "#" ++ slackChannel sinks)
       else None;
     color := getMessageColor inputs;
     environmentField := environment inputs;
     repositoryField := repoOwner context ++ js "/" ++ repoName context;
     footer := js "AI Release Notes Generator";
     ts := seconds |}.

End Notifier.

(** How [axios.post] ends: with a response, or with an error that
    carries a response, a request only, or neither. *)
Inductive PostOutcome :=
| Responded (status : Z) (statusText : jsstring)
| RejectedWithResponse (status : Z) (data : option jsstring)
                       (statusText : jsstring)
| RejectedWithoutResponse
| RejectedBeforeRequest (message : jsstring).

(** [{ success: true, ... }] is [None]; [{ success: false, error }] is
    [Some error]. *)
Definition sendToSlack (outcome : PostOutcome) : option jsstring :=
  match outcome with
  | Responded status statusText =>
      if (status =? 200)%Z then None
      else Some (js "HTTP " ++ decimalZ status ++ js ": " ++ statusText)
  | RejectedWithResponse status data statusText =>
      Some (js "HTTP " ++ decimalZ status ++ js ": "
            ++ PRAnalyzer.orElse data statusText)
  | RejectedWithoutResponse => Some (js "No response received from Slack")
  | RejectedBeforeRequest message => Some message
  end.

Record NotificationResult := {
  sent : bool;
  reason : option jsstring
}.

(** [sendNotification(releaseNotes, versionInfo, prAnalysis)], with the
    payload that was posted, if any. *)
Definition sendNotification (toLowerCase : jsstring -> jsstring)
           (inputs : Inputs) (sinks : SinkInputs) (context : RunContext)
           (seconds : Z) (slackMessage : jsstring)
           (versionInfo : VersionManager.VersionInfo)
           (outcome : PostOutcome)
  : NotificationResult * option Payload :=
  if negb (isSlackEnabled sinks) then
    ({| sent := false; reason := Some (js "disabled") |}, None)
  else
    let message := buildSlackMessage toLowerCase inputs sinks context
                                     slackMessage versionInfo in
    let payload := buildSlackPayload toLowerCase inputs sinks context
                                     seconds message in
    match sendToSlack outcome with
    | None => ({| sent := true; reason := None |}, Some payload)
    | Some error => ({| sent := false; reason := Some error |}, Some payload)
    end.

Definition isUpper (c : char16) : bool := ((65 <=? c) && (c <=? 90))%N.
Definition isLower (c : char16) : bool := ((97 <=? c) && (c <=? 122))%N.
Definition isUpperOrDigit (c : char16) : bool := isUpper c || isDigit c.
Definition isAlphanumeric (c : char16) : bool :=
  isLower c || isUpper c || isDigit c.

Fixpoint dropWhile (p : char16 -> bool) (s : jsstring) : jsstring :=
  match s with
  | [] => []
  | c :: t => if p c then dropWhile p t else s
  end.

(** A character class with [+]: one character of the class at least,
    then every one that follows. *)
Definition classPlus (p : char16 -> bool) (s : jsstring) : option jsstring :=
  match s with
  | c :: t => if p c then Some (dropWhile p t) else None
  | [] => None
  end.

(** [validateWebhookUrl(url)], with the pattern
    [^https:\/\/hooks\.slack\.com\/services\/[A-Z0-9]+\/[A-Z0-9]+\/[a-zA-Z0-9]+$].
    After each class comes a character outside it, or the end: the match
    is decided in one pass. *)
Definition validateWebhookUrl (url : jsstring) : bool :=
  if negb (truthy url) then false
  else
    match stripPrefix (js "https://hooks.slack.com/services/") url with
    | None => false
    | Some r =>
        match classPlus isUpperOrDigit r with
        | Some (c1 :: r1) =>
            if (c1 =? 47)%N then
              match classPlus isUpperOrDigit r1 with
              | Some (c2 :: r2) =>
                  if (c2 =? 47)%N then
                    match classPlus isAlphanumeric r2 with
                    | Some [] => true
                    | _ => false
                    end
                  else false
              | _ => false
              end
            else false
        | _ => false
        end
    end.

(** [escapeSlackText(text)] *)
Definition escapeSlackText (text : jsstring) : jsstring :=
  let replace := fun pat template s =>
    ReleaseNotesGenerator.replaceAllFrom pat template 0 [] s in
  replace (js ">") (js "&gt;")
          (replace (js "<") (js "&lt;")
                   (replace (js "&") (js "&amp;") text)).

End SlackNotifier.

(* ================================================================== *)
(** ** The result of [analyzePR] and the environment of the process *)
(* ================================================================== *)

Module Pipeline.

(** The pull request object of the API, of which the sinks read the URL. *)
Record PullRequestRef := { html_url : jsstring }.

(** The object that [analyzePR] returns: [{ pr, diff, commits, analysis,
    number }].  [view] holds [analysis] and [commits]; [pr] may be
    missing. *)
Record FullPRAnalysis := {
  view : ReleaseNotesGenerator.PRAnalysis;
  pr : option PullRequestRef;
  number : nat
}.

(** The variables of [process.env] that the sinks read; [None] when
    unset. *)
Record Env := {
  GITHUB_SERVER_URL : option jsstring;
  GITHUB_REPOSITORY : option jsstring
}.

(** [`${value}`] for a variable that may be undefined. *)
Definition interpolate (value : option jsstring) : jsstring :=
  match value with
  | Some s => s
  | None => js "undefined"
  end.

End Pipeline.

(* ================================================================== *)
(** ** The changelog manager: building the entry *)
(* ================================================================== *)

Module ChangelogEntries.
Import Config Settings Pipeline ChangelogManager JsNumber.

(** The lookahead [(?=\n### |\n---|\n$)]: a heading line follows, or a
    rule, or the text ends with this line feed. *)
Definition sectionEnd (s : jsstring) : bool :=
  startsWith s (LF :: js "### ") || startsWith s (LF :: js "---")
  || eqb s [LF].

(** The lazy [([\s\S]*?)] followed by the lookahead: the shortest
    capture after which the lookahead holds. *)
Fixpoint lazyUntilAhead (s : jsstring) : option jsstring :=
  if sectionEnd s then Some []
  else match s with
       | [] => None
       | c :: t => option_map (cons c) (lazyUntilAhead t)
       end.

(** The greedy [\s*] followed by [\n] and the capture. *)
Fixpoint spacesThenSection (s : jsstring) : option jsstring :=
  match s with
  | [] => None
  | c :: t =>
      if isWhiteSpace c then
        match spacesThenSection t with
        | Some r => Some r
        | None => if N.eqb c LF then lazyUntilAhead t else None
        end
      else None
  end.

(** [content.match(/<heading>\s*\n([\s\S]*?)(?=\n### |\n---|\n$)/)],
    giving [match[1]]. *)
Definition matchSection (heading content : jsstring) : option jsstring :=
  searchFrom
    (fun s =>
       match stripPrefix heading s with
       | None => None
       | Some r => spacesThenSection r
       end)
    content.

Record Sections := { public : jsstring; internal : jsstring }.

(** [parseReleaseNotesForChangelog(releaseNotesContent)] *)
Definition parseReleaseNotesForChangelog (releaseNotesContent : jsstring)
  : Sections :=
  {| public := match matchSection (js "### Public") releaseNotesContent with
               | Some captured => trim captured
               | None => []
               end;
     internal :=
       match matchSection (js "### Internal") releaseNotesContent with
       | Some captured => trim captured
       | None => []
       end |}.

(** [line.replace(/^[-*]\s*/, '- ')] *)
Definition normalizeBullet (line : jsstring) : jsstring :=
  match line with
  | c :: t =>
      if (c =? 45)%N || (c =? 42)%N then js "- " ++ dropSpaces t else line
  | [] => []
  end.

Section Keywords.
Variable toLowerCase : jsstring -> jsstring.

(** The lines of [content] whose lower-cased text holds one of the
    keywords, as bullets. *)
Definition keywordLines (keywords : list jsstring) (content : jsstring)
  : list jsstring :=
  map normalizeBullet
      (filter (fun line =>
                 existsb (fun k => includes (toLowerCase line) k) keywords)
              (split LF content)).

(** [extractFeatures(internalContent)] *)
Definition extractFeatures (internalContent : jsstring) : jsstring :=
  match keywordLines [js "feat"; js "add"; js "new"] internalContent with
  | [] => []
  | f :: fs => [LF] ++ js "### Added" ++ [LF] ++ join [LF] (f :: fs) ++ [LF]
  end.

(** [extractBugfixes(internalContent)] *)
Definition extractBugfixes (internalContent : jsstring) : jsstring :=
  match keywordLines [js "fix"; js "bug"; js "resolve"] internalContent with
  | [] => []
  | f :: fs => [LF] ++ js "### Fixed" ++ [LF] ++ join [LF] (f :: fs) ++ [LF]
  end.

End Keywords.

(** The [links] array of [formatChangelogLinks]. *)
Definition changelogLinks (sinks : SinkInputs) (env : Env)
           (versionInfo : VersionManager.VersionInfo)
           (prAnalysis : option FullPRAnalysis) : list jsstring :=
  let links := [] in
  let links :=
    match prAnalysis with
    | Some analysis =>
        match pr analysis with
        | Some ref =>
            if includePrLinks sinks then
              links ++ [js "**Pull Request:** [#" ++ decimal (number analysis)
                        ++ js "](" ++ html_url ref ++ js ")"]
            else links
        | None => links
        end
    | None => links
    end in
  if truthy (VersionManager.previousVersion versionInfo) then
    let repoUrl :=
      PRAnalyzer.orElse (GITHUB_SERVER_URL env) (js "https://github.com")
      ++ js "/" ++ interpolate (GITHUB_REPOSITORY env) in
    let compareUrl :=
      repoUrl ++ js "/compare/"
      ++ VersionManager.previousVersion versionInfo ++ js "..."
      ++ VersionManager.tagName versionInfo in
    links ++ [js "**Full Changelog:** ["
              ++ VersionManager.previousVersion versionInfo ++ js "..."
              ++ VersionManager.tagName versionInfo ++ js "]("
              ++ compareUrl ++ js ")"]
  else links.

(** [formatChangelogLinks(versionInfo, prAnalysis)] *)
Definition formatChangelogLinks (sinks : SinkInputs) (env : Env)
           (versionInfo : VersionManager.VersionInfo)
           (prAnalysis : option FullPRAnalysis) : jsstring :=
  match changelogLinks sinks env versionInfo prAnalysis with
  | [] => []
  | l :: ls =>
      [LF] ++ js "**Links:**" ++ [LF]
      ++ join [LF] (map (fun link => js "- " ++ link) (l :: ls))
  end.

Definition warningSign : jsstring := [9888%N; 65039%N]. (* U+26A0 U+FE0F *)

(** The first line of an entry; [isoDate] is what
    [new Date().toISOString()] gives. *)
Definition entryHeading (inputs : Inputs)
           (versionInfo : VersionManager.VersionInfo) (isoDate : jsstring)
  : jsstring :=
  let date := hd [] (split 84%N isoDate) in
  let version := VersionManager.newVersion versionInfo in
  let environment :=
    if negb (eqb (environment inputs) (js "PROD"))
    then js " [" ++ environment inputs ++ js "]" else [] in
  js "## [" ++ version ++ js "]" ++ environment ++ js " - " ++ date.

(** [formatChangelogEntry(releaseNotesContent, versionInfo, prAnalysis)] *)
Definition formatChangelogEntry (toLowerCase : jsstring -> jsstring)
           (inputs : Inputs) (sinks : SinkInputs) (env : Env)
           (isoDate : jsstring) (releaseNotesContent : jsstring)
           (versionInfo : VersionManager.VersionInfo)
           (prAnalysis : option FullPRAnalysis) : jsstring :=
  let entry := entryHeading inputs versionInfo isoDate ++ [LF] in
  let sections := parseReleaseNotesForChangelog releaseNotesContent in
  let entry :=
    if truthy (public sections) && truthy (trim (public sections))
    then entry ++ [LF] ++ js "### Changed" ++ [LF] ++ public sections ++ [LF]
    else entry in
  let entry :=
    if truthy (internal sections) && truthy (trim (internal sections))
    then entry ++ [LF] ++ js "### Internal" ++ [LF] ++ internal sections
         ++ [LF]
    else entry in
  let entry :=
    match prAnalysis with
    | Some full =>
        let analysis := ReleaseNotesGenerator.analysis (view full) in
        let entry :=
          if PRAnalyzer.isBreakingChange analysis
          then entry ++ [LF] ++ js "### " ++ warningSign
               ++ js " Breaking Changes" ++ [LF]
               ++ js "- This release contains breaking changes. Please review the migration guide."
               ++ [LF]
          else entry in
        let entry :=
          if existsb (eqb (js "feature")) (PRAnalyzer.changeTypes analysis)
          then entry ++ extractFeatures toLowerCase (internal sections)
          else entry in
        if existsb (eqb (js "bugfix")) (PRAnalyzer.changeTypes analysis)
        then entry ++ extractBugfixes toLowerCase (internal sections)
        else entry
    | None => entry
    end in
  let entry :=
    if includePrLinks sinks || includeCommitLinks inputs then
      let links := formatChangelogLinks sinks env versionInfo prAnalysis in
      if truthy links then entry ++ [LF] ++ links ++ [LF] else entry
    else entry in
  entry ++ [LF].

(** What [updateChangelog] returns. *)
Record ChangelogResult := {
  updated : bool;
  reason : option jsstring;
  path : option jsstring;
  entry : option jsstring
}.

(** [updateChangelog(releaseNotes, versionInfo, prAnalysis)], with the
    content it leaves in the file when it succeeds.  [changelogPath] is
    what [path.resolve] gives, [existing] the content of the changelog
    file, [None] when there is no file, and [failure] the error of a file
    operation that fails. *)
Definition updateChangelog (toLowerCase : jsstring -> jsstring)
           (inputs : Inputs) (sinks : SinkInputs) (env : Env)
           (isoDate : jsstring) (releaseNotes : ReleaseNotesGenerator.Notes)
           (versionInfo : VersionManager.VersionInfo)
           (prAnalysis : option FullPRAnalysis)
           (changelogPath : jsstring)
           (existing : option jsstring) (failure : option jsstring)
  : ChangelogResult * option jsstring :=
  if negb (isChangelogEnabled sinks) then
    ({| updated := false; reason := Some (js "disabled"); path := None;
        entry := None |},
     None)
  else
    match failure with
    | Some message =>
        ({| updated := false; reason := Some message; path := None;
            entry := None |}, None)
    | None =>
        let currentContent :=
          match existing with
          | Some content => content
          | None => createInitialChangelog (GITHUB_REPOSITORY env)
          end in
        let newEntry :=
          formatChangelogEntry toLowerCase inputs sinks env isoDate
                               (ReleaseNotesGenerator.releaseNotes
                                  releaseNotes)
                               versionInfo prAnalysis in
        let updatedContent := insertEntry currentContent newEntry in
        ({| updated := true; reason := None; path := Some changelogPath;
            entry := Some newEntry |},
         Some updatedContent)
    end.

End ChangelogEntries.

(* ================================================================== *)
(** ** The GitHub release manager *)
(* ================================================================== *)

Module GitHubReleaseManager.
Import Config Settings Pipeline JsNumber SlackNotifier.

(** How a call of the REST client ends. *)
Inductive ApiOutcome (A : Type) : Type :=
| Resolved (data : A)
| Rejected (message : jsstring).
Arguments Resolved {A} data.
Arguments Rejected {A} message.

(** The release object of the API, of which the code reads two
    properties. *)
Record ReleaseObject := { id : Z; release_html_url : jsstring }.

(** The pull request object of the API, as [pulls.create] returns it. *)
Record PullObject := { pull_html_url : jsstring }.

(** [buildReleaseName(versionInfo, prAnalysis)] *)
Definition buildReleaseName (inputs : Inputs)
           (versionInfo : VersionManager.VersionInfo)
           (prAnalysis : option FullPRAnalysis) : jsstring :=
  let version := VersionManager.tagName versionInfo in
  let environment :=
    if negb (eqb (environment inputs) (js "PROD"))
    then js " [" ++ environment inputs ++ js "]" else [] in
  let titleSuffix :=
    match prAnalysis with
    | Some full =>
        let title :=
          PRAnalyzer.title (ReleaseNotesGenerator.analysis (view full)) in
        if truthy title && (10 <? length title)%nat
        then js " - " ++ title else []
    | None => []
    end in
  js "Release " ++ version ++ environment ++ titleSuffix.

(** [buildMetadataSection(versionInfo, prAnalysis)] *)
Definition buildMetadataSection (inputs : Inputs)
           (versionInfo : ReleaseNotesGenerator.VersionInfo)
           (prAnalysis : option FullPRAnalysis) : jsstring :=
  let info := ReleaseNotesGenerator.info versionInfo in
  let lines :=
    [js "## Release Information";
     js "**Version:** " ++ VersionManager.newVersion info;
     js "**Environment:** " ++ environment inputs;
     js "**Build:** " ++ ReleaseNotesGenerator.buildNumber versionInfo] in
  let lines :=
    if truthy (VersionManager.previousVersion info)
    then lines ++ [js "**Previous Version:** "
                   ++ VersionManager.previousVersion info]
    else lines in
  let lines :=
    match prAnalysis with
    | Some full =>
        let analysis := ReleaseNotesGenerator.analysis (view full) in
        let lines :=
          if (0 <? length (PRAnalyzer.changeTypes analysis))%nat
          then lines ++ [js "**Change Types:** "
                         ++ join (js ", ") (PRAnalyzer.changeTypes analysis)]
          else lines in
        let lines :=
          if (0 <? length (PRAnalyzer.filesChanged analysis))%nat
          then lines ++ [js "**Files Changed:** "
                         ++ decimal (length
                                       (PRAnalyzer.filesChanged analysis))]
          else lines in
        if PRAnalyzer.isBreakingChange analysis
        then lines ++ [js "**" ++ ChangelogEntries.warningSign
                       ++ js " Breaking Changes:** Yes"]
        else lines
    | None => lines
    end in
  join [LF] lines.

(** The [lines] array of [buildLinksSection] after its first element. *)
Definition linkLines (inputs : Inputs) (sinks : SinkInputs)
           (context : RunContext)
           (versionInfo : VersionManager.VersionInfo)
           (prAnalysis : option FullPRAnalysis) : list jsstring :=
  let lines := [] in
  let lines :=
    match prAnalysis with
    | Some full =>
        match pr full with
        | Some ref =>
            if includePrLinks sinks then
              lines ++ [js "**Pull Request:** [#" ++ decimal (number full)
                        ++ js "](" ++ html_url ref ++ js ")"]
            else lines
        | None => lines
        end
    | None => lines
    end in
  let lines :=
    if truthy (VersionManager.previousVersion versionInfo) then
      let compareUrl :=
        serverUrl context ++ js "/" ++ repoOwner context ++ js "/"
        ++ repoName context ++ js "/compare/"
        ++ VersionManager.previousVersion versionInfo ++ js "..."
        ++ VersionManager.tagName versionInfo in
      lines ++ [js "**Full Changelog:** ["
                ++ VersionManager.previousVersion versionInfo ++ js "..."
                ++ VersionManager.tagName versionInfo ++ js "]("
                ++ compareUrl ++ js ")"]
    else lines in
  match prAnalysis with
  | Some full =>
      match ReleaseNotesGenerator.commits (view full) with
      | Some commits =>
          if includeCommitLinks inputs then
            let commitLinks :=
              join [LF]
                   (map (fun commit =>
                           js "- [" ++ PRAnalyzer.shortSha commit
                           ++ js "](" ++ PRAnalyzer.url commit ++ js ") "
                           ++ firstLine (PRAnalyzer.message commit))
                        (slice0 5 commits)) in
            if truthy commitLinks
            then lines ++ [js "**Recent Commits:**"; commitLinks]
            else lines
          else lines
      | None => lines
      end
  | None => lines
  end.

(** [buildLinksSection(versionInfo, prAnalysis)]; [None] is [null]. *)
Definition buildLinksSection (inputs : Inputs) (sinks : SinkInputs)
           (context : RunContext)
           (versionInfo : VersionManager.VersionInfo)
           (prAnalysis : option FullPRAnalysis) : option jsstring :=
  match linkLines inputs sinks context versionInfo prAnalysis with
  | [] => None
  | l :: ls => Some (join [LF] (js "## Links" :: l :: ls))
  end.

Definition footer : jsstring :=
  [LF; LF] ++ js "---" ++ [LF]
  ++ js "*Generated with [AI Release Notes Generator](https://github.com/baires/ai-release-notes-action)*".

(** [buildReleaseBody(releaseNotesContent, versionInfo, prAnalysis)] *)
Definition buildReleaseBody (inputs : Inputs) (sinks : SinkInputs)
           (context : RunContext) (releaseNotesContent : jsstring)
           (versionInfo : ReleaseNotesGenerator.VersionInfo)
           (prAnalysis : option FullPRAnalysis) : jsstring :=
  let body := releaseNotesContent in
  let metadata := buildMetadataSection inputs versionInfo prAnalysis in
  let body := body ++ [LF; LF] ++ metadata in
  let body :=
    if includePrLinks sinks || includeCommitLinks inputs then
      match buildLinksSection inputs sinks context
                              (ReleaseNotesGenerator.info versionInfo)
                              prAnalysis with
      | Some links =>
          if truthy links then body ++ [LF; LF] ++ links else body
      | None => body
      end
    else body in
  body ++ footer.

Record ReleaseData := {
  owner : jsstring;
  repo : jsstring;
  tag_name : jsstring;
  target_commitish : jsstring;
  name : jsstring;
  body : jsstring;
  draft : bool;
  prerelease : bool
}.

Record UpdateData := {
  update_owner : jsstring;
  update_repo : jsstring;
  release_id : Z;
  update_name : jsstring;
  update_body : jsstring;
  update_draft : bool;
  update_prerelease : bool
}.

Record PullData := {
  pull_owner : jsstring;
  pull_repo : jsstring;
  pull_title : jsstring;
  pull_body : jsstring;
  head : jsstring;
  base : jsstring
}.

(** The calls of the REST client. *)
Inductive Request :=
| CreateRelease (data : ReleaseData)
| GetReleaseByTag (owner repo tag : jsstring)
| UpdateRelease (data : UpdateData)
| CreatePull (data : PullData).

Section Manager.
Variable toLowerCase : jsstring -> jsstring.

(** [buildReleaseData(releaseNotes, versionInfo, prAnalysis)] *)
Definition buildReleaseData (inputs : Inputs) (sinks : SinkInputs)
           (context : RunContext) (releaseNotes : ReleaseNotesGenerator.Notes)
           (versionInfo : ReleaseNotesGenerator.VersionInfo)
           (prAnalysis : option FullPRAnalysis) : ReleaseData :=
  let info := ReleaseNotesGenerator.info versionInfo in
  let releaseName := buildReleaseName inputs info prAnalysis in
  let releaseBody :=
    buildReleaseBody inputs sinks context
                     (ReleaseNotesGenerator.releaseNotes releaseNotes)
                     versionInfo prAnalysis in
  {| owner := repoOwner context;
     repo := repoName context;
     tag_name := VersionManager.tagName info;
     target_commitish := sha context;
     name := releaseName;
     body := releaseBody;
     draft := releaseDraft sinks;
     prerelease := releasePrerelease sinks
                   || negb (isProductionEnvironment toLowerCase inputs) |}.

(** What [createRelease] and [updateExistingRelease] return; a property
    that the returned object does not have is [false] or [None] here. *)
Record ReleaseResult := {
  created : bool;
  updated : bool;
  release : option ReleaseObject;
  url : option jsstring;
  reason : option jsstring
}.

(** What the manager did beside returning: the calls it made, in order,
    and the outputs it set. *)
Record Done := {
  requests : list Request;
  outputs : list (jsstring * jsstring)
}.

(** [updateExistingRelease(releaseNotes, versionInfo, prAnalysis)] *)
Definition updateExistingRelease (inputs : Inputs) (sinks : SinkInputs)
           (context : RunContext) (releaseNotes : ReleaseNotesGenerator.Notes)
           (versionInfo : ReleaseNotesGenerator.VersionInfo)
           (prAnalysis : option FullPRAnalysis)
           (getOutcome updateOutcome : ApiOutcome ReleaseObject)
  : ReleaseResult * list Request :=
  let info := ReleaseNotesGenerator.info versionInfo in
  let get := GetReleaseByTag (repoOwner context) (repoName context)
                             (VersionManager.tagName info) in
  match getOutcome with
  | Rejected message =>
      ({| created := false; updated := false; release := None; url := None;
          reason := Some message |}, [get])
  | Resolved existingRelease =>
      let updateData :=
        {| update_owner := repoOwner context;
           update_repo := repoName context;
           release_id := id existingRelease;
           update_name := buildReleaseName inputs info prAnalysis;
           update_body :=
             buildReleaseBody inputs sinks context
                              (ReleaseNotesGenerator.releaseNotes
                                 releaseNotes)
                              versionInfo prAnalysis;
           update_draft := releaseDraft sinks;
           update_prerelease :=
             releasePrerelease sinks
             || negb (isProductionEnvironment toLowerCase inputs) |} in
      match updateOutcome with
      | Rejected message =>
          ({| created := false; updated := false; release := None;
              url := None; reason := Some message |},
           [get; UpdateRelease updateData])
      | Resolved updatedRelease =>
          ({| created := true; updated := true;
              release := Some updatedRelease;
              url := Some (release_html_url updatedRelease);
              reason := None |},
           [get; UpdateRelease updateData])
      end
  end.

(** [createRelease(releaseNotes, versionInfo, prAnalysis)] *)
Definition createRelease (inputs : Inputs) (sinks : SinkInputs)
           (context : RunContext) (releaseNotes : ReleaseNotesGenerator.Notes)
           (versionInfo : ReleaseNotesGenerator.VersionInfo)
           (prAnalysis : option FullPRAnalysis)
           (createOutcome getOutcome updateOutcome
            : ApiOutcome ReleaseObject)
  : ReleaseResult * Done :=
  if negb (isReleaseEnabled sinks) then
    ({| created := false; updated := false; release := None; url := None;
        reason := Some (js "disabled") |},
     {| requests := []; outputs := [] |})
  else
    let releaseData :=
      buildReleaseData inputs sinks context releaseNotes versionInfo
                       prAnalysis in
    match createOutcome with
    | Resolved release =>
        ({| created := true; updated := false; release := Some release;
            url := Some (release_html_url release); reason := None |},
         {| requests := [CreateRelease releaseData];
            outputs :=
              [(js "release_url", release_html_url release);
               (js "tag_name",
                VersionManager.tagName
                  (ReleaseNotesGenerator.info versionInfo))] |})
    | Rejected message =>
        if includes message (js "already_exists") then
          let (result, calls) :=
            updateExistingRelease inputs sinks context releaseNotes
                                  versionInfo prAnalysis getOutcome
                                  updateOutcome in
          (result,
           {| requests := CreateRelease releaseData :: calls;
              outputs := [] |})
        else
          ({| created := false; updated := false; release := None;
              url := None; reason := Some message |},
           {| requests := [CreateRelease releaseData]; outputs := [] |})
    end.

Record PullResult := {
  pull_created : bool;
  pull_url : option jsstring;
  pull_reason : option jsstring
}.

(** [createPullRequestForChangelog(versionInfo, changelogUpdated)] *)
Definition createPullRequestForChangelog (inputs : Inputs)
           (context : RunContext)
           (versionInfo : VersionManager.VersionInfo)
           (changelogUpdated : bool) (pullOutcome : ApiOutcome PullObject)
  : PullResult * list Request :=
  if negb changelogUpdated
     || negb (isProductionEnvironment toLowerCase inputs) then
    ({| pull_created := false; pull_url := None;
        pull_reason := Some (js "not needed") |}, [])
  else
    let tag := VersionManager.tagName versionInfo in
    let call :=
      CreatePull
        {| pull_owner := repoOwner context;
           pull_repo := repoName context;
           pull_title :=
             js "[skip ci] chore: update changelog for release " ++ tag;
           pull_body := js "Automated changelog update for release " ++ tag;
           head := js "release/" ++ tag;
           base := targetBranch inputs |} in
    match pullOutcome with
    | Resolved pull =>
        ({| pull_created := true; pull_url := Some (pull_html_url pull);
            pull_reason := None |}, [call])
    | Rejected message =>
        ({| pull_created := false; pull_url := None;
            pull_reason := Some message |}, [call])
    end.

End Manager.

End GitHubReleaseManager.

(* ================================================================== *)
(** ** The run of the action *)
(* ================================================================== *)

Module Run.
Import Config Settings Pipeline.

(** [try]-free sequencing of bodies that may throw. *)
Definition bind {A B} (c : completion A) (k : A -> completion B)
  : completion B :=
  match c with
  | Normal a => k a
  | Throw e => Throw e
  end.

Notation "x <- c ;; k" := (bind c (fun x => k))
  (at level 61, c at next level, right associativity).

(** The value of an output as the code hands it to [core.setOutput]. *)
Inductive OutputValue :=
| Text (s : jsstring)
| Flag (b : bool)
| Count (n : nat).

(** What a run does to the world outside, in order; the lines it writes
    to the log are left out.  [ChangelogWritten] carries the content that
    [updateChangelog] leaves in the file; [Cleanup] is the call of
    [cleanup()]. *)
Inductive Effect :=
| SetOutput (name : jsstring) (value : OutputValue)
| CreateTag (version message : jsstring)
| PushTag (version : jsstring)
| ChangelogWritten (content : jsstring)
| CommitAndPush (files : list jsstring) (commitMessage branchName : jsstring)
| Api (request : GitHubReleaseManager.Request)
| SlackPost (payload : SlackNotifier.Payload)
| SetFailed (message : jsstring)
| Cleanup.

(** What the world outside hands to a run: the inputs as
    [loadInputs] gives them, the event, and the answer to each call that
    leaves the process and has a bearing on what the run does next (what
    [pushTag] and [commitAndPush] return only goes to the log). *)
Record World := {
  inputs : Inputs;
  sinks : SinkInputs;
  event : Main.Context;
  context : SlackNotifier.RunContext;
  env : Env;
  tokenInput : jsstring;              (* core.getInput('token') *)
  tokenVariable : option jsstring;    (* process.env.GITHUB_TOKEN *)
  analyzed : completion FullPRAnalysis;           (* analyzePR() *)
  repository : GitUtils.Repository;
  now : VersionChecks.LocalTime;
  serviceReply : ReleaseNotesGenerator.ServiceReply;
  saveError : option jsstring;
  tagCreated : bool;                  (* createTag(...) *)
  isoDate : jsstring;
  changelogPath : jsstring;
  existingChangelog : option jsstring;
  changelogFailure : option jsstring;
  createOutcome :
    GitHubReleaseManager.ApiOutcome GitHubReleaseManager.ReleaseObject;
  getOutcome :
    GitHubReleaseManager.ApiOutcome GitHubReleaseManager.ReleaseObject;
  updateOutcome :
    GitHubReleaseManager.ApiOutcome GitHubReleaseManager.ReleaseObject;
  pullOutcome :
    GitHubReleaseManager.ApiOutcome GitHubReleaseManager.PullObject;
  seconds : Z;
  postOutcome : SlackNotifier.PostOutcome
}.

(** What the first part of [run] has computed when the sinks start. *)
Record Prepared := {
  prAnalysis : FullPRAnalysis;
  versionInfo : ReleaseNotesGenerator.VersionInfo;
  releaseNotes : ReleaseNotesGenerator.Generated
}.

Section Action.
Variable semver_valid : jsstring -> option jsstring.
Variable semver_inc : jsstring -> jsstring -> option jsstring.
Variable basicIncrement : jsstring -> jsstring -> jsstring.
Variable toLowerCase : jsstring -> jsstring.

Definition tokenError : jsstring :=
  js "GitHub token is required. Set the " ++ [34%N] ++ js "token"
  ++ [34%N] ++ js " input or GITHUB_TOKEN environment variable.".

(** [run] from its first line to the release notes: [None] when the
    trigger conditions say that there is nothing to do. *)
Definition prepare (w : World) : completion (option Prepared) :=
  _ <- validate (inputs w) (sinks w) ;;
  shouldRun <- Main.checkTriggerConditions (inputs w) (event w) ;;
  if negb (Main.run shouldRun) then Normal None
  else
    let token :=
      if truthy (tokenInput w) then Some (tokenInput w)
      else tokenVariable w in
    if negb (truthy (PRAnalyzer.orElse token [])) then Throw tokenError
    else
      prAnalysis <- analyzed w ;;
      let versionIncrement :=
        PRAnalyzer.getSuggestedVersionIncrement
          (inputs w)
          (ReleaseNotesGenerator.analysis (view prAnalysis)) in
      info <- VersionManager.generateVersion
                semver_valid semver_inc basicIncrement toLowerCase
                (inputs w) (repository w) (Some versionIncrement) ;;
      let versionInfo :=
        {| ReleaseNotesGenerator.info := info;
           ReleaseNotesGenerator.buildNumber :=
             VersionChecks.generateBuildNumber (now w) |} in
      releaseNotes <- ReleaseNotesGenerator.generateReleaseNotes
                        (inputs w) (view prAnalysis) versionInfo
                        (serviceReply w) (saveError w) ;;
      Normal (Some {| prAnalysis := prAnalysis;
                      versionInfo := versionInfo;
                      releaseNotes := releaseNotes |}).

Definition notesOf (p : Prepared) : ReleaseNotesGenerator.Notes :=
  ReleaseNotesGenerator.generatedNotes (releaseNotes p).

Definition infoOf (p : Prepared) : VersionManager.VersionInfo :=
  ReleaseNotesGenerator.info (versionInfo p).

(** The outputs that are set before [commits_analyzed]. *)
Definition coreOutputs (p : Prepared) : list Effect :=
  [SetOutput (js "version") (Text (VersionManager.newVersion (infoOf p)));
   SetOutput (js "previous_version")
             (Text (VersionManager.previousVersion (infoOf p)));
   SetOutput (js "build_number")
             (Text (ReleaseNotesGenerator.buildNumber (versionInfo p)));
   SetOutput (js "release_notes")
             (Text (ReleaseNotesGenerator.releaseNotes (notesOf p)));
   SetOutput (js "ai_generated")
             (Flag (ReleaseNotesGenerator.aiGenerated (releaseNotes p)))].

(** The tag, for a production release. *)
Definition tagEffects (w : World) (p : Prepared) : list Effect :=
  if isProductionEnvironment toLowerCase (inputs w)
     && isReleaseEnabled (sinks w) then
    let tagName := VersionManager.tagName (infoOf p) in
    CreateTag tagName
              (js "Release " ++ tagName ++ [LF; LF]
               ++ ReleaseNotesGenerator.releaseNotes (notesOf p))
    :: (if tagCreated w then [PushTag tagName] else [])
  else [].

(** [changelogResult] *)
Definition changelogRun (w : World) (p : Prepared)
  : ChangelogEntries.ChangelogResult * option jsstring :=
  ChangelogEntries.updateChangelog
    toLowerCase (inputs w) (sinks w) (env w) (isoDate w) (notesOf p)
    (infoOf p) (Some (prAnalysis p)) (changelogPath w)
    (existingChangelog w) (changelogFailure w).

Definition changelogUpdated (w : World) (p : Prepared) : bool :=
  if isChangelogEnabled (sinks w)
  then ChangelogEntries.updated (fst (changelogRun w p))
  else false.

Definition changelogEffects (w : World) (p : Prepared) : list Effect :=
  if isChangelogEnabled (sinks w) then
    match snd (changelogRun w p) with
    | Some content => [ChangelogWritten content]
    | None => []
    end
    ++ (if ChangelogEntries.updated (fst (changelogRun w p))
           && isProductionEnvironment toLowerCase (inputs w) then
          let tagName := VersionManager.tagName (infoOf p) in
          [CommitAndPush
             [changelogFile (sinks w)]
             (js "[skip ci] chore: update changelog for release "
              ++ tagName)
             (js "release/" ++ tagName)]
        else [])
  else [].

Definition releaseRun (w : World) (p : Prepared)
  : GitHubReleaseManager.ReleaseResult * GitHubReleaseManager.Done :=
  GitHubReleaseManager.createRelease
    toLowerCase (inputs w) (sinks w) (context w) (notesOf p)
    (versionInfo p) (Some (prAnalysis p)) (createOutcome w) (getOutcome w)
    (updateOutcome w).

Definition releaseEffects (w : World) (p : Prepared) : list Effect :=
  if isReleaseEnabled (sinks w) then
    map Api (GitHubReleaseManager.requests (snd (releaseRun w p)))
    ++ map (fun output => SetOutput (fst output) (Text (snd output)))
           (GitHubReleaseManager.outputs (snd (releaseRun w p)))
  else [].

Definition pullEffects (w : World) (p : Prepared) : list Effect :=
  if changelogUpdated w p
     && isProductionEnvironment toLowerCase (inputs w) then
    map Api
        (snd (GitHubReleaseManager.createPullRequestForChangelog
                toLowerCase (inputs w) (context w) (infoOf p)
                (changelogUpdated w p) (pullOutcome w)))
  else [].

Definition slackRun (w : World) (p : Prepared)
  : SlackNotifier.NotificationResult * option SlackNotifier.Payload :=
  SlackNotifier.sendNotification
    toLowerCase (inputs w) (sinks w) (context w) (seconds w)
    (ReleaseNotesGenerator.slackMessage (notesOf p)) (infoOf p)
    (postOutcome w).

Definition slackSent (w : World) (p : Prepared) : bool :=
  if isSlackEnabled (sinks w) then SlackNotifier.sent (fst (slackRun w p))
  else false.

Definition slackEffects (w : World) (p : Prepared) : list Effect :=
  if isSlackEnabled (sinks w) then
    match snd (slackRun w p) with
    | Some payload => [SlackPost payload]
    | None => []
    end
  else [].

(** What the sinks do, from the tag to the last output. *)
Definition sinkEffects (w : World) (p : Prepared) : list Effect :=
  tagEffects w p
  ++ changelogEffects w p
  ++ [SetOutput (js "changelog_updated") (Flag (changelogUpdated w p))]
  ++ releaseEffects w p
  ++ pullEffects w p
  ++ slackEffects w p
  ++ [SetOutput (js "slack_sent") (Flag (slackSent w p))].

(** [run()]: the [try] block, the [catch] that marks the run as failed,
    and the [finally] that cleans up.  Reading [commits.length] of
    missing commits throws after the first outputs are set. *)
Definition run (w : World) : list Effect :=
  match prepare w with
  | Throw e => [SetFailed e; Cleanup]
  | Normal None => [Cleanup]
  | Normal (Some p) =>
      match ReleaseNotesGenerator.commits (view (prAnalysis p)) with
      | None => coreOutputs p ++ [SetFailed (js "TypeError"); Cleanup]
      | Some commits =>
          coreOutputs p
          ++ [SetOutput (js "commits_analyzed") (Count (length commits))]
          ++ sinkEffects w p
          ++ [Cleanup]
      end
  end.

End Action.

End Run.

(* ================================================================== *)
(** ** The conditions of the specification *)
(* ================================================================== *)

(** The checks of the trigger evaluator, as the specification words them. *)
Module TriggerSpec.
Import Config Main.

(** The event kind is a pull-request event. *)
Definition isPullRequestEvent (context : Context) : Prop :=
  eventName context = js "pull_request".

(** The target branch equals the configured branch or is one of main,
    master, dev, development. *)
Definition branchAllowed (inputs : Inputs) (pr : PullRequest) : Prop :=
  base_ref pr = targetBranch inputs
  \/ In (base_ref pr) [js "main"; js "master"; js "dev"; js "development"].

(** No trigger label is configured, or the labels of the pull request
    contain it. *)
Definition labelSatisfied (inputs : Inputs) (pr : PullRequest) : Prop :=
  triggerLabel inputs = []
  \/ In (triggerLabel inputs) (map name (labels pr)).

Definition allConditionsMet : TriggerResult :=
  {| run := true; reason := js "All conditions met" |}.

Definition skip (why : jsstring) : TriggerResult :=
  {| run := false; reason := why |}.

End TriggerSpec.

(** The evidence that the change analyzer looks for, as the specification
    words it, and what it means for an analysis to keep what it has. *)
Module AnalyzerSpec.
Import PRAnalyzer.

Section Evidence.
Variable toLowerCase : jsstring -> jsstring.

(** Commit evidence: the lower-cased message holds "breaking change" or
    "!:" anywhere, or starts with a conventional prefix. *)
Definition commitBreaking (c : Commit) : bool :=
  includes (toLowerCase (message c)) (js "breaking change")
  || includes (toLowerCase (message c)) (js "!:").

Definition commitFeature (c : Commit) : bool :=
  startsWith (toLowerCase (message c)) (js "feat").

Definition commitBugfix (c : Commit) : bool :=
  startsWith (toLowerCase (message c)) (js "fix").

Definition commitChore (c : Commit) : bool :=
  startsWith (toLowerCase (message c)) (js "chore")
  || startsWith (toLowerCase (message c)) (js "ci")
  || startsWith (toLowerCase (message c)) (js "docs").

(** Label evidence: the lower-cased label name holds a keyword. *)
Definition labelBreaking (l : jsstring) : bool :=
  includes (toLowerCase l) (js "breaking").

Definition labelBugfix (l : jsstring) : bool :=
  includes (toLowerCase l) (js "bug") || includes (toLowerCase l) (js "fix").

Definition labelFeature (l : jsstring) : bool :=
  includes (toLowerCase l) (js "feature")
  || includes (toLowerCase l) (js "enhancement").

End Evidence.

(** The same pull request with the given label names. *)
Definition withLabels (pr : PullRequest) (names : list jsstring)
  : PullRequest :=
  {| pr_title := pr_title pr; pr_body := pr_body pr;
     pr_labels := Some (map (fun n => {| name := n |}) names);
     pr_base_ref := pr_base_ref pr; pr_head_ref := pr_head_ref pr;
     pr_user_login := pr_user_login pr;
     pr_created_at := pr_created_at pr; pr_merged_at := pr_merged_at pr |}.

(** [a'] keeps every flag and every change type that [a] has. *)
Definition keeps (a a' : Analysis) : Prop :=
  (isBreakingChange a = true -> isBreakingChange a' = true)
  /\ (isFeature a = true -> isFeature a' = true)
  /\ (isBugfix a = true -> isBugfix a' = true)
  /\ (isChore a = true -> isChore a' = true)
  /\ incl (changeTypes a) (changeTypes a').

(** The change types are exactly the types whose flag is set. *)
Definition typesMatchFlags (a : Analysis) : Prop :=
  forall t,
    In t (changeTypes a)
    <-> (t = js "breaking" /\ isBreakingChange a = true)
        \/ (t = js "feature" /\ isFeature a = true)
        \/ (t = js "bugfix" /\ isBugfix a = true)
        \/ (t = js "chore" /\ isChore a = true).

End AnalyzerSpec.

(** The reply parser, as the specification words its policy. *)
Module ParseSpec.
Import ReleaseNotesGenerator.

(** The content of the release-notes block of a reply, trimmed; a block
    that is absent or blank gives the empty string and counts as not
    found. *)
Definition releaseNotesBlock (reply : jsstring) : jsstring :=
  match matchBlock (js "RELEASE_NOTES_START") (js "RELEASE_NOTES_END")
                   reply with
  | Some captured => trim captured
  | None => []
  end.

(** The content of the notification block of a reply, trimmed. *)
Definition slackBlock (reply : jsstring) : jsstring :=
  match matchBlock (js "SLACK_MESSAGE_START") (js "SLACK_MESSAGE_END")
                   reply with
  | Some captured => trim captured
  | None => []
  end.

(** The policy on missing blocks in the words of the specification: with
    no block the whole reply is the body and the message is its summary;
    with one block only, the other field is derived from that block by the
    same shortening rule. *)
Definition parseAsSpecified (reply buildNumber : jsstring) : Notes :=
  let body := releaseNotesBlock reply in
  let message := slackBlock reply in
  let filled :=
    match body, message with
    | [], [] => (reply, extractSlackSummary reply buildNumber)
    | [], _ :: _ => (extractSlackSummary message buildNumber, message)
    | _ :: _, [] => (body, extractSlackSummary body buildNumber)
    | _ :: _, _ :: _ => (body, message)
    end in
  {| releaseNotes := replaceBuildNumber (fst filled) buildNumber;
     slackMessage := replaceBuildNumber (snd filled) buildNumber |}.

(** The build announcement that opens a derived message. *)
Definition announcement (buildNumber : jsstring) : jsstring :=
  rocket ++ js " Build " ++ buildNumber ++ js " deployed".

(** The lines of a text that are not blank. *)
Definition nonBlankLines (text : jsstring) : list jsstring :=
  filter (fun line => truthy (trim line)) (split LF text).

End ParseSpec.

(** The messages of the template path. *)
Module TemplateSpec.

Definition breakingMessage : jsstring :=
  js "Breaking changes - please review migration notes".
Definition featuresMessage : jsstring := js "New features and enhancements".
Definition bugfixMessage : jsstring :=
  js "Bug fixes and stability improvements".
Definition genericMessage : jsstring :=
  js "General improvements and bug fixes".

End TemplateSpec.

(* ================================================================== *)
(** ** Sample inputs *)
(* ================================================================== *)

Module Samples.

(** A reply that holds a notification block only. *)
Definition slackOnlyReply : jsstring :=
  js "SLACK_MESSAGE_START" ++ [LF] ++ js "hello" ++ [LF]
  ++ js "SLACK_MESSAGE_END".

Definition sampleBuildNumber : jsstring := js "20240101.1200".

Definition sampleInputs (env : jsstring) : Config.Inputs :=
  {| Config.triggerLabel := js "release";
     Config.targetBranch := js "main";
     Config.geminiApiKey := js "key";
     Config.versionStrategy := js "patch";
     Config.versionPrefix := js "v";
     Config.environment := env;
     Config.skipIfNoChanges := false;
     Config.includeCommitLinks := false;
     Config.maxCommitsFallback := 10;
     Config.useVertexAi := false |}.

(** A repository without tags, at the commit abc1234. *)
Definition untaggedRepository : GitUtils.Repository :=
  {| GitUtils.describeTags :=
       {| GitUtils.exitCode := 128; GitUtils.stdout := [] |};
     GitUtils.revParseShort :=
       {| GitUtils.exitCode := 0;
          GitUtils.stdout := js "abc1234" ++ [LF] |} |}.

Definition samplePullRequest : PRAnalyzer.PullRequest :=
  {| PRAnalyzer.pr_title := js "Add login";
     PRAnalyzer.pr_body := None;
     PRAnalyzer.pr_labels := None;
     PRAnalyzer.pr_base_ref := Some (js "main");
     PRAnalyzer.pr_head_ref := Some (js "feature/login");
     PRAnalyzer.pr_user_login := Some (js "octocat");
     PRAnalyzer.pr_created_at := js "2024-01-01T10:00:00Z";
     PRAnalyzer.pr_merged_at := js "2024-01-01T12:00:00Z" |}.

Definition sampleCommit (msg : jsstring) : PRAnalyzer.Commit :=
  {| PRAnalyzer.sha := js "abc1234def";
     PRAnalyzer.shortSha := js "abc1234";
     PRAnalyzer.message := msg;
     PRAnalyzer.author := js "octocat";
     PRAnalyzer.email := js "octocat@example.com";
     PRAnalyzer.date := js "2024-01-01";
     PRAnalyzer.url := js "https://example.com/c/abc1234" |}.

(** A pull request whose only commit is both a feature and a breaking
    change. *)
Definition breakingFeature : ReleaseNotesGenerator.PRAnalysis :=
  {| ReleaseNotesGenerator.analysis :=
       PRAnalyzer.analyzeChanges
         asciiToLowerCase samplePullRequest None
         (Some [sampleCommit (js "feat!: drop the v1 API")]);
     ReleaseNotesGenerator.commits :=
       Some [sampleCommit (js "feat!: drop the v1 API")] |}.

Definition sampleVersionInfo : ReleaseNotesGenerator.VersionInfo :=
  {| ReleaseNotesGenerator.info :=
       {| VersionManager.newVersion := js "1.3.0";
          VersionManager.previousVersion := js "v1.2.0";
          VersionManager.tagName := js "v1.3.0";
          VersionManager.cleanPreviousVersion := js "1.2.0" |};
     ReleaseNotesGenerator.buildNumber := sampleBuildNumber |}.

(** The events of the repository's own test of the trigger evaluator. *)
Definition testInputs : Config.Inputs :=
  {| Config.triggerLabel := js "release-notes";
     Config.targetBranch := js "main";
     Config.geminiApiKey := [];
     Config.versionStrategy := js "patch";
     Config.versionPrefix := js "v";
     Config.environment := js "PROD";
     Config.skipIfNoChanges := false;
     Config.includeCommitLinks := false;
     Config.maxCommitsFallback := 10;
     Config.useVertexAi := false |}.

Definition pullRequestEvent (isMerged : bool) (labelName : jsstring)
  : Main.Context :=
  {| Main.eventName := js "pull_request";
     Main.payload_pull_request :=
       Some {| Main.merged := isMerged;
               Main.base_ref := js "main";
               Main.labels := [{| name := labelName |}] |} |}.

Definition pushEvent : Main.Context :=
  {| Main.eventName := js "push"; Main.payload_pull_request := None |}.

(** A changelog with one released version. *)
Definition releasedChangelog : jsstring :=
  ChangelogManager.createInitialChangelog (Some (js "owner/repo"))
  ++ js "## [1.0.0] - 2024-01-01" ++ [LF] ++ js "- First release" ++ [LF].

Definition sampleEntry : jsstring :=
  js "## [1.1.0] - 2024-02-01" ++ [LF] ++ js "- More" ++ [LF].

End Samples.

(** Further sample values: a log, a time, the settings of the sinks and
    a run on an untagged repository. *)
Module FurtherSamples.
Import Samples.

Definition sampleLog : list GitLogFormat.LogEntry :=
  [{| GitLogFormat.entryHash := js "3f2a9c1e5b7d4f60a1b2c3d4e5f60718293a4b5c";
      GitLogFormat.entrySubject := js "feat: add login";
      GitLogFormat.entryAuthor := js "Mona Lisa";
      GitLogFormat.entryEmail := js "mona@example.com";
      GitLogFormat.entryDate := js "Mon Jan 1 10:00:00 2024 +0000" |};
   {| GitLogFormat.entryHash := js "9b8c7d6e5f4a3b2c1d0e9f8a7b6c5d4e3f2a1b0c";
      GitLogFormat.entrySubject := js "fix: crash on start";
      GitLogFormat.entryAuthor := js "octocat";
      GitLogFormat.entryEmail := js "octocat@example.com";
      GitLogFormat.entryDate := js "Tue Jan 2 09:30:00 2024 +0000" |}].

(** 1 January 2024, 12:00. *)
Definition sampleTime : VersionChecks.LocalTime :=
  {| VersionChecks.fullYear := 2024;
     VersionChecks.month := 0;
     VersionChecks.dayOfMonth := 1;
     VersionChecks.hours := 12;
     VersionChecks.minutes := 0 |}.

Definition sampleSinks : Settings.SinkInputs :=
  {| Settings.createRelease := true;
     Settings.releaseDraft := false;
     Settings.releasePrerelease := false;
     Settings.updateChangelog := true;
     Settings.changelogFile := js "CHANGELOG.md";
     Settings.enableSlack := true;
     Settings.slackWebhookUrl :=
       js "https://hooks.slack.com/services/T000/B000/abc123";
     Settings.slackChannel := js "releases";
     Settings.slackMentionUsers := [];
     Settings.slackMentionGroups := [];
     Settings.includePrLinks := true;
     Settings.outputFormat := js "markdown";
     Settings.gcpProjectId := [];
     Settings.gcpWorkloadIdentityProvider := [] |}.

Definition sampleEnv : Pipeline.Env :=
  {| Pipeline.GITHUB_SERVER_URL := Some (js "https://github.com");
     Pipeline.GITHUB_REPOSITORY := Some (js "owner/repo") |}.

Definition sampleContext : SlackNotifier.RunContext :=
  {| SlackNotifier.serverUrl := js "https://github.com";
     SlackNotifier.repoOwner := js "owner";
     SlackNotifier.repoName := js "repo";
     SlackNotifier.sha := js "abc1234def";
     SlackNotifier.pullRequestUrl :=
       Some (js "https://github.com/owner/repo/pull/42") |}.

(** What [analyzePR] returns for pull request 42. *)
Definition samplePR : Pipeline.FullPRAnalysis :=
  {| Pipeline.view := breakingFeature;
     Pipeline.pr :=
       Some {| Pipeline.html_url :=
                 js "https://github.com/owner/repo/pull/42" |};
     Pipeline.number := 42 |}.

(** Notes whose Internal section ends the text. *)
Definition notesHead : jsstring :=
  js "## v1.3.0" ++ [LF; LF] ++ js "### Public" ++ [LF]
  ++ js "Faster start" ++ [LF; LF].

Definition notesTail : jsstring := [LF] ++ js "- fix: crash on start".

(** The answers of [semver.inc] and of [basicIncrement] that the sample
    run needs. *)
Definition sampleInc (version release : jsstring) : option jsstring :=
  if eqb version (js "1.0.0") && eqb release (js "major")
  then Some (js "2.0.0") else None.

Definition sampleBasicIncrement (version release : jsstring) : jsstring :=
  version.

(** A production run for the merged pull request 42 on a repository
    without tags and without changelog, the generation service failing,
    the release already existing, and Slack answering 200. *)
Definition sampleWorld : Run.World :=
  {| Run.inputs :=
       {| Config.triggerLabel := js "release";
          Config.targetBranch := js "main";
          Config.geminiApiKey := js "key";
          Config.versionStrategy := js "auto";
          Config.versionPrefix := js "v";
          Config.environment := js "PROD";
          Config.skipIfNoChanges := false;
          Config.includeCommitLinks := false;
          Config.maxCommitsFallback := 10;
          Config.useVertexAi := false |};
     Run.sinks := sampleSinks;
     Run.event := pullRequestEvent true (js "release");
     Run.context := sampleContext;
     Run.env := sampleEnv;
     Run.tokenInput := js "ghs_token";
     Run.tokenVariable := None;
     Run.analyzed := Normal samplePR;
     Run.repository := untaggedRepository;
     Run.now := sampleTime;
     Run.serviceReply := ReleaseNotesGenerator.ServiceError;
     Run.saveError := None;
     Run.tagCreated := true;
     Run.isoDate := js "2024-01-01T12:00:00.000Z";
     Run.changelogPath := js "/home/runner/work/repo/CHANGELOG.md";
     Run.existingChangelog := None;
     Run.changelogFailure := None;
     Run.createOutcome :=
       GitHubReleaseManager.Rejected
         (js "Validation Failed: already_exists");
     Run.getOutcome :=
       GitHubReleaseManager.Resolved
         {| GitHubReleaseManager.id := 7;
            GitHubReleaseManager.release_html_url :=
              js "https://github.com/owner/repo/releases/tag/v2.0.0" |};
     Run.updateOutcome :=
       GitHubReleaseManager.Resolved
         {| GitHubReleaseManager.id := 7;
            GitHubReleaseManager.release_html_url :=
              js "https://github.com/owner/repo/releases/tag/v2.0.0" |};
     Run.pullOutcome :=
       GitHubReleaseManager.Rejected (js "Not Found");
     Run.seconds := 1704110400;
     Run.postOutcome := SlackNotifier.Responded 200 (js "OK") |}.

Definition sampleRunVersion : ReleaseNotesGenerator.VersionInfo :=
  {| ReleaseNotesGenerator.info :=
       {| VersionManager.newVersion := js "2.0.0";
          VersionManager.previousVersion := js "1.0.0";
          VersionManager.tagName := js "v2.0.0";
          VersionManager.cleanPreviousVersion := js "1.0.0" |};
     ReleaseNotesGenerator.buildNumber := js "20240101.1200" |}.

(** What the sample run has prepared when the sinks start. *)
Definition samplePrepared : Run.Prepared :=
  {| Run.prAnalysis := samplePR;
     Run.versionInfo := sampleRunVersion;
     Run.releaseNotes :=
       {| ReleaseNotesGenerator.generatedNotes :=
            ReleaseNotesGenerator.generateFromTemplate
              (Run.inputs sampleWorld) breakingFeature sampleRunVersion;
          ReleaseNotesGenerator.aiGenerated := false;
          ReleaseNotesGenerator.generatedBuildNumber :=
            js "20240101.1200" |} |}.

End FurtherSamples.

(* ================================================================== *)
(** * Properties *)
(* ================================================================== *)

(** ** Strings *)

Lemma eqb_eq (a b : jsstring) : eqb a b = true <-> a = b.
Proof.
  revert b; induction a as [|x a IH]; intros [|y b]; simpl;
    try (split; [discriminate | discriminate]); try tauto.
  rewrite andb_true_iff, N.eqb_eq, IH.
  split; [intros [-> ->]; reflexivity | intros H; inversion H; auto].
Qed.

Lemma eqb_refl (a : jsstring) : eqb a a = true.
Proof. apply eqb_eq; reflexivity. Qed.

Lemma eqb_neq (a b : jsstring) : eqb a b = false <-> a <> b.
Proof.
  rewrite <- eqb_eq. destruct (eqb a b); split; congruence.
Qed.

Lemma existsb_eqb_In (x : jsstring) (l : list jsstring) :
  existsb (eqb x) l = true <-> In x l.
Proof.
  rewrite existsb_exists. split.
  - intros [y [Hy He]]. apply eqb_eq in He. subst. exact Hy.
  - intros H. exists x. split; [exact H | apply eqb_refl].
Qed.

Lemma truthy_false (s : jsstring) : truthy s = false <-> s = [].
Proof. destruct s; simpl; split; congruence. Qed.

Lemma truthy_true (s : jsstring) : truthy s = true <-> s <> [].
Proof. destruct s; simpl; split; congruence. Qed.

Lemma startsWith_app (p s : jsstring) : startsWith (p ++ s) p = true.
Proof.
  induction p as [|x p IH]; simpl; [reflexivity|].
  rewrite N.eqb_refl. exact IH.
Qed.

Lemma includes_startsWith (s needle : jsstring) :
  startsWith s needle = true -> includes s needle = true.
Proof. intros H. destruct s; simpl; rewrite H; reflexivity. Qed.

Lemma includes_app (a needle b : jsstring) :
  includes (a ++ needle ++ b) needle = true.
Proof.
  induction a as [|x a IH].
  - rewrite app_nil_l. apply includes_startsWith. apply startsWith_app.
  - simpl. rewrite IH. apply orb_true_r.
Qed.

Lemma includes_infix (a needle b s : jsstring) :
  s = a ++ needle ++ b -> includes s needle = true.
Proof. intros ->. apply includes_app. Qed.

(** [split] never gives the empty array. *)
Lemma split_nonempty (sep : char16) (s : jsstring) : split sep s <> [].
Proof.
  induction s as [|c t IH]; simpl; [discriminate|].
  destruct (N.eqb c sep); [discriminate|].
  destruct (split sep t); [contradiction | discriminate].
Qed.

Lemma split_cons_other (sep c : char16) (t : jsstring) :
  N.eqb c sep = false ->
  split sep (c :: t) = (c :: hd [] (split sep t)) :: tl (split sep t).
Proof.
  intros H. simpl. rewrite H.
  pose proof (split_nonempty sep t) as Hne.
  destruct (split sep t); [contradiction | reflexivity].
Qed.

(** A separator between two texts separates their lines. *)
Lemma split_app_sep (sep : char16) (a b : jsstring) :
  split sep (a ++ sep :: b) = split sep a ++ split sep b.
Proof.
  induction a as [|c a IH].
  - simpl. rewrite N.eqb_refl. reflexivity.
  - simpl. destruct (N.eqb c sep).
    + rewrite IH. reflexivity.
    + rewrite IH.
      pose proof (split_nonempty sep a) as Hne.
      destruct (split sep a); [contradiction | reflexivity].
Qed.

Lemma split_no_sep (sep : char16) (s : jsstring) :
  ~ In sep s -> split sep s = [s].
Proof.
  induction s as [|c t IH]; intros H; simpl; [reflexivity|].
  destruct (N.eqb c sep) eqn:E.
  - apply N.eqb_eq in E. subst. exfalso. apply H. left. reflexivity.
  - rewrite IH; [reflexivity|]. intros Hin. apply H. right. exact Hin.
Qed.

(** The lines of a text hold no line feed. *)
Lemma split_lines_no_sep (sep : char16) (s l : jsstring) :
  In l (split sep s) -> ~ In sep l.
Proof.
  revert l; induction s as [|c t IH]; intros l; simpl.
  - intros [<-|[]]. intros [].
  - destruct (N.eqb c sep) eqn:E.
    + intros [<-|H]; [intros []|apply IH; exact H].
    + pose proof (split_nonempty sep t) as Hne.
      destruct (split sep t) as [|cur rest]; [contradiction|].
      intros [<-|H].
      * intros [->|Hin]; [rewrite N.eqb_refl in E; discriminate|].
        exact (IH cur (or_introl eq_refl) Hin).
      * apply IH. right. exact H.
Qed.

(** Joining the lines of a text gives the text back. *)
Lemma join_split (sep : char16) (s : jsstring) :
  join [sep] (split sep s) = s.
Proof.
  induction s as [|c t IH]; simpl; [reflexivity|].
  destruct (N.eqb c sep) eqn:E.
  - apply N.eqb_eq in E. subst c.
    pose proof (split_nonempty sep t) as Hne.
    destruct (split sep t) eqn:Es; [contradiction|].
    simpl. f_equal. exact IH.
  - pose proof (split_nonempty sep t) as Hne.
    destruct (split sep t) as [|cur rest] eqn:Es; [contradiction|].
    simpl in *. destruct rest; simpl; rewrite <- IH; reflexivity.
Qed.

Lemma join_cons (sep x : jsstring) (rest : list jsstring) :
  rest <> [] -> join sep (x :: rest) = x ++ sep ++ join sep rest.
Proof. destruct rest; [contradiction | reflexivity]. Qed.

Lemma join_app (sep : jsstring) (xs ys : list jsstring) :
  xs <> [] -> ys <> [] ->
  join sep (xs ++ ys) = join sep xs ++ sep ++ join sep ys.
Proof.
  induction xs as [|x xs IH]; intros Hx Hy; [contradiction|].
  destruct xs as [|x' xs].
  - simpl. destruct ys; [contradiction | reflexivity].
  - change ((x :: x' :: xs) ++ ys) with (x :: ((x' :: xs) ++ ys)).
    rewrite join_cons by (simpl; discriminate).
    rewrite IH by (auto; discriminate).
    rewrite (join_cons sep x (x' :: xs)) by discriminate.
    rewrite <- !app_assoc. reflexivity.
Qed.

(** The lines of joined texts are the lines of each text, in order. *)
Lemma split_join (sep : char16) (xs : list jsstring) :
  xs <> [] ->
  split sep (join [sep] xs) = concat (map (split sep) xs).
Proof.
  induction xs as [|x xs IH]; intros H; [contradiction|].
  destruct xs as [|x' xs].
  - simpl. rewrite app_nil_r. reflexivity.
  - rewrite join_cons by discriminate.
    change ([sep] ++ join [sep] (x' :: xs))
      with (sep :: join [sep] (x' :: xs)).
    rewrite split_app_sep, IH by discriminate. reflexivity.
Qed.

Lemma concat_map_singletons (sep : char16) (xs : list jsstring) :
  (forall l, In l xs -> ~ In sep l) ->
  concat (map (split sep) xs) = xs.
Proof.
  induction xs as [|x xs IH]; intros H; simpl; [reflexivity|].
  rewrite split_no_sep by (apply H; left; reflexivity).
  simpl. f_equal. apply IH. intros l Hl. apply H. right. exact Hl.
Qed.

(** ** The trigger evaluator *)

Section Trigger.
Import Config Main TriggerSpec.

Lemma branch_check_reflect (inputs : Inputs) (pr : PullRequest) :
  negb (eqb (base_ref pr) (targetBranch inputs))
  && negb (existsb (eqb (base_ref pr)) allowedBranches) = false
  <-> branchAllowed inputs pr.
Proof.
  unfold branchAllowed.
  rewrite andb_false_iff, !negb_false_iff, eqb_eq, existsb_eqb_In.
  reflexivity.
Qed.

Lemma hasLabel_In (wanted : jsstring) (ls : list Label) :
  existsb (fun label => eqb (name label) wanted) ls = true
  <-> In wanted (map name ls).
Proof.
  rewrite existsb_exists, in_map_iff. split.
  - intros [l [Hl He]]. apply eqb_eq in He. exists l. auto.
  - intros [l [He Hl]]. exists l. split; [exact Hl|]. apply eqb_eq. exact He.
Qed.

Lemma label_check_reflect (inputs : Inputs) (pr : PullRequest) :
  truthy (triggerLabel inputs)
  && negb (existsb (fun label => eqb (name label) (triggerLabel inputs))
                   (labels pr)) = false
  <-> labelSatisfied inputs pr.
Proof.
  unfold labelSatisfied.
  rewrite andb_false_iff, negb_false_iff, truthy_false, hasLabel_In.
  reflexivity.
Qed.

Lemma not_false_true (b : bool) : b <> false -> b = true.
Proof. destruct b; congruence. Qed.

(** The evaluator on a pull-request event whose payload holds the pull
    request, check by check. *)
Lemma checkTriggerConditions_pull_request
      (inputs : Inputs) (context : Context) (pr : PullRequest) :
  isPullRequestEvent context ->
  payload_pull_request context = Some pr ->
  checkTriggerConditions inputs context =
  Normal
    (if negb (merged pr) then skip (js "PR is not merged")
     else if negb (eqb (base_ref pr) (targetBranch inputs))
             && negb (existsb (eqb (base_ref pr)) allowedBranches)
          then skip (js "Target branch " ++ base_ref pr
                     ++ js " not in allowed list")
     else if truthy (triggerLabel inputs)
             && negb (existsb
                        (fun label => eqb (name label) (triggerLabel inputs))
                        (labels pr))
          then skip (js "Missing required label: " ++ triggerLabel inputs)
     else allConditionsMet).
Proof.
  unfold isPullRequestEvent, checkTriggerConditions. intros He Hp.
  rewrite He, eqb_refl, Hp. simpl negb at 1. cbv iota.
  destruct (negb (merged pr)); [reflexivity|].
  destruct (negb (eqb (base_ref pr) (targetBranch inputs))
            && negb (existsb (eqb (base_ref pr)) allowedBranches));
    [reflexivity|].
  destruct (truthy (triggerLabel inputs)
            && negb (existsb
                       (fun label => eqb (name label) (triggerLabel inputs))
                       (labels pr))); reflexivity.
Qed.

(** C3. The trigger evaluator applies its four checks in the fixed order:
    the event kind, the merged flag, the target branch, the trigger label.
    The first check that fails decides the answer, [run = false] with the
    reason of that check, whatever the later checks would say; and the
    answer is [run = true] with reason "All conditions met" exactly when
    all four checks pass. *)
Theorem checkTriggerConditions_ordered_checks
        (inputs : Inputs) (context : Context) :
  (~ isPullRequestEvent context ->
   checkTriggerConditions inputs context
   = Normal (skip (js "Not a pull request event")))
  /\ (forall pr,
        isPullRequestEvent context ->
        payload_pull_request context = Some pr ->
        (merged pr = false ->
         checkTriggerConditions inputs context
         = Normal (skip (js "PR is not merged")))
        /\ (merged pr = true -> ~ branchAllowed inputs pr ->
            checkTriggerConditions inputs context
            = Normal (skip (js "Target branch " ++ base_ref pr
                            ++ js " not in allowed list")))
        /\ (merged pr = true -> branchAllowed inputs pr ->
            ~ labelSatisfied inputs pr ->
            checkTriggerConditions inputs context
            = Normal (skip (js "Missing required label: "
                            ++ triggerLabel inputs)))
        /\ (merged pr = true -> branchAllowed inputs pr ->
            labelSatisfied inputs pr ->
            checkTriggerConditions inputs context
            = Normal allConditionsMet))
  /\ (forall result,
        checkTriggerConditions inputs context = Normal result ->
        run result = true ->
        result = allConditionsMet
        /\ isPullRequestEvent context
        /\ exists pr,
            payload_pull_request context = Some pr
            /\ merged pr = true
            /\ branchAllowed inputs pr
            /\ labelSatisfied inputs pr).
Proof.
  split; [|split].
  - intros Hne. unfold checkTriggerConditions.
    apply eqb_neq in Hne. rewrite Hne. reflexivity.
  - intros pr He Hp.
    rewrite (checkTriggerConditions_pull_request inputs context pr He Hp).
    repeat split.
    + intros ->. reflexivity.
    + intros -> Hb. simpl negb at 1. cbv iota.
      rewrite <- branch_check_reflect in Hb.
      apply not_false_true in Hb. rewrite Hb. reflexivity.
    + intros -> Hb Hl. simpl negb at 1. cbv iota.
      apply branch_check_reflect in Hb. rewrite Hb.
      rewrite <- label_check_reflect in Hl.
      apply not_false_true in Hl. rewrite Hl. reflexivity.
    + intros -> Hb Hl. simpl negb at 1. cbv iota.
      apply branch_check_reflect in Hb. rewrite Hb.
      apply label_check_reflect in Hl. rewrite Hl. reflexivity.
  - intros result Hr Hrun.
    destruct (eqb (eventName context) (js "pull_request")) eqn:He.
    + apply eqb_eq in He.
      destruct (payload_pull_request context) as [pr|] eqn:Hp.
      * rewrite (checkTriggerConditions_pull_request inputs context pr He Hp)
          in Hr.
        destruct (merged pr) eqn:Hm;
          [change (negb true) with false in Hr
          |change (negb false) with true in Hr]; cbv iota in Hr;
          [|inversion Hr; subst; discriminate Hrun].
        destruct (negb (eqb (base_ref pr) (targetBranch inputs))
                  && negb (existsb (eqb (base_ref pr)) allowedBranches))
                 eqn:Hb; [inversion Hr; subst; discriminate Hrun|].
        destruct (truthy (triggerLabel inputs)
                  && negb (existsb
                             (fun label =>
                                eqb (name label) (triggerLabel inputs))
                             (labels pr)))
                 eqn:Hl; [inversion Hr; subst; discriminate Hrun|].
        inversion Hr; subst. split; [reflexivity|]. split; [exact He|].
        exists pr. repeat split; auto.
        -- apply branch_check_reflect. exact Hb.
        -- apply label_check_reflect. exact Hl.
      * unfold checkTriggerConditions in Hr. rewrite He, eqb_refl, Hp in Hr.
        discriminate.
    + unfold checkTriggerConditions in Hr. rewrite He in Hr.
      inversion Hr; subst; discriminate Hrun.
Qed.

End Trigger.

(** ** The change analyzer *)

Section Analyzer.
Import PRAnalyzer AnalyzerSpec.
Variable toLowerCase : jsstring -> jsstring.

Lemma existsb_Permutation {A} (f : A -> bool) (l l' : list A) :
  Permutation l l' -> existsb f l = existsb f l'.
Proof.
  induction 1; simpl.
  - reflexivity.
  - rewrite IHPermutation. reflexivity.
  - destruct (f x), (f y); reflexivity.
  - congruence.
Qed.

Lemma In_setAdd (x t : jsstring) (s : list jsstring) :
  In t (setAdd x s) <-> t = x \/ In t s.
Proof.
  unfold setAdd. destruct (existsb (eqb x) s) eqn:E.
  - apply existsb_eqb_In in E. split; [auto|]. intros [->|H]; auto.
  - rewrite in_app_iff. simpl. split.
    + intros [H|[<-|[]]]; auto.
    + intros [->|H]; auto.
Qed.

Lemma NoDup_setAdd (x : jsstring) (s : list jsstring) :
  NoDup s -> NoDup (setAdd x s).
Proof.
  intros H. unfold setAdd. destruct (existsb (eqb x) s) eqn:E; [exact H|].
  apply NoDup_app; [exact H | repeat constructor; intros [] |].
  intros y Hy [<-|[]].
  apply existsb_eqb_In in Hy. congruence.
Qed.

(** *** One step of each pass *)

Lemma analyzeCommit_flags (a : Analysis) (c : Commit) :
  isBreakingChange (analyzeCommit toLowerCase a c)
  = isBreakingChange a || commitBreaking toLowerCase c
  /\ isFeature (analyzeCommit toLowerCase a c)
     = isFeature a || commitFeature toLowerCase c
  /\ isBugfix (analyzeCommit toLowerCase a c)
     = isBugfix a || commitBugfix toLowerCase c
  /\ isChore (analyzeCommit toLowerCase a c)
     = isChore a || commitChore toLowerCase c
  /\ labels (analyzeCommit toLowerCase a c) = labels a.
Proof.
  unfold analyzeCommit, when, commitBreaking, commitFeature, commitBugfix,
    commitChore.
  destruct (includes (toLowerCase (message c)) (js "breaking change")
            || includes (toLowerCase (message c)) (js "!:"));
  destruct (startsWith (toLowerCase (message c)) (js "feat"));
  destruct (startsWith (toLowerCase (message c)) (js "fix"));
  destruct (startsWith (toLowerCase (message c)) (js "chore")
            || startsWith (toLowerCase (message c)) (js "ci")
            || startsWith (toLowerCase (message c)) (js "docs"));
  simpl; rewrite ?orb_true_r, ?orb_false_r; repeat split.
Qed.

Lemma analyzeLabel_flags (a : Analysis) (l : jsstring) :
  isBreakingChange (analyzeLabel toLowerCase a l)
  = isBreakingChange a || labelBreaking toLowerCase l
  /\ isFeature (analyzeLabel toLowerCase a l)
     = isFeature a || labelFeature toLowerCase l
  /\ isBugfix (analyzeLabel toLowerCase a l)
     = isBugfix a || labelBugfix toLowerCase l
  /\ isChore (analyzeLabel toLowerCase a l) = isChore a.
Proof.
  unfold analyzeLabel, when, labelBreaking, labelFeature, labelBugfix.
  destruct (includes (toLowerCase l) (js "breaking"));
  destruct (includes (toLowerCase l) (js "bug")
            || includes (toLowerCase l) (js "fix"));
  destruct (includes (toLowerCase l) (js "feature")
            || includes (toLowerCase l) (js "enhancement"));
  simpl; rewrite ?orb_true_r, ?orb_false_r; repeat split.
Qed.

Lemma analyzeDiffLine_flags (a : Analysis) (line : jsstring) :
  isBreakingChange (analyzeDiffLine a line) = isBreakingChange a
  /\ isFeature (analyzeDiffLine a line) = isFeature a
  /\ isBugfix (analyzeDiffLine a line) = isBugfix a
  /\ isChore (analyzeDiffLine a line) = isChore a
  /\ changeTypes (analyzeDiffLine a line) = changeTypes a.
Proof.
  unfold analyzeDiffLine.
  destruct (startsWith line (js "diff --git")); [|repeat split].
  destruct (matchDiffHeader line); repeat split.
Qed.

(** *** What every step preserves *)

Section Invariant.
Variable P : Analysis -> Prop.
Hypothesis P_breaking : forall a, P a -> P (markBreaking a).
Hypothesis P_feature : forall a, P a -> P (markFeature a).
Hypothesis P_bugfix : forall a, P a -> P (markBugfix a).
Hypothesis P_chore : forall a, P a -> P (markChore a).
Hypothesis P_file : forall file a, P a -> P (addFile file a).

Lemma when_preserves (b : bool) (mark : Analysis -> Analysis) (a : Analysis) :
  (forall x, P x -> P (mark x)) -> P a -> P (when b mark a).
Proof. intros Hm Ha. destruct b; simpl; auto. Qed.

Lemma analyzeCommit_preserves (a : Analysis) (c : Commit) :
  P a -> P (analyzeCommit toLowerCase a c).
Proof.
  intros Ha. unfold analyzeCommit.
  repeat (apply when_preserves; [assumption|]). exact Ha.
Qed.

Lemma analyzeLabel_preserves (a : Analysis) (l : jsstring) :
  P a -> P (analyzeLabel toLowerCase a l).
Proof.
  intros Ha. unfold analyzeLabel.
  repeat (apply when_preserves; [assumption|]). exact Ha.
Qed.

Lemma analyzeDiffLine_preserves (a : Analysis) (line : jsstring) :
  P a -> P (analyzeDiffLine a line).
Proof.
  intros Ha. unfold analyzeDiffLine.
  destruct (startsWith line (js "diff --git")); [|exact Ha].
  destruct (matchDiffHeader line); auto.
Qed.

Lemma fold_left_preserves {X} (f : Analysis -> X -> Analysis)
      (xs : list X) (a : Analysis) :
  (forall a x, P a -> P (f a x)) -> P a -> P (fold_left f xs a).
Proof.
  intros Hf. revert a. induction xs as [|x xs IH]; simpl; auto.
Qed.

Lemma analyzeChanges_preserves (pr : PullRequest) (diff : option jsstring)
      (commits : option (list Commit)) :
  P (initialAnalysis pr) -> P (analyzeChanges toLowerCase pr diff commits).
Proof.
  intros H0. unfold analyzeChanges.
  assert (H2 : P (fold_left (analyzeLabel toLowerCase)
                    (labels (fold_left (analyzeCommit toLowerCase)
                               (match commits with
                                | Some cs => cs
                                | None => []
                                end) (initialAnalysis pr)))
                    (fold_left (analyzeCommit toLowerCase)
                       (match commits with
                        | Some cs => cs
                        | None => []
                        end) (initialAnalysis pr)))).
  { apply fold_left_preserves; [exact analyzeLabel_preserves|].
    apply fold_left_preserves; [exact analyzeCommit_preserves|]. exact H0. }
  destruct diff as [d|]; [|exact H2].
  destruct (truthy d); [|exact H2].
  apply fold_left_preserves; [exact analyzeDiffLine_preserves | exact H2].
Qed.

End Invariant.

Lemma keeps_refl (a : Analysis) : keeps a a.
Proof. unfold keeps. repeat split; auto. apply incl_refl. Qed.

Lemma keeps_mark (a0 a : Analysis) :
  keeps a0 a ->
  keeps a0 (markBreaking a) /\ keeps a0 (markFeature a)
  /\ keeps a0 (markBugfix a) /\ keeps a0 (markChore a)
  /\ forall file, keeps a0 (addFile file a).
Proof.
  unfold keeps. intros (Hb & Hf & Hx & Hc & Hi).
  repeat split; simpl; auto;
    intros t Ht; apply In_setAdd; right; apply Hi; exact Ht.
Qed.

Lemma typesMatchFlags_mark (a : Analysis) :
  typesMatchFlags a ->
  typesMatchFlags (markBreaking a) /\ typesMatchFlags (markFeature a)
  /\ typesMatchFlags (markBugfix a) /\ typesMatchFlags (markChore a)
  /\ forall file, typesMatchFlags (addFile file a).
Proof.
  unfold typesMatchFlags. intros H.
  repeat split; simpl; try rewrite In_setAdd; try rewrite (H t);
    try (apply H); intuition congruence.
Qed.

Lemma NoDup_mark (a : Analysis) :
  NoDup (changeTypes a) ->
  NoDup (changeTypes (markBreaking a)) /\ NoDup (changeTypes (markFeature a))
  /\ NoDup (changeTypes (markBugfix a)) /\ NoDup (changeTypes (markChore a))
  /\ forall file, NoDup (changeTypes (addFile file a)).
Proof.
  intros H. repeat split; simpl; auto using NoDup_setAdd.
Qed.

(** *** The flags after each pass *)

Lemma fold_commits_flags (cs : list Commit) (a : Analysis) :
  let a' := fold_left (analyzeCommit toLowerCase) cs a in
  isBreakingChange a'
  = isBreakingChange a || existsb (commitBreaking toLowerCase) cs
  /\ isFeature a' = isFeature a || existsb (commitFeature toLowerCase) cs
  /\ isBugfix a' = isBugfix a || existsb (commitBugfix toLowerCase) cs
  /\ isChore a' = isChore a || existsb (commitChore toLowerCase) cs
  /\ labels a' = labels a.
Proof.
  revert a. induction cs as [|c cs IH]; intros a; simpl.
  - rewrite !orb_false_r. repeat split.
  - destruct (IH (analyzeCommit toLowerCase a c)) as (Hb & Hf & Hx & Hc & Hl).
    destruct (analyzeCommit_flags a c) as (Eb & Ef & Ex & Ec & El).
    rewrite Hb, Hf, Hx, Hc, Hl, Eb, Ef, Ex, Ec, El, !orb_assoc.
    repeat split.
Qed.

Lemma fold_labels_flags (ls : list jsstring) (a : Analysis) :
  let a' := fold_left (analyzeLabel toLowerCase) ls a in
  isBreakingChange a'
  = isBreakingChange a || existsb (labelBreaking toLowerCase) ls
  /\ isFeature a' = isFeature a || existsb (labelFeature toLowerCase) ls
  /\ isBugfix a' = isBugfix a || existsb (labelBugfix toLowerCase) ls
  /\ isChore a' = isChore a.
Proof.
  revert a. induction ls as [|l ls IH]; intros a; simpl.
  - rewrite !orb_false_r. repeat split.
  - destruct (IH (analyzeLabel toLowerCase a l)) as (Hb & Hf & Hx & Hc).
    destruct (analyzeLabel_flags a l) as (Eb & Ef & Ex & Ec).
    rewrite Hb, Hf, Hx, Hc, Eb, Ef, Ex, Ec, !orb_assoc.
    repeat split.
Qed.

Lemma fold_diff_flags (lines : list jsstring) (a : Analysis) :
  let a' := fold_left analyzeDiffLine lines a in
  isBreakingChange a' = isBreakingChange a
  /\ isFeature a' = isFeature a
  /\ isBugfix a' = isBugfix a
  /\ isChore a' = isChore a.
Proof.
  revert a. induction lines as [|l lines IH]; intros a; simpl.
  - repeat split.
  - destruct (IH (analyzeDiffLine a l)) as (Hb & Hf & Hx & Hc).
    destruct (analyzeDiffLine_flags a l) as (Eb & Ef & Ex & Ec & _).
    rewrite Hb, Hf, Hx, Hc, Eb, Ef, Ex, Ec. repeat split.
Qed.

(** The commits and the label names that [analyzeChanges] scans. *)
Lemma analyzeChanges_flags (pr : PullRequest) (diff : option jsstring)
      (commits : option (list Commit)) :
  let cs := match commits with Some cs => cs | None => [] end in
  let ls := map name (match pr_labels pr with Some ls => ls | None => [] end) in
  let a := analyzeChanges toLowerCase pr diff commits in
  isBreakingChange a
  = existsb (commitBreaking toLowerCase) cs
    || existsb (labelBreaking toLowerCase) ls
  /\ isFeature a
     = existsb (commitFeature toLowerCase) cs
       || existsb (labelFeature toLowerCase) ls
  /\ isBugfix a
     = existsb (commitBugfix toLowerCase) cs
       || existsb (labelBugfix toLowerCase) ls
  /\ isChore a = existsb (commitChore toLowerCase) cs.
Proof.
  intros cs ls a.
  pose (a1 := fold_left (analyzeCommit toLowerCase) cs (initialAnalysis pr)).
  pose (a2 := fold_left (analyzeLabel toLowerCase) (labels a1) a1).
  destruct (fold_commits_flags cs (initialAnalysis pr))
    as (Hb & Hf & Hx & Hc & Hl).
  fold a1 in Hb, Hf, Hx, Hc, Hl. simpl in Hb, Hf, Hx, Hc, Hl.
  destruct (fold_labels_flags (labels a1) a1) as (Lb & Lf & Lx & Lc).
  fold a2 in Lb, Lf, Lx, Lc.
  rewrite Hl, Hb in Lb. rewrite Hl, Hf in Lf. rewrite Hl, Hx in Lx.
  rewrite Hc in Lc. fold ls in Lb, Lf, Lx.
  assert (Ha : a = a2 \/ exists lines, a = fold_left analyzeDiffLine lines a2).
  { unfold a, analyzeChanges. fold cs. fold a1. fold a2.
    destruct diff as [d|]; [|left; reflexivity].
    destruct (truthy d); [right; eexists; reflexivity | left; reflexivity]. }
  destruct Ha as [->|[lines ->]].
  - repeat split; assumption.
  - destruct (fold_diff_flags lines a2) as (Db & Df & Dx & Dc).
    rewrite Db, Df, Dx, Dc. repeat split; assumption.
Qed.

Lemma typesMatchFlags_initial (pr : PullRequest) :
  typesMatchFlags (initialAnalysis pr).
Proof.
  intros t. simpl. split; [intros [] | intuition discriminate].
Qed.

Lemma analyzeChanges_typesMatchFlags (pr : PullRequest)
      (diff : option jsstring) (commits : option (list Commit)) :
  typesMatchFlags (analyzeChanges toLowerCase pr diff commits).
Proof.
  apply analyzeChanges_preserves;
    try (intros; apply typesMatchFlags_mark; assumption).
  apply typesMatchFlags_initial.
Qed.

Lemma analyzeChanges_NoDup (pr : PullRequest)
      (diff : option jsstring) (commits : option (list Commit)) :
  NoDup (changeTypes (analyzeChanges toLowerCase pr diff commits)).
Proof.
  apply (analyzeChanges_preserves (fun a => NoDup (changeTypes a)));
    try (intros; apply NoDup_mark; assumption).
  simpl. constructor.
Qed.

(** Every step of every pass keeps what the analysis has. *)
Lemma steps_keep (a : Analysis) :
  (forall c, keeps a (analyzeCommit toLowerCase a c))
  /\ (forall l, keeps a (analyzeLabel toLowerCase a l))
  /\ (forall line, keeps a (analyzeDiffLine a line)).
Proof.
  split; [|split]; intros x;
    [apply (analyzeCommit_preserves (keeps a))
    |apply (analyzeLabel_preserves (keeps a))
    |apply (analyzeDiffLine_preserves (keeps a))];
    try (intros; apply keeps_mark; assumption); apply keeps_refl.
Qed.

Lemma withLabels_names (pr : PullRequest) (names : list jsstring) :
  map name (match pr_labels (withLabels pr names) with
            | Some ls => ls
            | None => []
            end) = names.
Proof.
  simpl. rewrite map_map. simpl. apply map_id.
Qed.

Lemma typesMatchFlags_incl (a a' : Analysis) :
  typesMatchFlags a -> typesMatchFlags a' ->
  (isBreakingChange a = true -> isBreakingChange a' = true) ->
  (isFeature a = true -> isFeature a' = true) ->
  (isBugfix a = true -> isBugfix a' = true) ->
  (isChore a = true -> isChore a' = true) ->
  incl (changeTypes a) (changeTypes a').
Proof.
  intros Ha Ha' Hb Hf Hx Hc t Ht.
  apply Ha in Ht. apply Ha'. intuition.
Qed.

(** C7. The change analyzer is additive and order-invariant.  For every
    pull request, diff, commit list and list of label names: each flag is
    true exactly when some commit or some label carries its evidence, so it
    depends on which messages and names are present only; permuting the
    commits and permuting the labels gives the same four flags and the same
    set of change types (a list without duplicates, compared by
    membership); no step of any pass resets a flag or removes a change
    type; and more commits or labels only add to the result. *)
Theorem analyzeChanges_additive_order_invariant
        (pr : PullRequest) (diff : option jsstring)
        (commits commits' : list Commit) (names names' : list jsstring) :
  Permutation commits commits' ->
  Permutation names names' ->
  let a := analyzeChanges toLowerCase (withLabels pr names) diff
                          (Some commits) in
  let a' := analyzeChanges toLowerCase (withLabels pr names') diff
                           (Some commits') in
  (isBreakingChange a = isBreakingChange a'
   /\ isFeature a = isFeature a'
   /\ isBugfix a = isBugfix a'
   /\ isChore a = isChore a')
  /\ (forall t, In t (changeTypes a) <-> In t (changeTypes a'))
  /\ NoDup (changeTypes a) /\ NoDup (changeTypes a')
  /\ (isBreakingChange a
      = existsb (commitBreaking toLowerCase) commits
        || existsb (labelBreaking toLowerCase) names
      /\ isFeature a
         = existsb (commitFeature toLowerCase) commits
           || existsb (labelFeature toLowerCase) names
      /\ isBugfix a
         = existsb (commitBugfix toLowerCase) commits
           || existsb (labelBugfix toLowerCase) names
      /\ isChore a = existsb (commitChore toLowerCase) commits)
  /\ (forall x c l line,
        keeps x (analyzeCommit toLowerCase x c)
        /\ keeps x (analyzeLabel toLowerCase x l)
        /\ keeps x (analyzeDiffLine x line))
  /\ (forall moreCommits moreNames,
        keeps a (analyzeChanges toLowerCase
                                (withLabels pr (names ++ moreNames)) diff
                                (Some (commits ++ moreCommits)))).
Proof.
  intros Hc Hn a a'.
  destruct (analyzeChanges_flags (withLabels pr names) diff (Some commits))
    as (Ab & Af & Ax & Ac).
  destruct (analyzeChanges_flags (withLabels pr names') diff (Some commits'))
    as (Bb & Bf & Bx & Bc).
  rewrite withLabels_names in Ab, Af, Ax, Bb, Bf, Bx.
  fold a in Ab, Af, Ax, Ac. fold a' in Bb, Bf, Bx, Bc.
  pose proof (analyzeChanges_typesMatchFlags (withLabels pr names) diff
                (Some commits)) as Ta.
  pose proof (analyzeChanges_typesMatchFlags (withLabels pr names') diff
                (Some commits')) as Ta'.
  fold a in Ta. fold a' in Ta'.
  assert (Hflags : isBreakingChange a = isBreakingChange a'
                   /\ isFeature a = isFeature a'
                   /\ isBugfix a = isBugfix a'
                   /\ isChore a = isChore a').
  { rewrite Ab, Af, Ax, Ac, Bb, Bf, Bx, Bc.
    rewrite !(existsb_Permutation _ _ _ Hc), !(existsb_Permutation _ _ _ Hn).
    repeat split. }
  split; [exact Hflags|].
  destruct Hflags as (Eb & Ef & Ex & Ec).
  split.
  { intros t. rewrite (Ta t), (Ta' t), Eb, Ef, Ex, Ec. reflexivity. }
  split; [apply analyzeChanges_NoDup|].
  split; [apply analyzeChanges_NoDup|].
  split; [repeat split; assumption|].
  split.
  { intros x c l line. destruct (steps_keep x) as (H1 & H2 & H3). auto. }
  intros moreCommits moreNames.
  set (b := analyzeChanges toLowerCase (withLabels pr (names ++ moreNames))
                           diff (Some (commits ++ moreCommits))).
  destruct (analyzeChanges_flags (withLabels pr (names ++ moreNames)) diff
              (Some (commits ++ moreCommits))) as (Mb & Mf & Mx & Mc).
  rewrite withLabels_names in Mb, Mf, Mx. fold b in Mb, Mf, Mx, Mc.
  repeat rewrite existsb_app in Mb. repeat rewrite existsb_app in Mf.
  repeat rewrite existsb_app in Mx. repeat rewrite existsb_app in Mc.
  assert (Kb : isBreakingChange a = true -> isBreakingChange b = true).
  { rewrite Ab, Mb. intros H. apply orb_true_iff in H.
    destruct H as [H|H]; rewrite H; rewrite ?orb_true_r; reflexivity. }
  assert (Kf : isFeature a = true -> isFeature b = true).
  { rewrite Af, Mf. intros H. apply orb_true_iff in H.
    destruct H as [H|H]; rewrite H; rewrite ?orb_true_r; reflexivity. }
  assert (Kx : isBugfix a = true -> isBugfix b = true).
  { rewrite Ax, Mx. intros H. apply orb_true_iff in H.
    destruct H as [H|H]; rewrite H; rewrite ?orb_true_r; reflexivity. }
  assert (Kc : isChore a = true -> isChore b = true).
  { rewrite Ac, Mc. intros H. rewrite H. reflexivity. }
  unfold keeps. repeat split; try assumption.
  apply typesMatchFlags_incl; try assumption.
  apply analyzeChanges_typesMatchFlags.
Qed.

End Analyzer.

(** ** The trigger label against the analyzer's labels *)

Section TriggerLabel.
Import Config Main TriggerSpec.

Lemma checkTriggerConditions_label_step
      (inputs : Inputs) (context : Context) (pr : PullRequest) :
  isPullRequestEvent context ->
  payload_pull_request context = Some pr ->
  merged pr = true ->
  branchAllowed inputs pr ->
  triggerLabel inputs <> [] ->
  checkTriggerConditions inputs context
  = Normal (if existsb (fun label => eqb (name label) (triggerLabel inputs))
                       (labels pr)
            then allConditionsMet
            else skip (js "Missing required label: " ++ triggerLabel inputs)).
Proof.
  intros He Hp Hm Hb Hl.
  rewrite (checkTriggerConditions_pull_request inputs context pr He Hp), Hm.
  change (negb true) with false. cbv iota.
  apply branch_check_reflect in Hb. rewrite Hb.
  apply truthy_true in Hl. rewrite Hl.
  destruct (existsb (fun label => eqb (name label) (triggerLabel inputs))
                    (labels pr)); reflexivity.
Qed.

(** C9. The trigger-label check compares the configured label with each
    label name of the pull request by exact equality of strings: once the
    first three checks pass and a label is configured, the evaluator
    answers "All conditions met" exactly when some label name is that very
    string; so a pull request labelled "Release" does not satisfy the
    trigger label "release".  The change analyzer, which lower-cases and
    looks for substrings, does classify a label such as "Critical BUG". *)
Theorem trigger_label_is_exact_match :
  (forall inputs context pr,
      isPullRequestEvent context ->
      payload_pull_request context = Some pr ->
      merged pr = true ->
      branchAllowed inputs pr ->
      triggerLabel inputs <> [] ->
      (checkTriggerConditions inputs context = Normal allConditionsMet
       <-> In (triggerLabel inputs) (map name (labels pr))))
  /\ (forall inputs context pr,
         isPullRequestEvent context ->
         payload_pull_request context = Some pr ->
         merged pr = true ->
         branchAllowed inputs pr ->
         triggerLabel inputs = js "release" ->
         map name (labels pr) = [js "Release"] ->
         checkTriggerConditions inputs context
         = Normal (skip (js "Missing required label: release")))
  /\ (forall pr diff commits,
         PRAnalyzer.isBugfix
           (PRAnalyzer.analyzeChanges
              asciiToLowerCase
              (AnalyzerSpec.withLabels pr [js "Critical BUG"]) diff commits)
         = true).
Proof.
  split; [|split].
  - intros inputs context pr He Hp Hm Hb Hl.
    rewrite (checkTriggerConditions_label_step inputs context pr He Hp Hm Hb Hl).
    rewrite <- hasLabel_In.
    destruct (existsb (fun label => eqb (name label) (triggerLabel inputs))
                      (labels pr)).
    + split; reflexivity.
    + split; intros H; [inversion H | discriminate H].
  - intros inputs context pr He Hp Hm Hb Hl Hn.
    assert (Hne : triggerLabel inputs <> []) by (rewrite Hl; discriminate).
    rewrite (checkTriggerConditions_label_step inputs context pr He Hp Hm Hb Hne).
    destruct (existsb (fun label => eqb (name label) (triggerLabel inputs))
                      (labels pr)) eqn:E.
    + apply hasLabel_In in E. rewrite Hn, Hl in E.
      destruct E as [E|[]]. discriminate E.
    + rewrite Hl. reflexivity.
  - intros pr diff commits.
    destruct (analyzeChanges_flags asciiToLowerCase
                (AnalyzerSpec.withLabels pr [js "Critical BUG"]) diff commits)
      as (_ & _ & Hx & _).
    rewrite Hx, withLabels_names. apply orb_true_r.
Qed.

End TriggerLabel.

(** ** The version manager *)

Section Versions.
Import Config GitUtils VersionManager.
Variable semver_valid : jsstring -> option jsstring.
Variable semver_inc : jsstring -> jsstring -> option jsstring.
Variable basicIncrement : jsstring -> jsstring -> jsstring.
Variable toLowerCase : jsstring -> jsstring.

Lemma stripFirstPrefix_v (x : jsstring) :
  stripFirstPrefix prefixes (js "v" ++ x) = x.
Proof. reflexivity. Qed.

Lemma stripFirstPrefix_release (x : jsstring) :
  stripFirstPrefix prefixes (js "release-" ++ x) = x.
Proof. reflexivity. Qed.

(** The first prefix of the list, "v", also starts "version-": the loop
    takes it and breaks, and "version-" is never tried. *)
Lemma stripFirstPrefix_version (x : jsstring) :
  stripFirstPrefix prefixes (js "version-" ++ x) = js "ersion-" ++ x.
Proof. reflexivity. Qed.

Lemma cleanVersion_v (x : jsstring) :
  isValid semver_valid x = true ->
  cleanVersion semver_valid (js "v" ++ x) = x.
Proof.
  intros H. unfold cleanVersion. rewrite stripFirstPrefix_v, H. reflexivity.
Qed.

Lemma cleanVersion_release (x : jsstring) :
  isValid semver_valid x = true ->
  cleanVersion semver_valid (js "release-" ++ x) = x.
Proof.
  intros H. unfold cleanVersion.
  rewrite stripFirstPrefix_release, H. reflexivity.
Qed.

Lemma cleanVersion_invalid (version : jsstring) :
  isValid semver_valid (stripFirstPrefix prefixes version) = false ->
  cleanVersion semver_valid version = js "1.0.0".
Proof. intros H. unfold cleanVersion. rewrite H. reflexivity. Qed.

Lemma cleanVersion_default : cleanVersion semver_valid (js "1.0.0") = js "1.0.0".
Proof.
  unfold cleanVersion.
  change (stripFirstPrefix prefixes (js "1.0.0")) with (js "1.0.0").
  destruct (isValid semver_valid (js "1.0.0")); reflexivity.
Qed.

(** C2, at the input where the code departs from it.  A tag with the
    prefix "version-" loses only its "v": whatever [semver.valid] answers,
    [cleanVersion] gives either the remainder "ersion-X.Y.Z" or "1.0.0",
    so [cleanVersion("version-1.2.3")] is not "1.2.3"; with the strict
    grammar of the package it is "1.0.0". *)
Theorem cleanVersion_version_prefix_not_stripped :
  (forall x,
      cleanVersion semver_valid (js "version-" ++ x)
      = if isValid semver_valid (js "ersion-" ++ x)
        then js "ersion-" ++ x else js "1.0.0")
  /\ cleanVersion semver_valid (js "version-1.2.3") <> js "1.2.3"
  /\ Semver.valid (js "1.2.3") = Some (js "1.2.3")
  /\ cleanVersion Semver.valid (js "version-1.2.3") = js "1.0.0".
Proof.
  split; [|split; [|split]].
  - intros x. unfold cleanVersion. rewrite stripFirstPrefix_version.
    destruct (isValid semver_valid (js "ersion-" ++ x)); reflexivity.
  - unfold cleanVersion.
    change (stripFirstPrefix prefixes (js "version-1.2.3"))
      with (js "ersion-1.2.3").
    destruct (isValid semver_valid (js "ersion-1.2.3")); simpl; discriminate.
  - vm_compute. reflexivity.
  - vm_compute. reflexivity.
Qed.

(** C4. Under the development-grade policy, for every latest tag and
    every short commit id that git reports, the new version is the cleaned
    previous version followed by "-dev." and the short commit id; the
    result is not validated, so this holds for every [semver.valid].  When
    there is no tag the previous version is "1.0.0" and the new version is
    "1.0.0-dev." followed by the short commit id. *)
Theorem generateVersion_development
        (inputs : Inputs) (repo : Repository)
        (versionIncrement : option jsstring) (shortCommit : jsstring) :
  isProductionEnvironment toLowerCase inputs = false ->
  getShortCommit (revParseShort repo) = Normal shortCommit ->
  exists v,
    generateVersion semver_valid semver_inc basicIncrement toLowerCase
                    inputs repo versionIncrement = Normal v
    /\ previousVersion v = getLatestTag (describeTags repo)
    /\ cleanPreviousVersion v = cleanVersion semver_valid (previousVersion v)
    /\ newVersion v = cleanPreviousVersion v ++ js "-dev." ++ shortCommit
    /\ tagName v = versionPrefix inputs ++ newVersion v
    /\ ((exitCode (describeTags repo) <> 0%Z
         \/ trim (stdout (describeTags repo)) = []) ->
        previousVersion v = js "1.0.0"
        /\ newVersion v = js "1.0.0-dev." ++ shortCommit).
Proof.
  intros Henv Hshort. unfold generateVersion. rewrite Henv, Hshort.
  eexists. split; [reflexivity|]. simpl.
  repeat split.
  - unfold getLatestTag. destruct H as [H|H].
    + apply Z.eqb_neq in H. rewrite H. reflexivity.
    + rewrite H, andb_false_r. reflexivity.
  - assert (Ht : getLatestTag (describeTags repo) = js "1.0.0").
    { unfold getLatestTag. destruct H as [H|H].
      + apply Z.eqb_neq in H. rewrite H. reflexivity.
      + rewrite H, andb_false_r. reflexivity. }
    rewrite Ht, cleanVersion_default. reflexivity.
Qed.

End Versions.

(** ** The template path *)

Section Template.
Import Config ReleaseNotesGenerator TemplateSpec.

(** The notification message of the template path: the header line, an
    empty line, the "Changes" line, and one bullet for each of at most
    three subject lines. *)
Lemma generateFromTemplate_slackMessage
      (inputs : Inputs) (prAnalysis : PRAnalysis) (versionInfo : VersionInfo) :
  slackMessage (generateFromTemplate inputs prAnalysis versionInfo)
  = rocket ++ js " *" ++ headline inputs versionInfo ++ js "*" ++ [LF; LF]
    ++ js "*Changes:*" ++ [LF]
    ++ join [LF] (map (fun change => bullet ++ js " " ++ change)
                      (slackCommits prAnalysis))
  /\ (forall cs, commits prAnalysis = Some cs ->
        slackCommits prAnalysis
        = map (fun c => firstLine (PRAnalyzer.message c)) (firstn 3 cs))
  /\ (commits prAnalysis = None ->
      slackCommits prAnalysis = [js "Various improvements"]).
Proof.
  split; [reflexivity|]. unfold slackCommits.
  split; [intros cs ->; reflexivity | intros ->; reflexivity].
Qed.

(** C5. In the template path one public summary line is chosen, by the
    priority breaking > feature > bugfix > generic, and it is the whole of
    the Public section of the release notes.  The four candidate lines are
    distinct.  For an analysis with both [isBreakingChange] and [isFeature]
    set, the line is the breaking-changes message, which the release notes
    then contain, and it is not the features message nor does it contain
    it. *)
Theorem generateFromTemplate_public_priority
        (inputs : Inputs) (prAnalysis : PRAnalysis) (versionInfo : VersionInfo) :
  let a := analysis prAnalysis in
  let notes := releaseNotes (generateFromTemplate inputs prAnalysis
                                                  versionInfo) in
  exists line,
    notes = js "## " ++ headline inputs versionInfo ++ [LF; LF]
            ++ js "### Public" ++ [LF] ++ line ++ [LF; LF]
            ++ js "### Internal" ++ [LF]
            ++ join [LF] (map (fun change => js "- " ++ change)
                              (internalChanges inputs prAnalysis))
    /\ (PRAnalyzer.isBreakingChange a = true -> line = breakingMessage)
    /\ (PRAnalyzer.isBreakingChange a = false ->
        PRAnalyzer.isFeature a = true -> line = featuresMessage)
    /\ (PRAnalyzer.isBreakingChange a = false ->
        PRAnalyzer.isFeature a = false ->
        PRAnalyzer.isBugfix a = true -> line = bugfixMessage)
    /\ (PRAnalyzer.isBreakingChange a = false ->
        PRAnalyzer.isFeature a = false ->
        PRAnalyzer.isBugfix a = false -> line = genericMessage)
    /\ NoDup [breakingMessage; featuresMessage; bugfixMessage;
              genericMessage]
    /\ (PRAnalyzer.isBreakingChange a = true ->
        PRAnalyzer.isFeature a = true ->
        line = breakingMessage
        /\ line <> featuresMessage
        /\ includes line featuresMessage = false
        /\ includes notes breakingMessage = true).
Proof.
  intros a notes. exists (publicChanges a).
  split; [reflexivity|].
  unfold publicChanges.
  split; [intros ->; reflexivity|].
  split; [intros -> ->; reflexivity|].
  split; [intros -> -> ->; reflexivity|].
  split; [intros -> -> ->; reflexivity|].
  split.
  { repeat constructor; simpl; intuition discriminate. }
  intros Hb Hf. rewrite Hb.
  split; [reflexivity|]. split; [discriminate|].
  split; [vm_compute; reflexivity|].
  apply (includes_infix
           (js "## " ++ headline inputs versionInfo ++ [LF; LF]
            ++ js "### Public" ++ [LF])
           breakingMessage
           ([LF; LF] ++ js "### Internal" ++ [LF]
            ++ join [LF] (map (fun change => js "- " ++ change)
                              (internalChanges inputs prAnalysis)))).
  unfold notes, generateFromTemplate, releaseNotes, publicChanges.
  fold a. rewrite Hb. rewrite <- !app_assoc. reflexivity.
Qed.

(** C6, at the input where the code departs from it.  With an empty commit
    list the notification message ends after the "Changes" line: there is
    no bullet and no generic line, because an empty array is truthy and
    only a missing [commits] property selects "Various improvements".  The
    Internal section of the release notes, built a few lines above from
    the same list, does fall back to its generic line. *)
Theorem generateFromTemplate_slack_empty_commit_list
        (inputs : Inputs) (a : PRAnalyzer.Analysis) (versionInfo : VersionInfo) :
  let noCommits := {| analysis := a; commits := Some [] |} in
  let missingCommits := {| analysis := a; commits := None |} in
  slackMessage (generateFromTemplate inputs noCommits versionInfo)
  = rocket ++ js " *" ++ headline inputs versionInfo ++ js "*" ++ [LF; LF]
    ++ js "*Changes:*" ++ [LF]
  /\ slackCommits noCommits = []
  /\ slackCommits missingCommits = [js "Various improvements"]
  /\ internalChanges inputs noCommits
     = [js "Various code improvements and maintenance"]
  /\ internalChanges inputs missingCommits
     = [js "Various code improvements and maintenance"].
Proof.
  repeat split.
Qed.

End Template.

(** ** Parsing the reply of the generation service *)

Section Parsing.
Import Config ReleaseNotesGenerator ParseSpec.

(** The four branches of [parseAIResponse] in one formula: the body is
    the release-notes block, or the whole reply when that block is not
    found; the message is the notification block, or the summary of the
    body when that block is not found. *)
Lemma parseAIResponse_unfold (reply buildNumber : jsstring) :
  parseAIResponse reply buildNumber
  = let body := match releaseNotesBlock reply with
                | [] => reply
                | c :: b => c :: b
                end in
    {| releaseNotes := replaceBuildNumber body buildNumber;
       slackMessage :=
         replaceBuildNumber
           (match slackBlock reply with
            | [] => extractSlackSummary body buildNumber
            | c :: m => c :: m
            end) buildNumber |}.
Proof.
  unfold parseAIResponse, releaseNotesBlock, slackBlock.
  destruct (match matchBlock (js "RELEASE_NOTES_START")
                             (js "RELEASE_NOTES_END") reply with
            | Some captured => trim captured
            | None => []
            end);
  destruct (match matchBlock (js "SLACK_MESSAGE_START")
                             (js "SLACK_MESSAGE_END") reply with
            | Some captured => trim captured
            | None => []
            end); reflexivity.
Qed.

Lemma trim_nil : trim [] = [].
Proof. reflexivity. Qed.

Lemma generateWithAI_text (inputs : Inputs) (versionInfo : VersionInfo)
      (text : jsstring) :
  isAiEnabled inputs = true ->
  generateWithAI inputs versionInfo (ServiceText (Some text))
  = if truthy (trim text)
    then Some (parseAIResponse (trim text) (buildNumber versionInfo))
    else None.
Proof.
  unfold isAiEnabled, generateWithAI, callGeminiAPI, callVertexAI.
  intros H.
  destruct (useVertexAi inputs).
  - destruct text as [|c t]; [reflexivity|]. simpl truthy at 1. cbv iota.
    reflexivity.
  - rewrite orb_false_r in H. rewrite H. simpl negb. cbv iota.
    destruct text as [|c t]; [reflexivity|]. simpl truthy at 1. cbv iota.
    reflexivity.
Qed.

Lemma generateWithAI_no_text (inputs : Inputs) (versionInfo : VersionInfo)
      (reply : ServiceReply) :
  reply = ServiceError \/ reply = ServiceText None ->
  generateWithAI inputs versionInfo reply = None.
Proof.
  unfold generateWithAI, callGeminiAPI, callVertexAI.
  intros [-> | ->]; destruct (useVertexAi inputs); try reflexivity;
    destruct (negb (truthy (geminiApiKey inputs))); reflexivity.
Qed.

(** C1, as the code has it.  Parsing a reply is total.  When neither block
    is found (a block counts as found when its trimmed content is not
    empty), the whole reply is the release-notes body and the message is
    the build announcement followed by the first five non-blank lines of
    the reply.  When only the release-notes block is found, the message is
    derived from that block by the same rule.  When only the notification
    block is found, the release-notes body is the whole reply.  [BUILD_NUMBER]
    is replaced in both fields.  With generation enabled, a reply whose
    text is not empty after trimming always gives generated notes; the
    template path is taken only when generation is disabled, the call
    fails, or the text is missing or blank. *)
Theorem parseAIResponse_lenient :
  (forall reply buildNumber,
      let body := releaseNotesBlock reply in
      let message := slackBlock reply in
      let fill := fun text => replaceBuildNumber text buildNumber in
      (body = [] -> message = [] ->
       parseAIResponse reply buildNumber
       = {| releaseNotes := fill reply;
            slackMessage := fill (extractSlackSummary reply buildNumber) |})
      /\ (body <> [] -> message = [] ->
          parseAIResponse reply buildNumber
          = {| releaseNotes := fill body;
               slackMessage := fill (extractSlackSummary body buildNumber) |})
      /\ (body = [] -> message <> [] ->
          parseAIResponse reply buildNumber
          = {| releaseNotes := fill reply; slackMessage := fill message |})
      /\ (body <> [] -> message <> [] ->
          parseAIResponse reply buildNumber
          = {| releaseNotes := fill body; slackMessage := fill message |}))
  /\ (forall text buildNumber,
         extractSlackSummary text buildNumber
         = announcement buildNumber ++ [LF; LF]
           ++ join [LF] (firstn 5 (nonBlankLines text)))
  /\ (forall inputs prAnalysis versionInfo text,
         isAiEnabled inputs = true ->
         trim text <> [] ->
         generateReleaseNotes inputs prAnalysis versionInfo
                              (ServiceText (Some text)) None
         = Normal {| generatedNotes :=
                       parseAIResponse (trim text) (buildNumber versionInfo);
                     aiGenerated := true;
                     generatedBuildNumber := buildNumber versionInfo |})
  /\ (forall inputs prAnalysis versionInfo reply generated,
         generateReleaseNotes inputs prAnalysis versionInfo reply None
         = Normal generated ->
         aiGenerated generated = false ->
         generatedNotes generated
         = generateFromTemplate inputs prAnalysis versionInfo
         /\ (isAiEnabled inputs = false
             \/ reply = ServiceError
             \/ reply = ServiceText None
             \/ exists text,
                 reply = ServiceText (Some text) /\ trim text = [])).
Proof.
  split; [|split; [|split]].
  - intros reply buildNumber body message fill.
    rewrite parseAIResponse_unfold. fold body. fold message.
    repeat split; intros Hb Hm;
      destruct body; destruct message; try congruence; reflexivity.
  - intros text buildNumber.
    unfold extractSlackSummary, announcement, nonBlankLines.
    rewrite <- !app_assoc. reflexivity.
  - intros inputs prAnalysis versionInfo text Hai Htext.
    unfold generateReleaseNotes.
    rewrite Hai, (generateWithAI_text inputs versionInfo text Hai).
    apply truthy_true in Htext. rewrite Htext. reflexivity.
  - intros inputs prAnalysis versionInfo reply generated Hg Hai.
    unfold generateReleaseNotes in Hg.
    destruct (isAiEnabled inputs) eqn:He.
    + destruct reply as [|[text|]].
      * rewrite generateWithAI_no_text in Hg by auto.
        inversion Hg; subst. simpl. auto.
      * rewrite (generateWithAI_text inputs versionInfo text He) in Hg.
        destruct (truthy (trim text)) eqn:Ht.
        -- inversion Hg; subst. discriminate Hai.
        -- inversion Hg; subst. simpl. split; [reflexivity|].
           right. right. right. exists text. split; [reflexivity|].
           apply truthy_false. exact Ht.
      * rewrite generateWithAI_no_text in Hg by auto.
        inversion Hg; subst. simpl. auto.
    + inversion Hg; subst. simpl. auto.
Qed.

(** The same reply under the earlier copies of the generator: a missing
    block is an exception. *)
Lemma earlier_parseAIResponse_strict (reply buildNumber : jsstring) :
  releaseNotesBlock reply = [] \/ slackBlock reply = [] ->
  EarlierReleaseNotesGenerator.parseAIResponse reply buildNumber
  = Throw (js "Failed to parse AI response - missing sections").
Proof.
  unfold EarlierReleaseNotesGenerator.parseAIResponse.
  unfold releaseNotesBlock, slackBlock.
  intros [H|H]; rewrite H; simpl; rewrite ?orb_true_r; reflexivity.
Qed.

(** C1 as the claim words it fails on a reply that holds the notification
    block only: the release-notes body is the whole reply, markers
    included, not a summary derived from the block. *)
Lemma parseAIResponse_slack_only_counterexample :
  releaseNotesBlock Samples.slackOnlyReply = []
  /\ slackBlock Samples.slackOnlyReply = js "hello"
  /\ releaseNotes (parseAIResponse Samples.slackOnlyReply
                                   Samples.sampleBuildNumber)
     = Samples.slackOnlyReply
  /\ releaseNotes (parseAsSpecified Samples.slackOnlyReply
                                    Samples.sampleBuildNumber)
     = announcement Samples.sampleBuildNumber ++ [LF; LF] ++ js "hello"
  /\ parseAIResponse Samples.slackOnlyReply Samples.sampleBuildNumber
     <> parseAsSpecified Samples.slackOnlyReply Samples.sampleBuildNumber.
Proof.
  repeat split; try (vm_compute; reflexivity).
  vm_compute. discriminate.
Qed.

End Parsing.

(** ** The changelog manager *)

Section Changelog.
Import ChangelogManager.

Lemma findInsertionPointFrom_bounds (lines : list jsstring) (i : nat) :
  i <= findInsertionPointFrom i lines <= i + length lines.
Proof.
  revert i. induction lines as [|l rest IH]; intros i; simpl; [lia|].
  destruct (matchesVersionHeading (trim l)); [lia|].
  destruct (isContentLine i (trim l)); [lia|].
  specialize (IH (S i)). lia.
Qed.

(** The loop stops at a version heading at the latest. *)
Lemma findInsertionPointFrom_heading (lines : list jsstring) (i k : nat)
      (heading : jsstring) :
  nth_error lines k = Some heading ->
  matchesVersionHeading (trim heading) = true ->
  findInsertionPointFrom i lines <= i + k.
Proof.
  revert i k. induction lines as [|l rest IH]; intros i k Hn Hm.
  - destruct k; discriminate Hn.
  - simpl. destruct k as [|k].
    + inversion Hn; subst. rewrite Hm. lia.
    + destruct (matchesVersionHeading (trim l)); [lia|].
      destruct (isContentLine i (trim l)); [lia|].
      specialize (IH (S i) k Hn Hm). lia.
Qed.

(** No line that the loop passes over is a version heading. *)
Lemma findInsertionPointFrom_passed (lines : list jsstring) (i j : nat)
      (l : jsstring) :
  i + j < findInsertionPointFrom i lines ->
  nth_error lines j = Some l ->
  matchesVersionHeading (trim l) = false.
Proof.
  revert i j. induction lines as [|x rest IH]; intros i j Hlt Hn.
  - destruct j; discriminate Hn.
  - simpl in Hlt. destruct j as [|j].
    + inversion Hn; subst.
      destruct (matchesVersionHeading (trim l)); [lia | reflexivity].
    + destruct (matchesVersionHeading (trim x)); [lia|].
      destruct (isContentLine i (trim x)); [lia|].
      apply (IH (S i) j); [lia | exact Hn].
Qed.

Lemma findInsertionPointFrom_skip (i : nat) (l : jsstring)
      (rest : list jsstring) :
  matchesVersionHeading (trim l) = false ->
  isContentLine i (trim l) = false ->
  findInsertionPointFrom i (l :: rest) = findInsertionPointFrom (S i) rest.
Proof. intros H1 H2. simpl. rewrite H1, H2. reflexivity. Qed.

Lemma splice_at {A} (index : nat) (item : A) (lines : list A) :
  index <= length lines ->
  nth_error (splice index item lines) index = Some item.
Proof.
  intros H. unfold splice.
  rewrite nth_error_app2; rewrite length_firstn, Nat.min_l by exact H;
    [|lia].
  rewrite Nat.sub_diag. reflexivity.
Qed.

Lemma splice_after {A} (index k : nat) (item : A) (lines : list A) :
  index <= k -> index <= length lines ->
  nth_error (splice index item lines) (S k) = nth_error lines k.
Proof.
  intros Hk Hl. unfold splice.
  rewrite nth_error_app2; rewrite length_firstn, Nat.min_l by exact Hl;
    [|lia].
  replace (S k - index) with (S (k - index)) by lia. simpl.
  rewrite nth_error_skipn. f_equal. lia.
Qed.

Lemma splice_before {A} (index j : nat) (item : A) (lines : list A) :
  j < index -> index <= length lines ->
  nth_error (splice index item lines) j = nth_error lines j.
Proof.
  intros Hj Hl. unfold splice.
  rewrite nth_error_app1 by (rewrite length_firstn; lia).
  rewrite nth_error_firstn.
  apply Nat.ltb_lt in Hj. rewrite Hj. reflexivity.
Qed.

(** C10. Inserting an entry only inserts.  The lines of the current
    content, joined, are the content; the updated content is those lines
    with the entry spliced in at one index; read back line by line, it is
    the lines before the index, the lines of the entry, and the lines from
    the index on: every original line is there, unchanged and in order. *)
Theorem insertEntry_purely_insertive (currentContent newEntry : jsstring) :
  let lines := split LF currentContent in
  let index := findInsertionPoint lines in
  index <= length lines
  /\ join [LF] lines = currentContent
  /\ firstn index lines ++ skipn index lines = lines
  /\ insertEntry currentContent newEntry
     = join [LF] (firstn index lines ++ newEntry :: skipn index lines)
  /\ split LF (insertEntry currentContent newEntry)
     = firstn index lines ++ split LF newEntry ++ skipn index lines.
Proof.
  intros lines index.
  assert (Hle : index <= length lines).
  { pose proof (findInsertionPointFrom_bounds lines 0) as H.
    unfold index, findInsertionPoint. lia. }
  split; [exact Hle|].
  split; [apply join_split|].
  split; [apply firstn_skipn|].
  split; [reflexivity|].
  unfold insertEntry, splice. fold lines. fold index.
  rewrite split_join by (destruct (firstn index lines); discriminate).
  rewrite map_app, concat_app. simpl.
  assert (Hno : forall l, In l lines -> ~ In LF l).
  { intros l Hl. exact (split_lines_no_sep LF currentContent l Hl). }
  rewrite !concat_map_singletons.
  - reflexivity.
  - intros l Hl. apply Hno.
    rewrite <- (firstn_skipn index lines). apply in_or_app. right. exact Hl.
  - intros l Hl. apply Hno.
    rewrite <- (firstn_skipn index lines). apply in_or_app. left. exact Hl.
Qed.

End Changelog.

Section ChangelogInsertion.
Import ChangelogManager.

Lemma trimStart_keeps_last (u : jsstring) (c : char16) :
  isWhiteSpace c = false -> exists u', trimStart (u ++ [c]) = u' ++ [c].
Proof.
  intros Hc. induction u as [|x u IH]; simpl.
  - rewrite Hc. exists []. reflexivity.
  - destruct (isWhiteSpace x); [exact IH|].
    exists (x :: u). reflexivity.
Qed.

(** Trimming keeps a first character that is no white space. *)
Lemma trim_head (c : char16) (t : jsstring) :
  isWhiteSpace c = false -> exists t', trim (c :: t) = c :: t'.
Proof.
  intros Hc. unfold trim, trimEnd. simpl trimStart. rewrite Hc.
  simpl rev.
  destruct (trimStart_keeps_last (rev t) c Hc) as [u' Hu].
  rewrite Hu, rev_app_distr. simpl. exists (rev u'). reflexivity.
Qed.

Lemma no_LF_check (s : jsstring) :
  existsb (N.eqb LF) s = false -> ~ In LF s.
Proof.
  intros H Hin.
  assert (existsb (N.eqb LF) s = true).
  { apply existsb_exists. exists LF. split; [exact Hin | apply N.eqb_refl]. }
  congruence.
Qed.

(** The repository line of the header is no version heading, whatever the
    repository is called. *)
Lemma repository_line_no_heading (repoName : jsstring) :
  matchesVersionHeading
    (trim (js "All notable changes to " ++ repoName
           ++ js " will be documented in this file.")) = false.
Proof.
  destruct (trim_head 65%N
              (js "ll notable changes to " ++ repoName
               ++ js " will be documented in this file.")) as [t' Ht'];
    [reflexivity|].
  assert (E : trim (js "All notable changes to " ++ repoName
                    ++ js " will be documented in this file.")
              = 65%N :: t') by exact Ht'.
  rewrite E. reflexivity.
Qed.

(** The lines of a fresh changelog, when the repository name holds no line
    feed. *)
Lemma createInitialChangelog_lines (repository : option jsstring) :
  (forall r, repository = Some r -> ~ In LF r) ->
  split LF (createInitialChangelog repository)
  = [js "# Changelog"; [];
     js "All notable changes to "
     ++ PRAnalyzer.orElse repository (js "Repository")
     ++ js " will be documented in this file.";
     [];
     js "The format is based on [Keep a Changelog](https://keepachangelog.com/en/1.0.0/),";
     js "and this project adheres to [Semantic Versioning](https://semver.org/spec/v2.0.0.html).";
     []; []].
Proof.
  intros Hrepo.
  assert (Hname : ~ In LF (PRAnalyzer.orElse repository (js "Repository"))).
  { unfold PRAnalyzer.orElse. destruct repository as [r|].
    - destruct (truthy r); [apply Hrepo; reflexivity|].
      apply no_LF_check. reflexivity.
    - apply no_LF_check. reflexivity. }
  set (repoName := PRAnalyzer.orElse repository (js "Repository")) in *.
  assert (Hjoin :
            createInitialChangelog repository
            = join [LF]
                [js "# Changelog"; [];
                 js "All notable changes to " ++ repoName
                 ++ js " will be documented in this file.";
                 [];
                 js "The format is based on [Keep a Changelog](https://keepachangelog.com/en/1.0.0/),";
                 js "and this project adheres to [Semantic Versioning](https://semver.org/spec/v2.0.0.html).";
                 []; []]).
  { unfold createInitialChangelog. fold repoName. cbn [join].
    rewrite <- !app_assoc. reflexivity. }
  rewrite Hjoin, split_join by discriminate.
  assert (Hline : ~ In LF (js "All notable changes to " ++ repoName
                           ++ js " will be documented in this file.")).
  { rewrite !in_app_iff. intros [H|[H|H]].
    - revert H. apply no_LF_check. reflexivity.
    - exact (Hname H).
    - revert H. apply no_LF_check. reflexivity. }
  apply concat_map_singletons.
  intros l Hl. simpl in Hl.
  destruct Hl as [<-|[<-|[<-|[<-|[<-|[<-|[<-|[<-|[]]]]]]]]];
    first [apply no_LF_check; reflexivity | exact Hline].
Qed.

(** C8. In a changelog that holds a version heading, the entry goes
    strictly before the first such line: the insertion index is at most
    the index of any heading line, no line before the index is a heading,
    and after the splice the entry sits at the index and each heading line
    one place further down.  In a changelog fresh from the initial
    template (the repository name holding no line feed), the loop runs off
    the end: the entry goes after the header block, at the end of the
    file. *)
Theorem insertEntry_position :
  (forall content entry k heading,
      nth_error (split LF content) k = Some heading ->
      matchesVersionHeading (trim heading) = true ->
      let lines := split LF content in
      let index := findInsertionPoint lines in
      index <= k
      /\ (forall j l, j < index -> nth_error lines j = Some l ->
                      matchesVersionHeading (trim l) = false)
      /\ insertEntry content entry = join [LF] (splice index entry lines)
      /\ nth_error (splice index entry lines) index = Some entry
      /\ nth_error (splice index entry lines) (S k) = Some heading
      /\ (forall j, j < index ->
                    nth_error (splice index entry lines) j
                    = nth_error lines j))
  /\ (forall repository entry,
         (forall r, repository = Some r -> ~ In LF r) ->
         let fresh := createInitialChangelog repository in
         findInsertionPoint (split LF fresh) = length (split LF fresh)
         /\ insertEntry fresh entry = fresh ++ [LF] ++ entry).
Proof.
  split.
  - intros content entry k heading Hn Hm lines index.
    assert (Hk : index <= k).
    { apply (findInsertionPointFrom_heading lines 0 k heading Hn Hm). }
    assert (Hlen : k < length lines).
    { apply nth_error_Some. fold lines in Hn. rewrite Hn. discriminate. }
    split; [exact Hk|].
    split.
    { intros j l Hj Hl.
      apply (findInsertionPointFrom_passed lines 0 j l); [exact Hj | exact Hl]. }
    split; [reflexivity|].
    split; [apply splice_at; lia|].
    split; [rewrite splice_after by lia; exact Hn|].
    intros j Hj. apply splice_before; lia.
  - intros repository entry Hrepo fresh.
    assert (Hidx : findInsertionPoint (split LF fresh)
                   = length (split LF fresh)).
    { unfold fresh. rewrite (createInitialChangelog_lines repository Hrepo).
      unfold findInsertionPoint.
      rewrite findInsertionPointFrom_skip by reflexivity.
      rewrite findInsertionPointFrom_skip by reflexivity.
      rewrite findInsertionPointFrom_skip
        by (try apply repository_line_no_heading; reflexivity).
      rewrite findInsertionPointFrom_skip by reflexivity.
      rewrite findInsertionPointFrom_skip by reflexivity.
      rewrite findInsertionPointFrom_skip by reflexivity.
      rewrite findInsertionPointFrom_skip by reflexivity.
      rewrite findInsertionPointFrom_skip by reflexivity.
      reflexivity. }
    split; [exact Hidx|].
    unfold insertEntry, splice. rewrite Hidx.
    rewrite firstn_all, skipn_all.
    rewrite join_app by (try apply split_nonempty; discriminate).
    rewrite join_split. reflexivity.
Qed.

End ChangelogInsertion.

(** ** The theorems at sample inputs *)

Lemma analyzeChanges_additive_order_invariant_witness :
  Permutation [Samples.sampleCommit (js "feat: add login");
               Samples.sampleCommit (js "Fix: crash on start")]
              [Samples.sampleCommit (js "Fix: crash on start");
               Samples.sampleCommit (js "feat: add login")]
  /\ Permutation [js "Bug"; js "Breaking-API"] [js "Breaking-API"; js "Bug"]
  /\ forall t,
      In t (PRAnalyzer.changeTypes
              (PRAnalyzer.analyzeChanges
                 asciiToLowerCase
                 (AnalyzerSpec.withLabels Samples.samplePullRequest
                                          [js "Bug"; js "Breaking-API"])
                 None
                 (Some [Samples.sampleCommit (js "feat: add login");
                        Samples.sampleCommit (js "Fix: crash on start")])))
      <-> In t (PRAnalyzer.changeTypes
                  (PRAnalyzer.analyzeChanges
                     asciiToLowerCase
                     (AnalyzerSpec.withLabels Samples.samplePullRequest
                                              [js "Breaking-API"; js "Bug"])
                     None
                     (Some [Samples.sampleCommit (js "Fix: crash on start");
                            Samples.sampleCommit (js "feat: add login")]))).
Proof.
  split; [apply perm_swap|]. split; [apply perm_swap|].
  apply (analyzeChanges_additive_order_invariant
           asciiToLowerCase Samples.samplePullRequest None
           [Samples.sampleCommit (js "feat: add login");
            Samples.sampleCommit (js "Fix: crash on start")]
           [Samples.sampleCommit (js "Fix: crash on start");
            Samples.sampleCommit (js "feat: add login")]
           [js "Bug"; js "Breaking-API"] [js "Breaking-API"; js "Bug"]
           (perm_swap _ _ _) (perm_swap _ _ _)).
Defined.

Lemma generateVersion_development_witness :
  Config.isProductionEnvironment asciiToLowerCase
                                 (Samples.sampleInputs (js "DEV")) = false
  /\ GitUtils.getShortCommit
       (GitUtils.revParseShort Samples.untaggedRepository)
     = Normal (js "abc1234")
  /\ exists v,
      VersionManager.generateVersion
        Semver.valid (fun _ _ => None) (fun _ _ => js "1.0.1")
        asciiToLowerCase (Samples.sampleInputs (js "DEV"))
        Samples.untaggedRepository None = Normal v
      /\ VersionManager.previousVersion v = js "1.0.0"
      /\ VersionManager.newVersion v = js "1.0.0-dev.abc1234".
Proof.
  split; [reflexivity|]. split; [reflexivity|].
  destruct (generateVersion_development
              Semver.valid (fun _ _ => None) (fun _ _ => js "1.0.1")
              asciiToLowerCase (Samples.sampleInputs (js "DEV"))
              Samples.untaggedRepository None (js "abc1234")
              eq_refl eq_refl)
    as [v (Hv & _ & _ & _ & _ & Hno)].
  exists v. split; [exact Hv|].
  apply Hno. left. discriminate.
Defined.

Lemma checkTriggerConditions_ordered_checks_witness :
  Main.checkTriggerConditions
    Samples.testInputs (Samples.pullRequestEvent true (js "release-notes"))
  = Normal TriggerSpec.allConditionsMet
  /\ Main.checkTriggerConditions
       Samples.testInputs (Samples.pullRequestEvent false (js "release-notes"))
     = Normal (TriggerSpec.skip (js "PR is not merged"))
  /\ Main.checkTriggerConditions Samples.testInputs Samples.pushEvent
     = Normal (TriggerSpec.skip (js "Not a pull request event")).
Proof.
  split; [|split].
  - destruct (checkTriggerConditions_ordered_checks
                Samples.testInputs
                (Samples.pullRequestEvent true (js "release-notes")))
      as (_ & H & _).
    destruct (H _ eq_refl eq_refl) as (_ & _ & _ & Hall).
    apply Hall; [reflexivity | right; left; reflexivity
                | right; left; reflexivity].
  - destruct (checkTriggerConditions_ordered_checks
                Samples.testInputs
                (Samples.pullRequestEvent false (js "release-notes")))
      as (_ & H & _).
    destruct (H _ eq_refl eq_refl) as (Hm & _).
    apply Hm. reflexivity.
  - destruct (checkTriggerConditions_ordered_checks
                Samples.testInputs Samples.pushEvent) as (H & _).
    apply H. unfold TriggerSpec.isPullRequestEvent. discriminate.
Defined.

Lemma trigger_label_is_exact_match_witness :
  Main.checkTriggerConditions
    (Samples.sampleInputs (js "PROD"))
    (Samples.pullRequestEvent true (js "Release"))
  = Normal (TriggerSpec.skip (js "Missing required label: release")).
Proof.
  destruct trigger_label_is_exact_match as (_ & H & _).
  apply (H (Samples.sampleInputs (js "PROD"))
           (Samples.pullRequestEvent true (js "Release")) _
           eq_refl eq_refl eq_refl);
    [left; reflexivity | reflexivity | reflexivity].
Defined.

Lemma generateFromTemplate_public_priority_witness :
  PRAnalyzer.isBreakingChange
    (ReleaseNotesGenerator.analysis Samples.breakingFeature) = true
  /\ PRAnalyzer.isFeature
       (ReleaseNotesGenerator.analysis Samples.breakingFeature) = true
  /\ includes
       (ReleaseNotesGenerator.releaseNotes
          (ReleaseNotesGenerator.generateFromTemplate
             (Samples.sampleInputs (js "PROD")) Samples.breakingFeature
             Samples.sampleVersionInfo))
       TemplateSpec.breakingMessage = true.
Proof.
  split; [reflexivity|]. split; [reflexivity|].
  destruct (generateFromTemplate_public_priority
              (Samples.sampleInputs (js "PROD")) Samples.breakingFeature
              Samples.sampleVersionInfo)
    as [line (_ & _ & _ & _ & _ & _ & H)].
  apply H; reflexivity.
Defined.

Lemma insertEntry_position_witness :
  nth_error (split LF Samples.releasedChangelog) 7
  = Some (js "## [1.0.0] - 2024-01-01")
  /\ ChangelogManager.findInsertionPoint (split LF Samples.releasedChangelog)
     <= 7
  /\ ChangelogManager.insertEntry
       (ChangelogManager.createInitialChangelog (Some (js "owner/repo")))
       Samples.sampleEntry
     = ChangelogManager.createInitialChangelog (Some (js "owner/repo"))
       ++ [LF] ++ Samples.sampleEntry.
Proof.
  destruct insertEntry_position as (Hheading & Hfresh).
  split; [reflexivity|]. split.
  - apply (Hheading Samples.releasedChangelog Samples.sampleEntry 7
                    (js "## [1.0.0] - 2024-01-01") eq_refl eq_refl).
  - apply (Hfresh (Some (js "owner/repo")) Samples.sampleEntry).
    intros r Hr. inversion Hr; subst r.
    apply no_LF_check. reflexivity.
Defined.

Lemma parseAIResponse_lenient_witness :
  Config.isAiEnabled (Samples.sampleInputs (js "PROD")) = true
  /\ trim (js "Fixed the login page." ++ [LF]) <> []
  /\ ReleaseNotesGenerator.generateReleaseNotes
       (Samples.sampleInputs (js "PROD")) Samples.breakingFeature
       Samples.sampleVersionInfo
       (ReleaseNotesGenerator.ServiceText
          (Some (js "Fixed the login page." ++ [LF]))) None
     = Normal
         {| ReleaseNotesGenerator.generatedNotes :=
              ReleaseNotesGenerator.parseAIResponse
                (trim (js "Fixed the login page." ++ [LF]))
                Samples.sampleBuildNumber;
            ReleaseNotesGenerator.aiGenerated := true;
            ReleaseNotesGenerator.generatedBuildNumber :=
              Samples.sampleBuildNumber |}.
Proof.
  destruct parseAIResponse_lenient as (_ & _ & H & _).
  split; [reflexivity|]. split; [discriminate|].
  apply (H (Samples.sampleInputs (js "PROD")) Samples.breakingFeature
           Samples.sampleVersionInfo (js "Fixed the login page." ++ [LF])
           eq_refl).
  discriminate.
Defined.

(** ** The functions run on sample inputs *)

(** The assertions of the repository's own test of [cleanVersion]. *)
Example cleanVersion_test_v :
  VersionManager.cleanVersion Semver.valid (js "v1.2.3") = js "1.2.3".
Proof. vm_compute. reflexivity. Qed.

Example cleanVersion_test_release :
  VersionManager.cleanVersion Semver.valid (js "release-2.0.0") = js "2.0.0".
Proof. vm_compute. reflexivity. Qed.

Example cleanVersion_test_garbage :
  VersionManager.cleanVersion Semver.valid (js "latest") = js "1.0.0".
Proof. vm_compute. reflexivity. Qed.

(** A development version is in general no semantic version: a short
    commit id of digits with a leading zero is refused. *)
Example development_version_not_validated :
  Semver.valid (js "1.0.0-dev.0123456") = None
  /\ Semver.valid (js "1.0.0-dev.abc1234") = Some (js "1.0.0-dev.abc1234").
Proof. split; vm_compute; reflexivity. Qed.

(** A reply with both blocks: the trimmed contents, [BUILD_NUMBER]
    replaced. *)
Example parseAIResponse_both_blocks :
  ReleaseNotesGenerator.parseAIResponse
    (js "RELEASE_NOTES_START" ++ [LF] ++ js "## v1.3.0 - BUILD_NUMBER [PROD]"
     ++ [LF] ++ js "RELEASE_NOTES_END" ++ [LF; LF]
     ++ js "SLACK_MESSAGE_START" ++ [LF] ++ js "Deployed BUILD_NUMBER"
     ++ [LF] ++ js "SLACK_MESSAGE_END")
    Samples.sampleBuildNumber
  = {| ReleaseNotesGenerator.releaseNotes :=
         js "## v1.3.0 - 20240101.1200 [PROD]";
       ReleaseNotesGenerator.slackMessage := js "Deployed 20240101.1200" |}.
Proof. vm_compute. reflexivity. Qed.

(** A reply without markers: the summary keeps the first five non-blank
    lines. *)
Example parseAIResponse_no_markers :
  ReleaseNotesGenerator.slackMessage
    (ReleaseNotesGenerator.parseAIResponse
       (js "one" ++ [LF; LF] ++ js "two" ++ [LF] ++ js "  " ++ [LF]
        ++ js "three" ++ [LF] ++ js "four" ++ [LF] ++ js "five" ++ [LF]
        ++ js "six")
       Samples.sampleBuildNumber)
  = ReleaseNotesGenerator.rocket ++ js " Build 20240101.1200 deployed"
    ++ [LF; LF] ++ js "one" ++ [LF] ++ js "two" ++ [LF] ++ js "three"
    ++ [LF] ++ js "four" ++ [LF] ++ js "five".
Proof. vm_compute. reflexivity. Qed.

(** The notification message for an empty commit list, in full. *)
Example generateFromTemplate_empty_commit_list :
  let notes :=
    ReleaseNotesGenerator.generateFromTemplate
      (Samples.sampleInputs (js "PROD"))
      {| ReleaseNotesGenerator.analysis :=
           ReleaseNotesGenerator.analysis Samples.breakingFeature;
         ReleaseNotesGenerator.commits := Some [] |}
      Samples.sampleVersionInfo in
  ReleaseNotesGenerator.slackMessage notes
  = ReleaseNotesGenerator.rocket ++ js " *v1.3.0 - 20240101.1200 [PROD]*"
    ++ [LF; LF] ++ js "*Changes:*" ++ [LF]
  /\ includes (ReleaseNotesGenerator.slackMessage notes)
              (js "Various improvements") = false
  /\ includes (ReleaseNotesGenerator.releaseNotes notes)
              (js "- Various code improvements and maintenance") = true.
Proof. repeat split; vm_compute; reflexivity. Qed.

(** The file of a diff header is the path after the last [" b/"]. *)
Example matchDiffHeader_sample :
  PRAnalyzer.matchDiffHeader (js "diff --git a/src/main.js b/src/main.js")
  = Some (js "src/main.js")
  /\ PRAnalyzer.matchDiffHeader (js "diff --git src/main.js") = None.
Proof. split; vm_compute; reflexivity. Qed.

(** Inserting into a changelog with a released version. *)
Example insertEntry_released_changelog :
  ChangelogManager.insertEntry Samples.releasedChangelog Samples.sampleEntry
  = ChangelogManager.createInitialChangelog (Some (js "owner/repo"))
    ++ Samples.sampleEntry ++ [LF]
    ++ js "## [1.0.0] - 2024-01-01" ++ [LF] ++ js "- First release" ++ [LF].
Proof. vm_compute. reflexivity. Qed.

(* ================================================================== *)
(** * Further properties of the code *)
(* ================================================================== *)

(** ** Trimming *)

Lemma trimStart_head (s : jsstring) :
  match trimStart s with
  | [] => True
  | c :: _ => isWhiteSpace c = false
  end.
Proof.
  induction s as [|c t IH]; simpl; [exact I|].
  destruct (isWhiteSpace c) eqn:E; [exact IH | exact E].
Qed.

Lemma trimStart_fixed (c : char16) (t : jsstring) :
  isWhiteSpace c = false -> trimStart (c :: t) = c :: t.
Proof. intros H. simpl. rewrite H. reflexivity. Qed.

Lemma trimStart_spaces (w s : jsstring) :
  forallb isWhiteSpace w = true -> trimStart (w ++ s) = trimStart s.
Proof.
  induction w as [|c w IH]; simpl; [reflexivity|].
  intros H. apply andb_true_iff in H. destruct H as [Hc Hw].
  rewrite Hc. apply IH. exact Hw.
Qed.

Lemma trimStart_app_last (u : jsstring) (c : char16) :
  isWhiteSpace c = false -> trimStart (u ++ [c]) = trimStart u ++ [c].
Proof.
  intros Hc. induction u as [|x u IH]; simpl.
  - rewrite Hc. reflexivity.
  - destruct (isWhiteSpace x); [exact IH | reflexivity].
Qed.

(** The text that [trim] gives is empty, or starts and ends with a
    character that is no white space. *)
Lemma trim_shape (s : jsstring) :
  trim s = []
  \/ exists c t u c',
      trim s = c :: t /\ isWhiteSpace c = false
      /\ trim s = u ++ [c'] /\ isWhiteSpace c' = false.
Proof.
  unfold trim, trimEnd.
  pose proof (trimStart_head s) as Hh.
  destruct (trimStart s) as [|c t]; [left; reflexivity|].
  right. simpl rev.
  rewrite (trimStart_app_last (rev t) c Hh), rev_app_distr. simpl.
  pose proof (trimStart_head (rev t)) as Ht.
  destruct (trimStart (rev t)) as [|c' r] eqn:Er.
  - exists c, [], [], c. simpl. auto.
  - exists c, (rev (c' :: r)), (c :: rev r), c'. simpl.
    repeat split; auto.
Qed.

Lemma trim_fixed (c c' : char16) (t u : jsstring) :
  isWhiteSpace c = false -> isWhiteSpace c' = false ->
  c :: t = u ++ [c'] -> trim (c :: t) = c :: t.
Proof.
  intros Hc Hc' E. unfold trim, trimEnd.
  rewrite (trimStart_fixed c t Hc), E, rev_app_distr. simpl.
  rewrite Hc'. simpl. rewrite rev_involutive. reflexivity.
Qed.

Lemma trim_idempotent (s : jsstring) : trim (trim s) = trim s.
Proof.
  destruct (trim_shape s) as [E|(c & t & u & c' & E1 & Hc & E2 & Hc')].
  - rewrite E. reflexivity.
  - rewrite E1. apply (trim_fixed c c' t u Hc Hc'). rewrite <- E1. exact E2.
Qed.

Lemma trim_spaces_left (w s : jsstring) :
  forallb isWhiteSpace w = true -> trim (w ++ s) = trim s.
Proof.
  intros H. unfold trim. rewrite (trimStart_spaces w s H). reflexivity.
Qed.

Lemma trimStart_all_spaces (s : jsstring) :
  trimStart s = [] <-> forallb isWhiteSpace s = true.
Proof.
  induction s as [|c t IH]; simpl; [tauto|].
  destruct (isWhiteSpace c); simpl; [exact IH|]. split; discriminate.
Qed.

Lemma trim_blank (s : jsstring) :
  trim s = [] <-> forallb isWhiteSpace s = true.
Proof.
  rewrite <- trimStart_all_spaces. unfold trim, trimEnd. split.
  - intros H. pose proof (trimStart_head s) as Hh.
    destruct (trimStart s) as [|c t]; [reflexivity|].
    simpl rev in H. rewrite (trimStart_app_last (rev t) c Hh) in H.
    apply (f_equal (@length _)) in H.
    rewrite length_rev, length_app in H. simpl in H. lia.
  - intros ->. reflexivity.
Qed.

(** ** The commit log *)

Section CommitLog.
Import GitUtils GitLog GitLogFormat.

Lemma trimStart_incl (x : char16) (s : jsstring) :
  In x (trimStart s) -> In x s.
Proof.
  induction s as [|c t IH]; simpl; [auto|].
  destruct (isWhiteSpace c); [intros H; right; apply IH; exact H | auto].
Qed.

Lemma trim_incl (x : char16) (s : jsstring) : In x (trim s) -> In x s.
Proof.
  unfold trim, trimEnd. intros H.
  apply in_rev, trimStart_incl in H. apply in_rev in H.
  apply trimStart_incl. exact H.
Qed.

Lemma hd_split_no_sep (sep : char16) (s : jsstring) :
  ~ In sep (hd [] (split sep s)).
Proof.
  apply (split_lines_no_sep sep s).
  pose proof (split_nonempty sep s) as H.
  destruct (split sep s); [contradiction | left; reflexivity].
Qed.

(** X1. What [parseCommits] gives: nothing for a blank output; at most
    one record for each line of the trimmed output; and in every record a
    hash that is not empty, has no white space at its ends and holds no
    [|], with the short hash its first seven code units. *)
Theorem parseCommits_records (output : jsstring) :
  (trim output = [] -> parseCommits output = [])
  /\ length (parseCommits output) <= length (split LF (trim output))
  /\ forall c, In c (parseCommits output) ->
       hash c <> []
       /\ trim (hash c) = hash c
       /\ ~ In 124%N (hash c)
       /\ ~ In LF (hash c)
       /\ shortHash c = firstn 7 (hash c)
       /\ length (shortHash c) <= 7.
Proof.
  unfold parseCommits. split; [|split].
  - intros ->. reflexivity.
  - destruct (negb (truthy (trim output))); simpl; [lia|].
    etransitivity; [apply filter_length_le|]. rewrite length_map. lia.
  - intros c Hc.
    destruct (negb (truthy (trim output))); [destruct Hc|].
    apply filter_In in Hc. destruct Hc as [Hin Hh].
    apply in_map_iff in Hin. destruct Hin as [line [<- Hline]].
    unfold parseLine in *. cbn [hash shortHash] in *.
    split; [apply truthy_true; exact Hh|].
    split; [apply trim_idempotent|].
    split.
    { intros H. apply trim_incl in H. revert H. apply hd_split_no_sep. }
    split.
    { intros H. apply trim_incl in H.
      apply (split_lines_no_sep LF (trim output) line Hline).
      pose proof (split_nonempty 124%N line) as Hne.
      destruct (split 124%N line) as [|f fs] eqn:E; [contradiction|].
      simpl in H.
      rewrite <- (join_split 124%N line), E.
      destruct fs; simpl; [exact H|]. apply in_or_app. left. exact H. }
    split; [reflexivity|]. apply firstn_le_length.
Qed.

Lemma cleanField_trim (f : jsstring) : cleanField f -> trim f = f.
Proof. intros (_ & _ & H). exact H. Qed.

Lemma split_printEntry (e : LogEntry) :
  cleanEntry e ->
  split 124%N (printEntry e)
  = [entryHash e; entrySubject e; entryAuthor e; entryEmail e; entryDate e].
Proof.
  intros (_ & (Hh & _) & (Hs & _) & (Ha & _) & (He & _) & (Hd & _)).
  unfold printEntry. simpl app.
  rewrite !split_app_sep.
  rewrite !split_no_sep by assumption. reflexivity.
Qed.

Lemma parseLine_printEntry (e : LogEntry) :
  cleanEntry e -> parseLine (printEntry e) = recordOf e.
Proof.
  intros H. unfold parseLine. rewrite (split_printEntry e H).
  destruct H as (_ & Hh & Hs & Ha & He & Hd).
  simpl. unfold recordOf.
  rewrite (cleanField_trim _ Hh), (cleanField_trim _ Hs),
    (cleanField_trim _ Ha), (cleanField_trim _ He), (cleanField_trim _ Hd).
  reflexivity.
Qed.

Lemma printEntry_no_LF (e : LogEntry) : cleanEntry e -> ~ In LF (printEntry e).
Proof.
  intros (_ & (_ & Hh & _) & (_ & Hs & _) & (_ & Ha & _) & (_ & He & _)
          & (_ & Hd & _)).
  unfold printEntry. rewrite !in_app_iff. simpl.
  intros [H|[[H|[]]|[H|[[H|[]]|[H|[[H|[]]|[H|[[H|[]]|H]]]]]]]];
    try discriminate H; auto.
Qed.

Lemma trimmed_ends (f : jsstring) :
  trim f = f -> f <> [] ->
  exists c t u c',
    f = c :: t /\ isWhiteSpace c = false
    /\ f = u ++ [c'] /\ isWhiteSpace c' = false.
Proof.
  intros Hf Hne.
  destruct (trim_shape f) as [E|H]; rewrite Hf in *; [contradiction|exact H].
Qed.

Lemma printEntry_ends (e : LogEntry) :
  cleanEntry e ->
  exists c t u c',
    printEntry e = c :: t /\ isWhiteSpace c = false
    /\ printEntry e = u ++ [c'] /\ isWhiteSpace c' = false.
Proof.
  intros (Hne & (_ & _ & Hh) & _ & _ & _ & (_ & _ & Hd)).
  destruct (trimmed_ends _ Hh Hne) as (c & t & _ & _ & Eh & Hc & _).
  assert (Ehead : exists tail, printEntry e = c :: tail).
  { unfold printEntry. rewrite Eh. eexists. reflexivity. }
  destruct Ehead as [tail Etail].
  assert (Esplit : printEntry e
                   = (entryHash e ++ [124%N] ++ entrySubject e ++ [124%N]
                      ++ entryAuthor e ++ [124%N] ++ entryEmail e)
                     ++ [124%N] ++ entryDate e).
  { unfold printEntry. rewrite <- !app_assoc. reflexivity. }
  destruct (entryDate e) as [|d0 ds] eqn:Ed.
  - exists c, tail. eexists. exists 124%N.
    split; [exact Etail|]. split; [exact Hc|].
    split; [|reflexivity]. rewrite Esplit. reflexivity.
  - destruct (trimmed_ends _ Hd) as (_ & _ & u & c' & _ & _ & Eu & Hc');
      [discriminate|].
    exists c, tail. eexists. exists c'.
    split; [exact Etail|]. split; [exact Hc|].
    split; [|exact Hc'].
    rewrite Esplit, Eu, !app_assoc. reflexivity.
Qed.

Lemma join_starts (sep x : jsstring) (rest : list jsstring) :
  exists tail, join sep (x :: rest) = x ++ tail.
Proof.
  destruct rest; simpl; [exists []; rewrite app_nil_r | eexists]; reflexivity.
Qed.

Lemma join_ends (sep : jsstring) (xs : list jsstring) (x : jsstring) :
  exists front, join sep (xs ++ [x]) = front ++ x.
Proof.
  induction xs as [|y ys IH]; simpl.
  - exists []. reflexivity.
  - destruct IH as [front E].
    destruct (ys ++ [x]) eqn:Ey; [destruct ys; discriminate|].
    rewrite E. exists (y ++ sep ++ front).
    rewrite <- !app_assoc. reflexivity.
Qed.

Lemma printLog_trimmed (entries : list LogEntry) :
  entries <> [] -> Forall cleanEntry entries ->
  trim (printLog entries) = printLog entries /\ printLog entries <> [].
Proof.
  intros Hne Hall. unfold printLog.
  destruct entries as [|e0 es]; [contradiction|].
  assert (H0 : cleanEntry e0) by (inversion Hall; assumption).
  destruct (printEntry_ends e0 H0) as (c & t & _ & _ & E0 & Hc & _).
  destruct (exists_last Hne) as (front & elast & Elast).
  assert (Hl : cleanEntry elast).
  { rewrite Forall_forall in Hall. apply Hall. rewrite Elast.
    apply in_or_app. right. left. reflexivity. }
  destruct (printEntry_ends elast Hl) as (_ & _ & u & c' & _ & _ & El & Hc').
  destruct (join_starts [LF] (printEntry e0) (map printEntry es)) as [tail Et].
  assert (Ee : exists v, join [LF] (map printEntry (e0 :: es)) = v ++ [c']).
  { rewrite Elast, map_app. simpl map.
    destruct (join_ends [LF] (map printEntry front) (printEntry elast))
      as [fr Ef].
    rewrite Ef, El. exists (fr ++ u). rewrite app_assoc. reflexivity. }
  destruct Ee as [v Ev].
  simpl map in *. rewrite Et, E0 in *. simpl app in *.
  split; [|discriminate].
  apply (trim_fixed c c' _ v Hc Hc'). exact Ev.
Qed.

(** X2. Reading back what git prints.  For a log that is not empty and
    whose fields are as git prints them (no [|], no line feed, no white
    space at the ends, a hash that is not empty), [parseCommits] gives
    one record for each entry, in order, with the fields of the entry and
    the first seven code units of the hash as short hash. *)
Theorem parseCommits_printLog (entries : list LogEntry) :
  entries <> [] ->
  Forall cleanEntry entries ->
  parseCommits (printLog entries) = map recordOf entries.
Proof.
  intros Hne Hall.
  destruct (printLog_trimmed entries Hne Hall) as [Ht Hn].
  unfold parseCommits. rewrite Ht.
  apply truthy_true in Hn. rewrite Hn. simpl negb. cbv iota.
  unfold printLog. rewrite split_join by (destruct entries; [contradiction | discriminate]).
  rewrite concat_map_singletons.
  - rewrite map_map. clear Hne Ht Hn.
    induction Hall as [|e es He Hes IH]; [reflexivity|].
    cbn [map filter]. rewrite (parseLine_printEntry e He).
    assert (Hh : truthy (hash (recordOf e)) = true).
    { destruct He as (Hh & _). apply truthy_true. exact Hh. }
    rewrite Hh. f_equal. exact IH.
  - intros l Hl. apply in_map_iff in Hl. destruct Hl as [e [<- He]].
    apply printEntry_no_LF. rewrite Forall_forall in Hall. auto.
Qed.

(** X3. [getCommitsSinceTag] never throws.  When the range query fails
    the result is empty and the fallback query plays no part; when it
    prints commits they are the result; when it prints nothing but white
    space the result is that of the fallback query, or empty when that
    one fails. *)
Theorem getCommitsSinceTag_fallback (range recent : ExecResult) :
  (exitCode range <> 0%Z -> getCommitsSinceTag range recent = [])
  /\ (exitCode range = 0%Z -> trim (stdout range) <> [] ->
      getCommitsSinceTag range recent = parseCommits (stdout range))
  /\ (exitCode range = 0%Z -> trim (stdout range) = [] ->
      exitCode recent = 0%Z ->
      getCommitsSinceTag range recent = parseCommits (stdout recent))
  /\ (exitCode range = 0%Z -> trim (stdout range) = [] ->
      exitCode recent <> 0%Z ->
      getCommitsSinceTag range recent = []).
Proof.
  unfold getCommitsSinceTag. repeat split.
  - intros H. apply Z.eqb_neq in H. rewrite H. reflexivity.
  - intros -> H. apply truthy_true in H. rewrite H. reflexivity.
  - intros -> H ->. rewrite H. simpl.
    apply trim_blank in H. unfold parseCommits.
    rewrite (trim_spaces_left _ _ H). reflexivity.
  - intros -> H H'. rewrite H. simpl.
    apply Z.eqb_neq in H'. rewrite H'. reflexivity.
Qed.

End CommitLog.

(** ** The version manager, further *)

Section VersionsFurther.
Import Config GitUtils VersionManager VersionChecks JsNumber.
Variable semver_valid : jsstring -> option jsstring.
Variable semver_inc : jsstring -> jsstring -> option jsstring.
Variable basicIncrement : jsstring -> jsstring -> jsstring.
Variable toLowerCase : jsstring -> jsstring.

(** X4. Whenever [semver.valid] accepts "1.0.0", what [cleanVersion]
    returns is accepted by [semver.valid], for every input; the result is
    "1.0.0" or the input without its first matching prefix.  So
    [validateVersion], which validates the cleaned version, answers true
    for every string. *)
Theorem cleanVersion_always_valid (version : jsstring) :
  isValid semver_valid (js "1.0.0") = true ->
  isValid semver_valid (cleanVersion semver_valid version) = true
  /\ (cleanVersion semver_valid version = js "1.0.0"
      \/ cleanVersion semver_valid version
         = stripFirstPrefix prefixes version)
  /\ validateVersion semver_valid version = true.
Proof.
  intros H1.
  assert (Hv : isValid semver_valid (cleanVersion semver_valid version) = true).
  { unfold cleanVersion.
    destruct (isValid semver_valid (stripFirstPrefix prefixes version)) eqn:E;
      simpl; assumption. }
  split; [exact Hv|]. split.
  - unfold cleanVersion.
    destruct (isValid semver_valid (stripFirstPrefix prefixes version));
      simpl; auto.
  - unfold validateVersion. unfold isValid in Hv.
    destruct (semver_valid (cleanVersion semver_valid version));
      [reflexivity | discriminate Hv].
Qed.

(** X5. An increment other than patch, minor and major is treated as
    patch.  For a valid increment the result is what [semver.inc] gives
    when that is a non-empty string, and what [basicIncrement] gives
    otherwise. *)
Theorem incrementVersion_fallbacks (currentVersion increment : jsstring) :
  (~ In increment [js "patch"; js "minor"; js "major"] ->
   incrementVersion semver_inc basicIncrement currentVersion increment
   = incrementVersion semver_inc basicIncrement currentVersion (js "patch"))
  /\ (In increment [js "patch"; js "minor"; js "major"] ->
      forall r, semver_inc currentVersion increment = Some r -> r <> [] ->
      incrementVersion semver_inc basicIncrement currentVersion increment = r)
  /\ (In increment [js "patch"; js "minor"; js "major"] ->
      semver_inc currentVersion increment = None
      \/ semver_inc currentVersion increment = Some [] ->
      incrementVersion semver_inc basicIncrement currentVersion increment
      = basicIncrement currentVersion increment).
Proof.
  unfold incrementVersion.
  assert (Hin : forall x,
             existsb (eqb x) [js "patch"; js "minor"; js "major"] = true
             <-> In x [js "patch"; js "minor"; js "major"]).
  { intros x. rewrite existsb_exists. split.
    - intros [y [Hy He]]. apply eqb_eq in He. subst. exact Hy.
    - intros H. exists x. split; [exact H | apply eqb_refl]. }
  split; [|split].
  - intros Hn.
    destruct (existsb (eqb increment) [js "patch"; js "minor"; js "major"])
             eqn:E; [apply Hin in E; contradiction|].
    reflexivity.
  - intros Hi r Hr Hne. apply Hin in Hi. rewrite Hi. simpl negb. cbv iota.
    rewrite Hr. apply truthy_true in Hne. rewrite Hne. reflexivity.
  - intros Hi Hr. apply Hin in Hi. rewrite Hi. simpl negb. cbv iota.
    destruct Hr as [-> | ->]; reflexivity.
Qed.

(** X6. The two paths of [generateVersion].  Under the release-grade
    policy it always returns, without asking git for the commit: the new
    version is the increment of the cleaned latest tag and the tag name
    is the prefix followed by it.  Under the development-grade policy it
    throws exactly when [git rev-parse] fails.  Whenever it returns, the
    previous version is the latest tag, which is never empty. *)
Theorem generateVersion_paths
        (inputs : Inputs) (repo : Repository)
        (versionIncrement : option jsstring) :
  let result := generateVersion semver_valid semver_inc basicIncrement
                                toLowerCase inputs repo versionIncrement in
  (isProductionEnvironment toLowerCase inputs = true ->
   exists v,
     result = Normal v
     /\ newVersion v
        = incrementVersion semver_inc basicIncrement
            (cleanVersion semver_valid (getLatestTag (describeTags repo)))
            (PRAnalyzer.orElse versionIncrement (versionStrategy inputs))
     /\ tagName v = versionPrefix inputs ++ newVersion v)
  /\ (isProductionEnvironment toLowerCase inputs = false ->
      ((exists e, result = Throw e)
       <-> exitCode (revParseShort repo) <> 0%Z))
  /\ (forall v, result = Normal v ->
        previousVersion v = getLatestTag (describeTags repo)
        /\ previousVersion v <> []
        /\ trim (previousVersion v) = previousVersion v).
Proof.
  intros result. unfold result, generateVersion.
  assert (Htag : getLatestTag (describeTags repo) <> []
                 /\ trim (getLatestTag (describeTags repo))
                    = getLatestTag (describeTags repo)).
  { unfold getLatestTag.
    destruct ((exitCode (describeTags repo) =? 0)%Z
              && truthy (trim (stdout (describeTags repo)))) eqn:E.
    - apply andb_true_iff in E. destruct E as [_ E].
      apply truthy_true in E. split; [exact E | apply trim_idempotent].
    - split; [discriminate | reflexivity]. }
  split; [|split].
  - intros ->. eexists. repeat split.
  - intros ->. unfold getShortCommit.
    destruct (exitCode (revParseShort repo) =? 0)%Z eqn:E.
    + apply Z.eqb_eq in E. split; [intros [e He]; discriminate He|].
      intros H. contradiction.
    + apply Z.eqb_neq in E. split; [intros _; exact E|].
      intros _. eexists. reflexivity.
  - intros v Hv.
    destruct (isProductionEnvironment toLowerCase inputs).
    + inversion Hv; subst v. simpl. tauto.
    + destruct (getShortCommit (revParseShort repo)); [|discriminate Hv].
      inversion Hv; subst v. simpl. tauto.
Qed.

Lemma decimal_pad_two_digits (n : nat) :
  n < 100 ->
  length (padStart2 (decimal n)) = 2
  /\ forallb isDigit (padStart2 (decimal n)) = true.
Proof.
  intros H.
  assert (Hall : forallb (fun k =>
                    Nat.eqb (length (padStart2 (decimal k))) 2
                    && forallb isDigit (padStart2 (decimal k)))
                   (seq 0 100) = true) by (vm_compute; reflexivity).
  rewrite forallb_forall in Hall.
  specialize (Hall n). rewrite in_seq in Hall.
  assert (Hn : 0 <= n < 0 + 100) by lia.
  apply Hall in Hn. apply andb_true_iff in Hn. destruct Hn as [Hl Hd].
  apply Nat.eqb_eq in Hl. auto.
Qed.

Lemma to_little_uint_iter (n : nat) (acc : Decimal.uint) :
  Nat.to_little_uint n acc = Nat.iter n Decimal.Little.succ acc.
Proof.
  revert acc. induction n as [|n IH]; intros acc; [reflexivity|].
  simpl Nat.to_little_uint. rewrite IH. symmetry. apply Nat.iter_succ_r.
Qed.

(** Counting up from the numeral [u] and checking [p] at each of [n]
    numerals. *)
Lemma iter_check (p : Decimal.uint -> bool) (n : nat) (u : Decimal.uint) :
  fst (Nat.iter n (fun s => (fst s && p (snd s), Decimal.Little.succ (snd s)))
                (true, u)) = true ->
  forall k, k < n -> p (Nat.iter k Decimal.Little.succ u) = true.
Proof.
  set (step := fun s : bool * Decimal.uint =>
                 (fst s && p (snd s), Decimal.Little.succ (snd s))).
  assert (Hsnd : forall m, snd (Nat.iter m step (true, u))
                           = Nat.iter m Decimal.Little.succ u).
  { induction m as [|m IH]; [reflexivity|]. simpl. rewrite IH. reflexivity. }
  induction n as [|n IH]; intros H k Hk; [lia|].
  simpl in H. apply andb_true_iff in H. destruct H as [H1 H2].
  destruct (Nat.eq_dec k n) as [->|Hne].
  - rewrite <- Hsnd. exact H2.
  - apply IH; [exact H1 | lia].
Qed.

Lemma decimal_year_four_digits (y : Z) :
  (1000 <= y <= 9999)%Z ->
  length (decimalZ y) = 4 /\ forallb isDigit (decimalZ y) = true.
Proof.
  intros H.
  set (p := fun u => Nat.eqb (length (digitsOfUint (Decimal.rev u))) 4
                     && forallb isDigit (digitsOfUint (Decimal.rev u))).
  assert (Hall : fst (Nat.iter (90 * 100)
                        (fun s => (fst s && p (snd s),
                                   Decimal.Little.succ (snd s)))
                        (true, Nat.to_little_uint 1000 Decimal.zero))
                 = true) by (vm_compute; reflexivity).
  pose proof (iter_check p _ _ Hall (Z.to_nat y - 1000)) as Hk.
  assert (Hlt : Z.to_nat y - 1000 < 90 * 100) by lia.
  specialize (Hk Hlt). rewrite to_little_uint_iter, <- Nat.iter_add in Hk.
  replace (Z.to_nat y - 1000 + 1000) with (Z.to_nat y) in Hk by lia.
  rewrite <- to_little_uint_iter in Hk.
  unfold p in Hk. apply andb_true_iff in Hk. destruct Hk as [Hl Hd].
  apply Nat.eqb_eq in Hl.
  unfold decimalZ. destruct (y <? 0)%Z eqn:E; [apply Z.ltb_lt in E; lia|].
  split; [exact Hl | exact Hd].
Qed.

(** X7. The build number has the form YYYYMMDD.HHMM, eight digits, a dot
    and four digits, whenever the year has four digits; the month, day,
    hour and minute are the ones a [Date] gives. *)
Theorem generateBuildNumber_format (now : LocalTime) :
  (1000 <= fullYear now <= 9999)%Z ->
  month now < 12 -> dayOfMonth now < 32 -> hours now < 24 ->
  minutes now < 60 ->
  exists day time,
    generateBuildNumber now = day ++ js "." ++ time
    /\ length day = 8 /\ forallb isDigit day = true
    /\ length time = 4 /\ forallb isDigit time = true.
Proof.
  intros Hy Hm Hd Hh Hmin. unfold generateBuildNumber.
  destruct (decimal_year_four_digits _ Hy) as [Ly Dy].
  destruct (decimal_pad_two_digits (month now + 1)) as [Lm Dm]; [lia|].
  destruct (decimal_pad_two_digits (dayOfMonth now)) as [Ld Dd]; [lia|].
  destruct (decimal_pad_two_digits (hours now)) as [Lh Dh]; [lia|].
  destruct (decimal_pad_two_digits (minutes now)) as [Ln Dn]; [lia|].
  exists (decimalZ (fullYear now) ++ padStart2 (decimal (month now + 1))
          ++ padStart2 (decimal (dayOfMonth now))).
  exists (padStart2 (decimal (hours now))
          ++ padStart2 (decimal (minutes now))).
  split; [rewrite <- !app_assoc; reflexivity|].
  rewrite !length_app, !forallb_app, Ly, Lm, Ld, Lh, Ln, Dy, Dm, Dd, Dh, Dn.
  repeat split.
Qed.

End VersionsFurther.

(** ** The change analyzer, further *)

Section AnalyzerFurther.
Import PRAnalyzer AnalyzerSpec.
Variable toLowerCase : jsstring -> jsstring.

Lemma searchFrom_first {A} (m : jsstring -> option A) (s : jsstring) (r : A) :
  m s = Some r -> searchFrom m s = Some r.
Proof. intros H. destruct s; simpl; rewrite H; reflexivity. Qed.

Lemma dotRun_no_terminator (s : jsstring) :
  forallb (fun c => negb (isLineTerminator c)) s = true -> dotRun s = s.
Proof.
  induction s as [|c t IH]; simpl; [reflexivity|].
  intros H. apply andb_true_iff in H. destruct H as [Hc Ht].
  apply negb_true_iff in Hc. rewrite Hc, (IH Ht). reflexivity.
Qed.

Lemma dotRun_clean (s : jsstring) :
  forallb (fun c => negb (isLineTerminator c)) (dotRun s) = true.
Proof.
  induction s as [|c t IH]; simpl; [reflexivity|].
  destruct (isLineTerminator c) eqn:E; simpl; [reflexivity|].
  rewrite E, IH. reflexivity.
Qed.

Lemma includes_false_cons (c : char16) (s needle : jsstring) :
  includes (c :: s) needle = false ->
  startsWith (c :: s) needle = false /\ includes s needle = false.
Proof. simpl. intros H. apply orb_false_iff in H. exact H. Qed.

Lemma includes_false_startsWith (s needle : jsstring) :
  includes s needle = false -> startsWith s needle = false.
Proof.
  destruct s; simpl; intros H; apply orb_false_iff in H; exact (proj1 H).
Qed.

Lemma stripPrefix_startsWith (p s : jsstring) :
  startsWith s p = false -> stripPrefix p s = None.
Proof.
  revert s. induction p as [|x p IH]; intros s; simpl; [discriminate|].
  destruct s as [|y s]; [reflexivity|].
  rewrite N.eqb_sym. destruct (N.eqb y x); simpl; [apply IH | reflexivity].
Qed.

Lemma stripPrefix_app (p s : jsstring) : stripPrefix p (p ++ s) = Some s.
Proof.
  induction p as [|x p IH]; simpl; [reflexivity|].
  rewrite N.eqb_refl. exact IH.
Qed.

Lemma dotPlusThen_cons {A} (k : jsstring -> option A) (c : char16)
      (t : jsstring) :
  isLineTerminator c = false ->
  dotPlusThen k (c :: t)
  = match dotPlusThen k t with
    | Some r => Some r
    | None => k t
    end.
Proof. intros H. simpl. rewrite H. reflexivity. Qed.

(** The continuation of the first [(.+)] in the diff-header pattern. *)
Lemma dotPlusThen_no_later_match {A} (k : jsstring -> option A)
      (s : jsstring) :
  (forall t, k t <> None -> startsWith t (js " b/") = true) ->
  includes s (js " b/") = false ->
  dotPlusThen k s = None.
Proof.
  intros Hk. induction s as [|c t IH]; intros Hs; simpl; [reflexivity|].
  destruct (isLineTerminator c); [reflexivity|].
  apply includes_false_cons in Hs. destruct Hs as [_ Ht].
  rewrite (IH Ht).
  destruct (k t) eqn:E; [|reflexivity].
  assert (Hst : startsWith t (js " b/") = true) by (apply Hk; congruence).
  apply includes_startsWith in Hst. congruence.
Qed.

(** X8. The file of a well-formed diff header.  For a header line
    [diff --git a/<old> b/<new>] in which neither path is empty or holds a
    line terminator and the new path holds no [" b/"], the file that the
    analyzer records is the new path, also when the old path differs or
    holds [" b/"] itself. *)
Theorem matchDiffHeader_header (old new : jsstring) :
  old <> [] -> new <> [] ->
  forallb (fun c => negb (isLineTerminator c)) old = true ->
  forallb (fun c => negb (isLineTerminator c)) new = true ->
  includes new (js " b/") = false ->
  matchDiffHeader (js "diff --git a/" ++ old ++ js " b/" ++ new) = Some new.
Proof.
  intros Hold Hnew Lold Lnew Hb. unfold matchDiffHeader.
  apply searchFrom_first. rewrite stripPrefix_app.
  set (k := fun t : jsstring =>
              match stripPrefix (js " b/") t with
              | Some u => match dotRun u with
                          | [] => None
                          | c :: g => Some (c :: g)
                          end
              | None => None
              end).
  assert (Hk : forall t, k t <> None -> startsWith t (js " b/") = true).
  { intros t Ht. destruct (startsWith t (js " b/")) eqn:E; [reflexivity|].
    unfold k in Ht. rewrite (stripPrefix_startsWith _ _ E) in Ht.
    contradiction. }
  assert (Hhere : k (js " b/" ++ new) = Some new).
  { unfold k. rewrite stripPrefix_app, (dotRun_no_terminator new Lnew).
    destruct new; [contradiction | reflexivity]. }
  assert (Hk' : forall t, startsWith t (js " b/") = false -> k t = None).
  { intros t Ht. destruct (k t) eqn:E; [|reflexivity].
    assert (H : startsWith t (js " b/") = true) by (apply Hk; congruence).
    congruence. }
  assert (Hlater : dotPlusThen k (js " b/" ++ new) = None).
  { change (js " b/" ++ new) with (32%N :: (98%N :: 47%N :: new)).
    rewrite dotPlusThen_cons by reflexivity.
    assert (Hi : includes (98%N :: 47%N :: new) (js " b/") = false)
      by (simpl; exact Hb).
    rewrite (dotPlusThen_no_later_match k _ Hk Hi).
    apply Hk'. reflexivity. }
  clear Hnew Lnew Hb.
  induction old as [|c t IH]; [contradiction|].
  simpl in Lold. apply andb_true_iff in Lold. destruct Lold as [Hc Lt].
  apply negb_true_iff in Hc.
  change ((c :: t) ++ js " b/" ++ new) with (c :: (t ++ js " b/" ++ new)).
  rewrite dotPlusThen_cons by exact Hc.
  destruct t as [|c' t'].
  - rewrite app_nil_l, Hlater. exact Hhere.
  - rewrite IH; [reflexivity | discriminate | exact Lt].
Qed.

End AnalyzerFurther.

Section AnalyzerFiles.
Import PRAnalyzer AnalyzerSpec.
Variable toLowerCase : jsstring -> jsstring.

Lemma searchFrom_some {A} (m : jsstring -> option A) (s : jsstring) (r : A) :
  searchFrom m s = Some r -> exists t, m t = Some r.
Proof.
  induction s as [|c t IH]; simpl.
  - destruct (m []) eqn:E; [intros H; inversion H; subst; eauto | discriminate].
  - destruct (m (c :: t)) eqn:E; [intros H; inversion H; subst; eauto|].
    exact IH.
Qed.

Lemma dotPlusThen_some {A} (k : jsstring -> option A) (s : jsstring) (r : A) :
  dotPlusThen k s = Some r -> exists t, k t = Some r.
Proof.
  induction s as [|c t IH]; simpl; [discriminate|].
  destruct (isLineTerminator c); [discriminate|].
  destruct (dotPlusThen k t) eqn:E.
  - intros H. inversion H; subst. apply IH. reflexivity.
  - intros H. eauto.
Qed.

(** What [matchDiffHeader] gives is never empty and holds no line
    terminator. *)
Lemma matchDiffHeader_file (line file : jsstring) :
  matchDiffHeader line = Some file ->
  file <> []
  /\ forallb (fun c => negb (isLineTerminator c)) file = true.
Proof.
  unfold matchDiffHeader. intros H.
  apply searchFrom_some in H. destruct H as [s Hs].
  destruct (stripPrefix (js "diff --git a/") s) as [r|]; [|discriminate].
  apply dotPlusThen_some in Hs. destruct Hs as [t Ht].
  destruct (stripPrefix (js " b/") t) as [u|]; [|discriminate].
  pose proof (dotRun_clean u) as Hc.
  destruct (dotRun u) as [|c g]; [discriminate|].
  inversion Ht; subst. split; [discriminate | exact Hc].
Qed.

Lemma analyzeDiffLine_files (a : Analysis) (line : jsstring) :
  (NoDup (filesChanged a) -> NoDup (filesChanged (analyzeDiffLine a line)))
  /\ forall f,
      In f (filesChanged (analyzeDiffLine a line))
      <-> In f (filesChanged a)
          \/ (startsWith line (js "diff --git") = true
              /\ matchDiffHeader line = Some f).
Proof.
  unfold analyzeDiffLine.
  destruct (startsWith line (js "diff --git")).
  - destruct (matchDiffHeader line) as [file|]; simpl.
    + destruct (existsb (eqb file) (filesChanged a)) eqn:E.
      * split; [auto|]. intros f. split; [auto|].
        intros [H|[_ H]]; [exact H|]. inversion H; subst.
        apply existsb_eqb_In. exact E.
      * split.
        -- intros Hn. apply NoDup_app; [exact Hn | repeat constructor; intros []|].
           intros y Hy [<-|[]]. apply existsb_eqb_In in Hy. congruence.
        -- intros f. rewrite in_app_iff. simpl. split.
           ++ intros [H|[<-|[]]]; auto.
           ++ intros [H|[_ H]]; [auto|]. inversion H; subst. auto.
    + split; [auto|]. intros f. split; [auto|].
      intros [H|[_ H]]; [exact H | discriminate H].
  - split; [auto|]. intros f. split; [auto|].
    intros [H|[H _]]; [exact H | discriminate H].
Qed.

Lemma fold_diff_files (lines : list jsstring) (a : Analysis) :
  (NoDup (filesChanged a) ->
   NoDup (filesChanged (fold_left analyzeDiffLine lines a)))
  /\ forall f,
      In f (filesChanged (fold_left analyzeDiffLine lines a))
      <-> In f (filesChanged a)
          \/ exists line,
              In line lines
              /\ startsWith line (js "diff --git") = true
              /\ matchDiffHeader line = Some f.
Proof.
  revert a. induction lines as [|l lines IH]; intros a; simpl.
  - split; [auto|]. intros f. split; [auto|].
    intros [H|[line [[] _]]]. exact H.
  - destruct (IH (analyzeDiffLine a l)) as [Hn Hin].
    destruct (analyzeDiffLine_files a l) as [Hn1 Hin1].
    split; [auto|].
    intros f. rewrite Hin, Hin1. split.
    + intros [[H|[H1 H2]]|[line [Hl H]]]; eauto 6.
    + intros [H|[line [[<-|Hl] [H1 H2]]]]; eauto 6.
Qed.

Lemma files_before_diff (pr : PullRequest) (cs : list Commit) :
  filesChanged
    (fold_left (analyzeLabel toLowerCase)
       (labels (fold_left (analyzeCommit toLowerCase) cs (initialAnalysis pr)))
       (fold_left (analyzeCommit toLowerCase) cs (initialAnalysis pr)))
  = [].
Proof.
  apply (fold_left_preserves (fun a => filesChanged a = [])).
  - intros a l. apply (analyzeLabel_preserves toLowerCase
                         (fun a => filesChanged a = [])); auto.
  - apply (fold_left_preserves (fun a => filesChanged a = [])).
    + intros a c. apply (analyzeCommit_preserves toLowerCase
                           (fun a => filesChanged a = [])); auto.
    + reflexivity.
Qed.

(** X9. The files of an analysis.  [filesChanged] holds no file twice; a
    file is listed exactly when some line of the diff starts with
    [diff --git] and the header pattern gives that file for it; a listed
    file is never empty and holds no line terminator.  Without a diff, or
    with an empty one, no file is listed. *)
Theorem analyzeChanges_filesChanged
        (pr : PullRequest) (diff : option jsstring)
        (commits : option (list Commit)) :
  let a := analyzeChanges toLowerCase pr diff commits in
  NoDup (filesChanged a)
  /\ (forall f,
         In f (filesChanged a)
         <-> exists d line,
             diff = Some d
             /\ In line (split LF d)
             /\ startsWith line (js "diff --git") = true
             /\ matchDiffHeader line = Some f)
  /\ (forall f, In f (filesChanged a) ->
                f <> []
                /\ forallb (fun c => negb (isLineTerminator c)) f = true)
  /\ (diff = None \/ diff = Some [] -> filesChanged a = []).
Proof.
  intros a.
  pose proof (files_before_diff
                pr (match commits with Some cs => cs | None => [] end)) as H0.
  set (a2 := fold_left (analyzeLabel toLowerCase)
               (labels (fold_left (analyzeCommit toLowerCase)
                          (match commits with Some cs => cs | None => [] end)
                          (initialAnalysis pr)))
               (fold_left (analyzeCommit toLowerCase)
                  (match commits with Some cs => cs | None => [] end)
                  (initialAnalysis pr))) in *.
  assert (Ha : a = match diff with
                   | Some d => if truthy d
                               then fold_left analyzeDiffLine (split LF d) a2
                               else a2
                   | None => a2
                   end) by reflexivity.
  assert (Hchar : forall f,
             In f (filesChanged a)
             <-> exists d line,
                 diff = Some d
                 /\ In line (split LF d)
                 /\ startsWith line (js "diff --git") = true
                 /\ matchDiffHeader line = Some f).
  { intros f. rewrite Ha. destruct diff as [d|].
    - destruct (truthy d) eqn:Et.
      + destruct (fold_diff_files (split LF d) a2) as [_ Hin].
        rewrite Hin, H0. split.
        * intros [[]|[line H]]. exists d, line. tauto.
        * intros (d' & line & Hd & H). inversion Hd; subst. eauto.
      + rewrite H0. split; [intros []|].
        intros (d' & line & Hd & Hl & Hs & _). inversion Hd; subst d'.
        apply truthy_false in Et. subst d. simpl in Hl.
        destruct Hl as [<-|[]]. discriminate Hs.
    - rewrite H0. split; [intros []|].
      intros (d' & line & Hd & _). discriminate Hd. }
  split; [|split; [exact Hchar|split]].
  - rewrite Ha. destruct diff as [d|]; [|rewrite H0; constructor].
    destruct (truthy d); [|rewrite H0; constructor].
    apply fold_diff_files. rewrite H0. constructor.
  - intros f Hf. apply Hchar in Hf.
    destruct Hf as (d & line & _ & _ & _ & Hm).
    exact (matchDiffHeader_file line f Hm).
  - intros [-> | ->]; rewrite Ha; exact H0.
Qed.

(** X10. The descriptive fields of an analysis come from the pull
    request and no pass changes them: the title, the dates and the label
    names as given, the body or the empty string, and the branches and
    the author or "unknown", so that these three are never empty. *)
Theorem analyzeChanges_metadata
        (pr : PullRequest) (diff : option jsstring)
        (commits : option (list Commit)) :
  let a := analyzeChanges toLowerCase pr diff commits in
  title a = pr_title pr
  /\ body a = orElse (pr_body pr) []
  /\ labels a = map name (match pr_labels pr with
                          | Some ls => ls
                          | None => []
                          end)
  /\ createdAt a = pr_created_at pr
  /\ mergedAt a = pr_merged_at pr
  /\ baseBranch a = orElse (pr_base_ref pr) (js "unknown")
  /\ headBranch a = orElse (pr_head_ref pr) (js "unknown")
  /\ analysisAuthor a = orElse (pr_user_login pr) (js "unknown")
  /\ baseBranch a <> [] /\ headBranch a <> [] /\ analysisAuthor a <> [].
Proof.
  intros a.
  assert (Hne : forall x, orElse x (js "unknown") <> []).
  { intros [s|]; simpl; [|discriminate].
    destruct s; simpl; discriminate. }
  assert (H : title a = title (initialAnalysis pr)
              /\ body a = body (initialAnalysis pr)
              /\ labels a = labels (initialAnalysis pr)
              /\ createdAt a = createdAt (initialAnalysis pr)
              /\ mergedAt a = mergedAt (initialAnalysis pr)
              /\ baseBranch a = baseBranch (initialAnalysis pr)
              /\ headBranch a = headBranch (initialAnalysis pr)
              /\ analysisAuthor a = analysisAuthor (initialAnalysis pr)).
  { apply (analyzeChanges_preserves
             toLowerCase
             (fun x => title x = title (initialAnalysis pr)
                       /\ body x = body (initialAnalysis pr)
                       /\ labels x = labels (initialAnalysis pr)
                       /\ createdAt x = createdAt (initialAnalysis pr)
                       /\ mergedAt x = mergedAt (initialAnalysis pr)
                       /\ baseBranch x = baseBranch (initialAnalysis pr)
                       /\ headBranch x = headBranch (initialAnalysis pr)
                       /\ analysisAuthor x
                          = analysisAuthor (initialAnalysis pr)));
      try (intros; assumption); repeat split. }
  destruct H as (H1 & H2 & H3 & H4 & H5 & H6 & H7 & H8).
  rewrite H1, H2, H3, H4, H5, H6, H7, H8. simpl.
  repeat split; apply Hne.
Qed.

(** X11. The suggested increment.  With a strategy other than "auto" it
    is the configured strategy, whatever the analysis says.  With "auto"
    it is one of major, minor and patch: major exactly when some commit
    or label carries breaking evidence, minor exactly when none does and
    some commit or label carries feature evidence, patch otherwise;
    bugfix and chore evidence play no part. *)
Theorem getSuggestedVersionIncrement_auto
        (inputs : Config.Inputs) (pr : PullRequest)
        (diff : option jsstring) (commits : list Commit) :
  let a := analyzeChanges toLowerCase pr diff (Some commits) in
  let names := map name (match pr_labels pr with
                         | Some ls => ls
                         | None => []
                         end) in
  let breaking := existsb (commitBreaking toLowerCase) commits
                  || existsb (labelBreaking toLowerCase) names in
  let feature := existsb (commitFeature toLowerCase) commits
                 || existsb (labelFeature toLowerCase) names in
  (Config.versionStrategy inputs <> js "auto" ->
   getSuggestedVersionIncrement inputs a = Config.versionStrategy inputs)
  /\ (Config.versionStrategy inputs = js "auto" ->
      getSuggestedVersionIncrement inputs a
      = if breaking then js "major"
        else if feature then js "minor" else js "patch").
Proof.
  intros a names breaking feature.
  destruct (analyzeChanges_flags toLowerCase pr diff (Some commits))
    as (Hb & Hf & _ & _).
  fold a in Hb, Hf. fold names in Hb, Hf.
  unfold getSuggestedVersionIncrement. split.
  - intros H. apply eqb_neq in H. rewrite H. reflexivity.
  - intros ->. rewrite eqb_refl. simpl negb. cbv iota.
    rewrite Hb, Hf. reflexivity.
Qed.

End AnalyzerFiles.

(** ** Validation of the configuration *)

Section Validation.
Import Config Settings.

Lemma pushIf_nil (cond : bool) (message : jsstring) (errors : list jsstring) :
  pushIf cond message errors = [] <-> cond = false /\ errors = [].
Proof.
  unfold pushIf. destruct cond.
  - split; [|intros [H _]; discriminate H].
    intros H. destruct errors; discriminate H.
  - tauto.
Qed.

Lemma pushIf_length (cond : bool) (message : jsstring)
      (errors : list jsstring) :
  length (pushIf cond message errors)
  = length errors + (if cond then 1 else 0).
Proof.
  unfold pushIf. destruct cond; [rewrite length_app; reflexivity | lia].
Qed.

(** X12. Validation of the configuration.  [validate] returns exactly
    when the version strategy and the output format are among the allowed
    ones, Slack is not enabled without a webhook URL, and Vertex AI is not
    selected without a project id or without either a workload identity
    provider or an API key.  Otherwise it throws one error whose message
    lists one line for every rule that is broken, not just the first.
    In a validated configuration Slack is enabled exactly when
    [enable_slack] is set. *)
Theorem validate_accepts (inputs : Inputs) (sinks : SinkInputs) :
  (validate inputs sinks = Normal tt
   <-> In (versionStrategy inputs) validVersionStrategies
       /\ In (outputFormat sinks) validOutputFormats
       /\ (enableSlack sinks = true -> slackWebhookUrl sinks <> [])
       /\ (useVertexAi inputs = true ->
           gcpProjectId sinks <> []
           /\ (gcpWorkloadIdentityProvider sinks <> []
               \/ geminiApiKey inputs <> [])))
  /\ (validate inputs sinks = Normal tt ->
      isSlackEnabled sinks = enableSlack sinks)
  /\ (forall message,
         validate inputs sinks = Throw message ->
         validationErrors inputs sinks <> []
         /\ message = js "Configuration validation failed:" ++ [LF]
                      ++ join [LF] (validationErrors inputs sinks))
  /\ length (validationErrors inputs sinks)
     = (if existsb (eqb (versionStrategy inputs)) validVersionStrategies
        then 0 else 1)
       + (if existsb (eqb (outputFormat sinks)) validOutputFormats
          then 0 else 1)
       + (if enableSlack sinks && negb (truthy (slackWebhookUrl sinks))
          then 1 else 0)
       + (if useVertexAi inputs && negb (truthy (gcpProjectId sinks))
          then 1 else 0)
       + (if useVertexAi inputs
             && (negb (truthy (gcpWorkloadIdentityProvider sinks))
                 && negb (truthy (geminiApiKey inputs)))
          then 1 else 0).
Proof.
  assert (Hnil : validate inputs sinks = Normal tt
                 <-> validationErrors inputs sinks = []).
  { unfold validate. destruct (validationErrors inputs sinks);
      split; try reflexivity; discriminate. }
  assert (Hchar :
            validationErrors inputs sinks = []
            <-> In (versionStrategy inputs) validVersionStrategies
                /\ In (outputFormat sinks) validOutputFormats
                /\ (enableSlack sinks = true -> slackWebhookUrl sinks <> [])
                /\ (useVertexAi inputs = true ->
                    gcpProjectId sinks <> []
                    /\ (gcpWorkloadIdentityProvider sinks <> []
                        \/ geminiApiKey inputs <> []))).
  { unfold validationErrors.
    rewrite !pushIf_nil, !negb_false_iff, !existsb_eqb_In,
      !andb_false_iff, !negb_false_iff, !truthy_true.
    destruct (enableSlack sinks), (useVertexAi inputs);
      intuition (try discriminate; try congruence). }
  split; [rewrite Hnil; exact Hchar|].
  split.
  { intros H. apply Hnil, Hchar in H. destruct H as (_ & _ & Hs & _).
    unfold isSlackEnabled. destruct (enableSlack sinks); [|reflexivity].
    simpl. apply truthy_true. apply Hs. reflexivity. }
  split.
  { intros message H. unfold validate in H.
    destruct (validationErrors inputs sinks) as [|e es]; [discriminate H|].
    inversion H; subst. split; [discriminate | reflexivity]. }
  unfold validationErrors. rewrite !pushIf_length. simpl length.
  destruct (existsb (eqb (versionStrategy inputs)) validVersionStrategies),
    (existsb (eqb (outputFormat sinks)) validOutputFormats);
    simpl negb; cbv iota; lia.
Qed.

End Validation.

(** ** The Slack notifier *)

Section Slack.
Import Config Settings SlackNotifier.

Lemma getSubstitution_plain (matched before after template : jsstring) :
  ~ In 36%N template ->
  ReleaseNotesGenerator.getSubstitution matched before after template
  = template.
Proof.
  induction template as [|c t IH]; intros H; [reflexivity|].
  assert (Hc : (c =? 36)%N = false).
  { apply N.eqb_neq. intros ->. apply H. left. reflexivity. }
  cbn [ReleaseNotesGenerator.getSubstitution]. rewrite Hc.
  f_equal. apply IH. intros Hin. apply H. right. exact Hin.
Qed.

(** Replacing every occurrence of one character by a text without [$]. *)
Lemma replaceAllFrom_char (c : char16) (template before s : jsstring) :
  ~ In 36%N template ->
  ReleaseNotesGenerator.replaceAllFrom [c] template 0 before s
  = flat_map (fun x => if N.eqb c x then template else [x]) s.
Proof.
  intros Ht. revert before. induction s as [|x t IH]; intros before.
  - reflexivity.
  - cbn [ReleaseNotesGenerator.replaceAllFrom stripPrefix flat_map length].
    destruct (N.eqb c x).
    + rewrite (getSubstitution_plain _ _ _ _ Ht), IH. reflexivity.
    + rewrite IH. reflexivity.
Qed.

Lemma flat_map_flat_map {A B C} (f : A -> list B) (g : B -> list C)
      (l : list A) :
  flat_map g (flat_map f l) = flat_map (fun x => flat_map g (f x)) l.
Proof.
  induction l as [|x l IH]; simpl; [reflexivity|].
  rewrite flat_map_app, IH. reflexivity.
Qed.

Lemma escapeSlackText_flat_map (text : jsstring) :
  escapeSlackText text
  = flat_map (fun x => if (x =? 38)%N then js "&amp;"
                       else if (x =? 60)%N then js "&lt;"
                       else if (x =? 62)%N then js "&gt;"
                       else [x]) text.
Proof.
  unfold escapeSlackText.
  change (js ">") with [62%N]. change (js "<") with [60%N].
  change (js "&") with [38%N].
  rewrite !replaceAllFrom_char
    by (apply no_LF_check || (intros H; simpl in H; intuition discriminate)).
  rewrite !flat_map_flat_map.
  apply flat_map_ext. intros x.
  destruct (N.eq_dec x 38) as [->|N1]; [reflexivity|].
  destruct (N.eq_dec x 60) as [->|N2]; [reflexivity|].
  destruct (N.eq_dec x 62) as [->|N3]; [reflexivity|].
  assert (A1 : (38 =? x)%N = false) by (apply N.eqb_neq; congruence).
  assert (A2 : (60 =? x)%N = false) by (apply N.eqb_neq; congruence).
  assert (A3 : (62 =? x)%N = false) by (apply N.eqb_neq; congruence).
  apply N.eqb_neq in N1, N2, N3.
  rewrite A1, N1, N2, N3. cbn [flat_map app]. rewrite A2.
  cbn [flat_map app]. rewrite A3. reflexivity.
Qed.

(** X13. Escaping for Slack works as one pass over the text: every [&],
    [<] and [>] of the input becomes [&amp;], [&lt;] and [&gt;], and the
    ampersand of an entity is not escaped again.  The result holds no [<]
    and no [>]; a text without the three characters is unchanged; and two
    different texts have different escaped forms. *)
Theorem escapeSlackText_single_pass :
  (forall text,
      escapeSlackText text
      = flat_map (fun x => if (x =? 38)%N then js "&amp;"
                           else if (x =? 60)%N then js "&lt;"
                           else if (x =? 62)%N then js "&gt;"
                           else [x]) text)
  /\ (forall text,
         ~ In 60%N (escapeSlackText text) /\ ~ In 62%N (escapeSlackText text))
  /\ (forall text,
         ~ In 38%N text -> ~ In 60%N text -> ~ In 62%N text ->
         escapeSlackText text = text)
  /\ (forall a b, escapeSlackText a = escapeSlackText b -> a = b).
Proof.
  split; [exact escapeSlackText_flat_map|].
  split; [|split].
  - intros text. rewrite escapeSlackText_flat_map.
    split; intros H; apply in_flat_map in H; destruct H as [x [_ H]];
      destruct (x =? 38)%N eqn:E1;
      try (simpl in H; intuition discriminate);
      destruct (x =? 60)%N eqn:E2;
      try (simpl in H; intuition discriminate);
      destruct (x =? 62)%N eqn:E3;
      try (simpl in H; intuition discriminate);
      destruct H as [H|[]]; subst x; rewrite N.eqb_refl in *; discriminate.
  - intros text H1 H2 H3. rewrite escapeSlackText_flat_map.
    induction text as [|x t IH]; [reflexivity|].
    cbn [flat_map].
    assert (E1 : (x =? 38)%N = false)
      by (apply N.eqb_neq; intros ->; apply H1; left; reflexivity).
    assert (E2 : (x =? 60)%N = false)
      by (apply N.eqb_neq; intros ->; apply H2; left; reflexivity).
    assert (E3 : (x =? 62)%N = false)
      by (apply N.eqb_neq; intros ->; apply H3; left; reflexivity).
    rewrite E1, E2, E3. simpl. f_equal.
    apply IH; intros Hin; [apply H1|apply H2|apply H3]; right; exact Hin.
  - intros a b. rewrite !escapeSlackText_flat_map.
    revert b. induction a as [|x a IH]; intros [|y b]; cbn [flat_map].
    + reflexivity.
    + destruct (y =? 38)%N; [discriminate|].
      destruct (y =? 60)%N; [discriminate|].
      destruct (y =? 62)%N; discriminate.
    + destruct (x =? 38)%N; [discriminate|].
      destruct (x =? 60)%N; [discriminate|].
      destruct (x =? 62)%N; discriminate.
    + destruct (x =? 38)%N eqn:X1; [apply N.eqb_eq in X1|];
        [|destruct (x =? 60)%N eqn:X2; [apply N.eqb_eq in X2|];
          [|destruct (x =? 62)%N eqn:X3; [apply N.eqb_eq in X3|]]];
        (destruct (y =? 38)%N eqn:Y1; [apply N.eqb_eq in Y1|];
         [|destruct (y =? 60)%N eqn:Y2; [apply N.eqb_eq in Y2|];
           [|destruct (y =? 62)%N eqn:Y3; [apply N.eqb_eq in Y3|]]]);
        subst; simpl; intros H; inversion H; subst;
        try discriminate;
        try (f_equal; apply IH; assumption);
        try (rewrite N.eqb_refl in *; discriminate).
Qed.

End Slack.

Section SlackFurther.
Import Config Settings SlackNotifier.

Lemma dropWhile_app (p : char16 -> bool) (a r : jsstring) :
  forallb p a = true ->
  match r with [] => True | c :: _ => p c = false end ->
  dropWhile p (a ++ r) = r.
Proof.
  intros Ha Hr. induction a as [|x a IH]; simpl.
  - destruct r as [|c r']; [reflexivity|]. simpl. rewrite Hr. reflexivity.
  - simpl in Ha. apply andb_true_iff in Ha. destruct Ha as [Hx Ha].
    rewrite Hx. apply IH. exact Ha.
Qed.

Lemma dropWhile_split (p : char16 -> bool) (s : jsstring) :
  exists a,
    s = a ++ dropWhile p s /\ forallb p a = true
    /\ match dropWhile p s with [] => True | c :: _ => p c = false end.
Proof.
  induction s as [|x s IH]; simpl.
  - exists []. auto.
  - destruct (p x) eqn:E.
    + destruct IH as (a & Hs & Ha & Hd). exists (x :: a). simpl.
      rewrite E, Ha. repeat split; [f_equal; exact Hs | exact Hd].
    + exists []. simpl. auto.
Qed.

Lemma classPlus_app (p : char16 -> bool) (a r : jsstring) :
  a <> [] -> forallb p a = true ->
  match r with [] => True | c :: _ => p c = false end ->
  classPlus p (a ++ r) = Some r.
Proof.
  intros Hne Ha Hr. destruct a as [|x a]; [contradiction|].
  simpl in *. apply andb_true_iff in Ha. destruct Ha as [Hx Ha].
  rewrite Hx. f_equal. apply dropWhile_app; assumption.
Qed.

Lemma classPlus_split (p : char16 -> bool) (s r : jsstring) :
  classPlus p s = Some r ->
  exists a, s = a ++ r /\ a <> [] /\ forallb p a = true.
Proof.
  destruct s as [|x s]; simpl; [discriminate|].
  destruct (p x) eqn:E; [|discriminate].
  intros H. inversion H; subst.
  destruct (dropWhile_split p s) as (a & Hs & Ha & _).
  exists (x :: a). simpl. rewrite E, Ha.
  repeat split; [f_equal; exact Hs | discriminate].
Qed.

(** X14. The webhook URLs that [validateWebhookUrl] accepts are exactly
    the texts [https://hooks.slack.com/services/A/B/C] in which [A] and
    [B] are non-empty runs of capital letters and digits and [C] is a
    non-empty run of letters and digits, with nothing after it; the empty
    URL is refused. *)
Theorem validateWebhookUrl_accepts (url : jsstring) :
  validateWebhookUrl url = true
  <-> exists a b c,
      url = js "https://hooks.slack.com/services/" ++ a ++ js "/" ++ b
            ++ js "/" ++ c
      /\ a <> [] /\ forallb isUpperOrDigit a = true
      /\ b <> [] /\ forallb isUpperOrDigit b = true
      /\ c <> [] /\ forallb isAlphanumeric c = true.
Proof.
  split.
  - unfold validateWebhookUrl.
    destruct (truthy url); simpl negb; cbv iota; [|discriminate].
    destruct (stripPrefix (js "https://hooks.slack.com/services/") url)
      as [r|] eqn:Ep; [|discriminate].
    destruct (classPlus isUpperOrDigit r) as [[|c1 r1]|] eqn:E1;
      try discriminate.
    destruct (c1 =? 47)%N eqn:S1; [|discriminate].
    destruct (classPlus isUpperOrDigit r1) as [[|c2 r2]|] eqn:E2;
      try discriminate.
    destruct (c2 =? 47)%N eqn:S2; [|discriminate].
    destruct (classPlus isAlphanumeric r2) as [[|c3 r3]|] eqn:E3;
      try discriminate.
    intros _. apply N.eqb_eq in S1, S2. subst c1 c2.
    apply classPlus_split in E1, E2, E3.
    destruct E1 as (a & -> & Ha & Fa). destruct E2 as (b & -> & Hb & Fb).
    destruct E3 as (c & -> & Hc & Fc).
    exists a, b, c.
    repeat split; try assumption.
    assert (Hu : forall p s t, stripPrefix p s = Some t -> s = p ++ t).
    { clear. induction p as [|x p IH]; intros s t; simpl.
      - intros H. inversion H. reflexivity.
      - destruct s as [|y s]; [discriminate|].
        destruct (N.eqb x y) eqn:E; [|discriminate].
        apply N.eqb_eq in E. subst. intros H. f_equal. apply IH. exact H. }
    apply Hu in Ep. rewrite Ep, app_nil_r. reflexivity.
  - intros (a & b & c & -> & Ha & Fa & Hb & Fb & Hc & Fc).
    unfold validateWebhookUrl. simpl truthy. simpl negb. cbv iota.
    rewrite stripPrefix_app.
    change (js "/") with [47%N].
    rewrite (classPlus_app isUpperOrDigit a _ Ha Fa) by reflexivity.
    cbn [app]. rewrite N.eqb_refl.
    rewrite (classPlus_app isUpperOrDigit b _ Hb Fb) by reflexivity.
    cbn [app]. rewrite N.eqb_refl.
    rewrite <- (app_nil_r c).
    rewrite (classPlus_app isAlphanumeric c [] Hc Fc) by exact I.
    reflexivity.
Qed.



Lemma buildSlackMessage_prefix (toLowerCase : jsstring -> jsstring)
      (inputs : Inputs) (sinks : SinkInputs) (context : RunContext)
      (baseMessage : jsstring) (versionInfo : VersionManager.VersionInfo) :
  exists suffix,
    buildSlackMessage toLowerCase inputs sinks context baseMessage versionInfo
    = baseMessage ++ suffix.
Proof.
  unfold buildSlackMessage.
  destruct (isProductionEnvironment toLowerCase inputs
            && isReleaseEnabled sinks);
    destruct (truthy (PRAnalyzer.orElse (pullRequestUrl context) []));
    destruct (truthy (buildMentions sinks));
    rewrite <- ?app_assoc; eexists; reflexivity.
Qed.

(** X16. Sending the notification never throws, and says what happened.
    With Slack disabled nothing is posted and the reason is "disabled".
    With Slack enabled one payload is posted, whose text starts with the
    message of the release-notes generator, unchanged; the notification
    counts as sent exactly when the transport answers with status 200,
    and in every other case (another status, also another 2xx, or an
    error) it is not sent and a reason is given. *)
Theorem sendNotification_outcomes
        (toLowerCase : jsstring -> jsstring)
        (inputs : Inputs) (sinks : SinkInputs) (context : RunContext)
        (seconds : Z) (slackMessage : jsstring)
        (versionInfo : VersionManager.VersionInfo) (outcome : PostOutcome) :
  let run := sendNotification toLowerCase inputs sinks context seconds
                              slackMessage versionInfo outcome in
  (isSlackEnabled sinks = false ->
   run = ({| sent := false; reason := Some (js "disabled") |}, None))
  /\ (isSlackEnabled sinks = true ->
      exists payload suffix,
        snd run = Some payload
        /\ text payload = slackMessage ++ suffix)
  /\ (sent (fst run) = true
      <-> isSlackEnabled sinks = true
          /\ exists statusText, outcome = Responded 200 statusText)
  /\ (sent (fst run) = false -> exists why, reason (fst run) = Some why)
  /\ (sent (fst run) = true -> reason (fst run) = None).
Proof.
  intros run. unfold run, sendNotification.
  destruct (buildSlackMessage_prefix toLowerCase inputs sinks context
              slackMessage versionInfo) as [suffix Hs].
  destruct (isSlackEnabled sinks) eqn:E; simpl negb; cbv iota.
  - split; [discriminate|].
    split.
    { intros _. destruct (sendToSlack outcome); eexists; exists suffix;
        (split; [reflexivity | exact Hs]). }
    split.
    { destruct outcome as [status st|status data st| |msg]; simpl.
      - destruct (status =? 200)%Z eqn:E2; simpl.
        + apply Z.eqb_eq in E2. subst. split; [eauto|reflexivity].
        + split; [discriminate|]. intros [_ [st' H]]. inversion H; subst.
          discriminate E2.
      - split; [discriminate|]. intros [_ [st' H]]. discriminate H.
      - split; [discriminate|]. intros [_ [st' H]]. discriminate H.
      - split; [discriminate|]. intros [_ [st' H]]. discriminate H. }
    destruct (sendToSlack outcome); simpl; split;
      try discriminate; eauto.
  - split; [reflexivity|]. split; [discriminate|]. simpl.
    split; [split; [discriminate | intros [H _]; discriminate H]|].
    split; [eauto | discriminate].
Qed.

End SlackFurther.

(** ** The changelog manager, further *)

Section ChangelogFurther.
Import Config Settings Pipeline ChangelogManager ChangelogEntries.

(** The lines of the updated content. *)
Lemma insertEntry_lines (currentContent newEntry : jsstring) :
  split LF (insertEntry currentContent newEntry)
  = firstn (findInsertionPoint (split LF currentContent))
           (split LF currentContent)
    ++ split LF newEntry
    ++ skipn (findInsertionPoint (split LF currentContent))
             (split LF currentContent).
Proof.
  unfold insertEntry, splice.
  set (lines := split LF currentContent).
  set (index := findInsertionPoint lines).
  rewrite split_join by (destruct (firstn index lines); discriminate).
  rewrite map_app, concat_app. simpl.
  assert (Hno : forall l, In l lines -> ~ In LF l).
  { intros l Hl. exact (split_lines_no_sep LF currentContent l Hl). }
  rewrite !concat_map_singletons.
  - reflexivity.
  - intros l Hl. apply Hno.
    rewrite <- (firstn_skipn index lines). apply in_or_app. right. exact Hl.
  - intros l Hl. apply Hno.
    rewrite <- (firstn_skipn index lines). apply in_or_app. left. exact Hl.
Qed.

(** The loop passes over the lines before its result whatever follows
    them. *)
Lemma findInsertionPointFrom_prefix (lines rest : list jsstring) (k : nat) :
  findInsertionPointFrom
    k (firstn (findInsertionPointFrom k lines - k) lines ++ rest)
  = findInsertionPointFrom (findInsertionPointFrom k lines) rest.
Proof.
  revert k. induction lines as [|l tl IH]; intros k.
  - simpl. rewrite Nat.sub_diag. reflexivity.
  - simpl findInsertionPointFrom at 2 3.
    destruct (matchesVersionHeading (trim l)) eqn:E1;
      [rewrite Nat.sub_diag; reflexivity|].
    destruct (isContentLine k (trim l)) eqn:E2;
      [rewrite Nat.sub_diag; reflexivity|].
    pose proof (findInsertionPointFrom_bounds tl (S k)) as Hb.
    replace (findInsertionPointFrom (S k) tl - k)
      with (S (findInsertionPointFrom (S k) tl - S k)) by lia.
    simpl. rewrite E1, E2. apply IH.
Qed.

(** An entry that opens with a version heading does not move the
    insertion point. *)
Lemma findInsertionPoint_insertEntry (content older : jsstring) :
  matchesVersionHeading (trim (firstLine older)) = true ->
  findInsertionPoint (split LF (insertEntry content older))
  = findInsertionPoint (split LF content).
Proof.
  intros Hh. rewrite insertEntry_lines.
  set (lines := split LF content).
  unfold findInsertionPoint.
  replace (findInsertionPointFrom 0 lines)
    with (findInsertionPointFrom 0 lines - 0) at 1 by lia.
  rewrite findInsertionPointFrom_prefix.
  unfold firstLine in Hh.
  pose proof (split_nonempty LF older) as Hne.
  destruct (split LF older) as [|h t]; [contradiction|].
  simpl in Hh. simpl. rewrite Hh. reflexivity.
Qed.

(** X17. Releases stack newest first.  Once an entry whose first line is
    a version heading has been inserted, the next entry is inserted at
    the same index: it lands directly before the earlier entry, and the
    lines of the changelog are the old lines with the two entries in
    between, the newer one first. *)
Theorem insertEntry_newest_first (content older newer : jsstring) :
  matchesVersionHeading (trim (firstLine older)) = true ->
  let lines := split LF content in
  let index := findInsertionPoint lines in
  findInsertionPoint (split LF (insertEntry content older)) = index
  /\ split LF (insertEntry (insertEntry content older) newer)
     = firstn index lines ++ split LF newer ++ split LF older
       ++ skipn index lines.
Proof.
  intros Hh lines index.
  assert (Hle : index <= length lines).
  { pose proof (findInsertionPointFrom_bounds lines 0) as H.
    unfold index, findInsertionPoint. lia. }
  assert (Hidx : findInsertionPoint (split LF (insertEntry content older))
                 = index)
    by (apply findInsertionPoint_insertEntry; exact Hh).
  split; [exact Hidx|].
  rewrite (insertEntry_lines (insertEntry content older) newer).
  rewrite Hidx. rewrite insertEntry_lines. fold lines. fold index.
  rewrite firstn_app, skipn_app.
  rewrite length_firstn, Nat.min_l by exact Hle.
  rewrite Nat.sub_diag. simpl firstn at 2. simpl skipn at 2.
  rewrite firstn_firstn, Nat.min_id, app_nil_r.
  rewrite skipn_firstn_comm, Nat.sub_diag. simpl.
  reflexivity.
Qed.

Lemma dropDigits_app (d r : jsstring) :
  forallb isDigit d = true ->
  dropDigits (d ++ 46%N :: r) = 46%N :: r.
Proof.
  induction d as [|c d IH]; simpl; [reflexivity|].
  intros H. apply andb_true_iff in H. destruct H as [-> H]. apply IH, H.
Qed.

Lemma digits1_dot (d r : jsstring) :
  d <> [] -> forallb isDigit d = true ->
  digits1 (d ++ 46%N :: r) = Some (46%N :: r).
Proof.
  destruct d as [|c d]; [contradiction|]. intros _ H. simpl in *.
  apply andb_true_iff in H. destruct H as [-> H].
  rewrite dropDigits_app by exact H. reflexivity.
Qed.

Lemma digits1_some (d r : jsstring) :
  d <> [] -> forallb isDigit d = true -> exists r', digits1 (d ++ r) = Some r'.
Proof.
  destruct d as [|c d]; [contradiction|]. intros _ H. simpl in *.
  apply andb_true_iff in H. destruct H as [-> H]. eauto.
Qed.

(** A bracketed version at the start of a second-level heading is what
    the insertion loop looks for. *)
Lemma matchesVersionHeading_bracketed (major minor patch r : jsstring) :
  major <> [] -> minor <> [] -> patch <> [] ->
  forallb isDigit major = true -> forallb isDigit minor = true ->
  forallb isDigit patch = true ->
  matchesVersionHeading
    (js "## [" ++ major ++ js "." ++ minor ++ js "." ++ patch ++ r) = true.
Proof.
  intros H1 H2 H3 D1 D2 D3.
  change (js "## [" ++ major ++ js "." ++ minor ++ js "." ++ patch ++ r)
    with (35%N :: 35%N :: 32%N :: 91%N
          :: (major ++ 46%N :: minor ++ 46%N :: patch ++ r)).
  unfold matchesVersionHeading.
  change (stripPrefix (js "##")
            (35%N :: 35%N :: 32%N :: 91%N
             :: (major ++ 46%N :: minor ++ 46%N :: patch ++ r)))
    with (Some (32%N :: 91%N
                :: (major ++ 46%N :: minor ++ 46%N :: patch ++ r))).
  assert (W : isWhiteSpace 32%N = true) by reflexivity.
  cbv beta iota. rewrite W.
  change (dropSpaces (91%N :: (major ++ 46%N :: minor ++ 46%N :: patch ++ r)))
    with (91%N :: (major ++ 46%N :: minor ++ 46%N :: patch ++ r)).
  cbv beta iota zeta. rewrite N.eqb_refl.
  assert (Hdot : forall x, dot (46%N :: x) = Some x) by reflexivity.
  rewrite (digits1_dot major _ H1 D1), Hdot.
  rewrite (digits1_dot minor _ H2 D2), Hdot.
  destruct (digits1_some patch r H3 D3) as [r' ->]. reflexivity.
Qed.

Lemma firstLine_app (p r : jsstring) :
  ~ In LF p -> firstLine (p ++ r) = p ++ firstLine r.
Proof.
  unfold firstLine. induction p as [|c p IH]; intros H; [reflexivity|].
  assert (Hc : N.eqb c LF = false).
  { apply N.eqb_neq. intros ->. apply H. left. reflexivity. }
  simpl app. rewrite (split_cons_other LF c (p ++ r) Hc). simpl hd.
  rewrite IH; [reflexivity|]. intros Hin. apply H. right. exact Hin.
Qed.

Lemma trimStart_keeps_from (u v : jsstring) (c : char16) :
  isWhiteSpace c = false ->
  exists u', trimStart (u ++ c :: v) = u' ++ c :: v.
Proof.
  intros Hc. induction u as [|x u IH]; simpl.
  - rewrite Hc. exists []. reflexivity.
  - destruct (isWhiteSpace x); [exact IH|].
    exists (x :: u). reflexivity.
Qed.

(** Trimming keeps a prefix that starts and ends with a character that
    is no white space. *)
Lemma trim_keeps_prefix (c c' : char16) (a r : jsstring) :
  isWhiteSpace c = false -> isWhiteSpace c' = false ->
  exists r', trim (c :: a ++ c' :: r) = c :: a ++ c' :: r'.
Proof.
  intros Hc Hc'. unfold trim, trimEnd.
  rewrite (trimStart_fixed c _ Hc).
  change (c :: a ++ c' :: r) with ((c :: a) ++ c' :: r).
  assert (E : forall u v : jsstring,
             rev (u ++ c' :: v) = rev v ++ c' :: rev u).
  { intros u v. rewrite rev_app_distr. simpl. rewrite <- app_assoc.
    reflexivity. }
  rewrite E.
  destruct (trimStart_keeps_from (rev r) (rev (c :: a)) c' Hc') as [u' ->].
  rewrite E, rev_involutive. exists (rev u'). reflexivity.
Qed.

Lemma digit_not_space (c : char16) :
  isDigit c = true -> isWhiteSpace c = false.
Proof.
  unfold isDigit. intros H. apply andb_true_iff in H.
  destruct H as [H1 H2]. apply N.leb_le in H1. apply N.leb_le in H2.
  assert (E : (c = 48 \/ c = 49 \/ c = 50 \/ c = 51 \/ c = 52 \/ c = 53
               \/ c = 54 \/ c = 55 \/ c = 56 \/ c = 57)%N) by lia.
  repeat (destruct E as [->|E]; [reflexivity|]). subst. reflexivity.
Qed.

Lemma digits_no_LF (d : jsstring) : forallb isDigit d = true -> ~ In LF d.
Proof.
  intros H Hin. rewrite forallb_forall in H. specialize (H LF Hin).
  discriminate H.
Qed.

Lemma formatChangelogEntry_starts
      (toLowerCase : jsstring -> jsstring) (inputs : Inputs)
      (sinks : SinkInputs) (env : Env) (isoDate notes : jsstring)
      (versionInfo : VersionManager.VersionInfo)
      (prAnalysis : option FullPRAnalysis) :
  exists more,
    formatChangelogEntry toLowerCase inputs sinks env isoDate notes
                         versionInfo prAnalysis
    = entryHeading inputs versionInfo isoDate ++ LF :: more.
Proof.
  unfold formatChangelogEntry.
  set (sections := parseReleaseNotesForChangelog notes).
  destruct (truthy (public sections) && truthy (trim (public sections)));
    destruct (truthy (internal sections)
              && truthy (trim (internal sections)));
    destruct prAnalysis as [full|];
    try destruct (PRAnalyzer.isBreakingChange
                    (ReleaseNotesGenerator.analysis (view full)));
    try destruct (existsb (eqb (js "feature"))
                    (PRAnalyzer.changeTypes
                       (ReleaseNotesGenerator.analysis (view full))));
    try destruct (existsb (eqb (js "bugfix"))
                    (PRAnalyzer.changeTypes
                       (ReleaseNotesGenerator.analysis (view full))));
    destruct (includePrLinks sinks || includeCommitLinks inputs);
    try destruct (truthy (formatChangelogLinks sinks env versionInfo _));
    cbv beta iota zeta; rewrite <- ?app_assoc; simpl app;
    eexists; reflexivity.
Qed.

Lemma entryHeading_shape (inputs : Inputs)
      (versionInfo : VersionManager.VersionInfo) (isoDate : jsstring) :
  exists tail,
    entryHeading inputs versionInfo isoDate
    = js "## [" ++ VersionManager.newVersion versionInfo ++ tail.
Proof. unfold entryHeading. cbv zeta. eexists. reflexivity. Qed.

Lemma formatChangelogEntry_opens
        (toLowerCase : jsstring -> jsstring) (inputs : Inputs)
        (sinks : SinkInputs) (env : Env) (isoDate notes : jsstring)
        (versionInfo : VersionManager.VersionInfo)
        (prAnalysis : option FullPRAnalysis)
        (major minor patch rest : jsstring) :
  VersionManager.newVersion versionInfo
  = major ++ js "." ++ minor ++ js "." ++ patch ++ rest ->
  major <> [] -> minor <> [] -> patch <> [] ->
  forallb isDigit major = true -> forallb isDigit minor = true ->
  forallb isDigit patch = true ->
  matchesVersionHeading
    (trim (firstLine
             (formatChangelogEntry toLowerCase inputs sinks env isoDate
                                   notes versionInfo prAnalysis))) = true.
Proof.
  intros Hv H1 H2 H3 D1 D2 D3.
  destruct (formatChangelogEntry_starts toLowerCase inputs sinks env isoDate
              notes versionInfo prAnalysis) as [more ->].
  destruct (entryHeading_shape inputs versionInfo isoDate) as [tail ->].
  rewrite Hv.
  destruct (exists_last H3) as [p0 [c' Ep]].
  assert (Hc' : isWhiteSpace c' = false).
  { apply digit_not_space. rewrite forallb_forall in D3. apply D3.
    rewrite Ep. apply in_or_app. right. left. reflexivity. }
  replace ((js "## [" ++ (major ++ js "." ++ minor ++ js "." ++ patch
                          ++ rest) ++ tail) ++ LF :: more)
    with ((js "## [" ++ major ++ js "." ++ minor ++ js "." ++ patch)
          ++ (rest ++ tail ++ LF :: more))
    by (rewrite <- !app_assoc; reflexivity).
  rewrite firstLine_app.
  - set (fl := firstLine _).
    assert (E : (js "## [" ++ major ++ js "." ++ minor ++ js "." ++ patch)
                ++ fl
                = 35%N :: (js "# [" ++ major ++ js "." ++ minor ++ js "."
                           ++ p0) ++ c' :: fl).
    { rewrite Ep. rewrite <- !app_assoc. reflexivity. }
    rewrite E.
    destruct (trim_keeps_prefix 35%N c'
                (js "# [" ++ major ++ js "." ++ minor ++ js "." ++ p0) fl
                eq_refl Hc') as [r' Hr].
    assert (G : matchesVersionHeading
                  (js "## [" ++ major ++ js "." ++ minor ++ js "." ++ patch
                   ++ r') = true)
      by (apply matchesVersionHeading_bracketed; assumption).
    assert (E' : js "## [" ++ major ++ js "." ++ minor ++ js "." ++ patch
                 ++ r'
                 = 35%N :: (js "# [" ++ major ++ js "." ++ minor ++ js "."
                            ++ p0) ++ c' :: r').
    { rewrite Ep. rewrite <- !app_assoc. reflexivity. }
    rewrite E' in G.
    exact (eq_trans (f_equal matchesVersionHeading Hr) G).
  - rewrite !in_app_iff. intros [H|[H|[H|[H|[H|H]]]]].
    + revert H. apply no_LF_check. reflexivity.
    + exact (digits_no_LF major D1 H).
    + revert H. apply no_LF_check. reflexivity.
    + exact (digits_no_LF minor D2 H).
    + revert H. apply no_LF_check. reflexivity.
    + exact (digits_no_LF patch D3 H).
Qed.

(** X18. The entry that is written for a release of a version
    [major.minor.patch...] opens with a line that the insertion loop
    recognises as a version heading, whatever the notes, the
    environment, the date and the links are; the next entry is
    therefore inserted directly before it. *)
Theorem formatChangelogEntry_heading
        (toLowerCase : jsstring -> jsstring) (inputs : Inputs)
        (sinks : SinkInputs) (env : Env) (isoDate notes : jsstring)
        (versionInfo : VersionManager.VersionInfo)
        (prAnalysis : option FullPRAnalysis)
        (major minor patch rest : jsstring) :
  VersionManager.newVersion versionInfo
  = major ++ js "." ++ minor ++ js "." ++ patch ++ rest ->
  major <> [] -> minor <> [] -> patch <> [] ->
  forallb isDigit major = true -> forallb isDigit minor = true ->
  forallb isDigit patch = true ->
  let entry :=
    formatChangelogEntry toLowerCase inputs sinks env isoDate notes
                         versionInfo prAnalysis in
  matchesVersionHeading (trim (firstLine entry)) = true
  /\ forall content,
      findInsertionPoint (split LF (insertEntry content entry))
      = findInsertionPoint (split LF content).
Proof.
  intros Hv H1 H2 H3 D1 D2 D3 entry.
  assert (Hh : matchesVersionHeading (trim (firstLine entry)) = true).
  { unfold entry.
    apply (formatChangelogEntry_opens toLowerCase inputs sinks env isoDate
             notes versionInfo prAnalysis major minor patch rest);
      assumption. }
  split; [exact Hh|].
  intros content. apply findInsertionPoint_insertEntry. exact Hh.
Qed.

(** *** Reading the sections of the release notes *)

Lemma lazyUntilAhead_none (s : jsstring) :
  (forall pre t, s = pre ++ t -> sectionEnd t = false) ->
  lazyUntilAhead s = None.
Proof.
  induction s as [|c s IH]; intros H; cbn [lazyUntilAhead].
  - rewrite (H [] [] eq_refl). reflexivity.
  - rewrite (H [] (c :: s) eq_refl). rewrite IH; [reflexivity|].
    intros pre t E. apply (H (c :: pre) t). simpl. f_equal. exact E.
Qed.

Lemma spacesThenSection_none (s : jsstring) :
  (forall pre t, s = pre ++ t -> sectionEnd t = false) ->
  spacesThenSection s = None.
Proof.
  induction s as [|c s IH]; intros H; cbn [spacesThenSection];
    [reflexivity|].
  assert (Hs : forall pre t, s = pre ++ t -> sectionEnd t = false).
  { intros pre t E. apply (H (c :: pre) t). simpl. f_equal. exact E. }
  rewrite (IH Hs), (lazyUntilAhead_none s Hs).
  destruct (isWhiteSpace c); [|reflexivity].
  destruct (N.eqb c LF); reflexivity.
Qed.

(** The captured text is followed by a section end, and stands after the
    heading, white space and a line feed. *)
Lemma lazyUntilAhead_some (s captured : jsstring) :
  lazyUntilAhead s = Some captured ->
  exists post, s = captured ++ post /\ sectionEnd post = true.
Proof.
  revert captured. induction s as [|c s IH]; intros captured;
    cbn [lazyUntilAhead].
  - destruct (sectionEnd []) eqn:E; [|discriminate].
    intros H. inversion H. exists []. split; [reflexivity | exact E].
  - destruct (sectionEnd (c :: s)) eqn:E.
    + intros H. inversion H. exists (c :: s). split; [reflexivity | exact E].
    + destruct (lazyUntilAhead s) as [r|]; [|discriminate].
      intros H. inversion H. destruct (IH r eq_refl) as [post [E1 E2]].
      exists post. split; [simpl; f_equal; exact E1 | exact E2].
Qed.

Lemma spacesThenSection_some (s captured : jsstring) :
  spacesThenSection s = Some captured ->
  exists w post,
    s = w ++ LF :: captured ++ post
    /\ forallb isWhiteSpace w = true /\ sectionEnd post = true.
Proof.
  revert captured. induction s as [|c s IH]; intros captured;
    cbn [spacesThenSection]; [discriminate|].
  destruct (isWhiteSpace c) eqn:Ec; [|discriminate].
  destruct (spacesThenSection s) as [r|].
  - intros H. inversion H. subst r.
    destruct (IH captured eq_refl) as [w [post [E1 [E2 E3]]]].
    exists (c :: w), post. split; [simpl; f_equal; exact E1|].
    split; [simpl; rewrite Ec; exact E2 | exact E3].
  - destruct (N.eqb c LF) eqn:El; [|discriminate].
    apply N.eqb_eq in El. subst c. intros H.
    destruct (lazyUntilAhead_some s captured H) as [post [E1 E2]].
    exists [], post. split; [simpl; f_equal; exact E1|].
    split; [reflexivity | exact E2].
Qed.

Lemma searchFrom_none {A} (m : jsstring -> option A) (s : jsstring) :
  (forall pre t, s = pre ++ t -> m t = None) -> searchFrom m s = None.
Proof.
  induction s as [|c s IH]; intros H; cbn [searchFrom].
  - rewrite (H [] [] eq_refl). reflexivity.
  - rewrite (H [] (c :: s) eq_refl). apply IH.
    intros pre t E. apply (H (c :: pre) t). simpl. f_equal. exact E.
Qed.

Lemma searchFrom_app_skip {A} (m : jsstring -> option A) (a b : jsstring) :
  (forall pre c t, a = pre ++ c :: t -> m (c :: t ++ b) = None) ->
  searchFrom m (a ++ b) = searchFrom m b.
Proof.
  induction a as [|c a IH]; intros H; [reflexivity|].
  simpl app. cbn [searchFrom]. rewrite (H [] c a eq_refl). apply IH.
  intros pre c' t E. apply (H (c :: pre) c' t). simpl. f_equal. exact E.
Qed.

Lemma searchFrom_apart {A} (m : jsstring -> option A) (s : jsstring)
      (r : A) :
  searchFrom m s = Some r -> exists pre t, s = pre ++ t /\ m t = Some r.
Proof.
  induction s as [|c s IH]; cbn [searchFrom].
  - destruct (m []) eqn:E; [|discriminate].
    intros H. inversion H. subst. exists [], []. split; [reflexivity|exact E].
  - destruct (m (c :: s)) eqn:E.
    + intros H. inversion H. subst. exists [], (c :: s).
      split; [reflexivity | exact E].
    + intros H. destruct (IH H) as [pre [t [E1 E2]]].
      exists (c :: pre), t. split; [simpl; f_equal; exact E1 | exact E2].
Qed.

Lemma stripPrefix_some (p s r : jsstring) :
  stripPrefix p s = Some r -> s = p ++ r.
Proof.
  revert s. induction p as [|x p IH]; intros s; simpl.
  - intros H. inversion H. reflexivity.
  - destruct s as [|y s]; [discriminate|].
    destruct (N.eqb x y) eqn:E; [|discriminate].
    apply N.eqb_eq in E. subst y. intros H. f_equal. apply IH, H.
Qed.

Lemma suffix_after_prefix {A} (a b p a' r : list A) :
  a ++ b = p ++ a' ++ r -> length a = length a' -> exists q, b = q ++ r.
Proof.
  intros E Hlen. exists (skipn (length a) (p ++ a')).
  apply (f_equal (skipn (length a))) in E.
  rewrite skipn_app, skipn_all, Nat.sub_diag in E. simpl in E.
  rewrite app_assoc, skipn_app in E.
  replace (length a - length (p ++ a')) with 0 in E
    by (rewrite length_app; lia).
  exact E.
Qed.

(** After a heading that no section end follows, nothing is captured,
    wherever the heading is looked for in what follows. *)
Lemma sectionMatcher_unterminated (heading body : jsstring) :
  (forall pre t, body = pre ++ t -> sectionEnd t = false) ->
  forall pre t,
    heading ++ body = pre ++ t ->
    match stripPrefix heading t with
    | None => None
    | Some r => spacesThenSection r
    end = None.
Proof.
  intros Hbody pre t E.
  destruct (stripPrefix heading t) as [r|] eqn:Es; [|reflexivity].
  apply stripPrefix_some in Es. subst t.
  destruct (suffix_after_prefix heading body pre heading r E eq_refl)
    as [q Hq].
  apply spacesThenSection_none. intros pre' t' E'.
  apply (Hbody (q ++ pre') t'). rewrite Hq, E', app_assoc. reflexivity.
Qed.

Lemma startsWith_app_short (s b p : jsstring) :
  length p <= length s -> startsWith (s ++ b) p = startsWith s p.
Proof.
  revert s. induction p as [|x p IH]; intros s H; [reflexivity|].
  destruct s as [|y s]; [simpl in H; lia|].
  simpl. rewrite IH by (simpl in H; lia). reflexivity.
Qed.

Lemma includes_false_suffix (pre t needle : jsstring) :
  includes (pre ++ t) needle = false -> startsWith t needle = false.
Proof.
  induction pre as [|c pre IH]; intros H.
  - apply includes_false_startsWith. exact H.
  - simpl app in H. apply includes_false_cons in H. apply IH, H.
Qed.

(** The heading is not found at a position before its first
    occurrence. *)
Lemma heading_not_before (heading pre body : jsstring) :
  heading <> [] ->
  includes (pre ++ removelast heading) heading = false ->
  forall p c t,
    pre = p ++ c :: t ->
    stripPrefix heading (c :: t ++ heading ++ body) = None.
Proof.
  intros Hne Hinc p c t E.
  apply stripPrefix_startsWith.
  remember (removelast heading) as h' eqn:Eh'.
  remember (last heading 0%N) as l eqn:El.
  assert (Eh : heading = h' ++ [l])
    by (rewrite Eh', El; exact (app_removelast_last 0%N Hne)).
  assert (Es : c :: t ++ heading ++ body
               = ((c :: t) ++ h') ++ ([l] ++ body)).
  { rewrite Eh, <- !app_assoc. reflexivity. }
  rewrite Es, startsWith_app_short.
  - apply (includes_false_suffix p). rewrite app_assoc, <- E. exact Hinc.
  - rewrite Eh, !length_app. simpl. lia.
Qed.

Lemma matchSection_unterminated (heading pre body : jsstring) :
  heading <> [] ->
  includes (pre ++ removelast heading) heading = false ->
  (forall pre' t, body = pre' ++ t -> sectionEnd t = false) ->
  matchSection heading (pre ++ heading ++ body) = None.
Proof.
  intros Hne Hinc Hbody. unfold matchSection.
  rewrite searchFrom_app_skip.
  - apply searchFrom_none. intros pre' t E.
    apply (sectionMatcher_unterminated heading body Hbody pre' t E).
  - intros p c t E.
    rewrite (heading_not_before heading pre body Hne Hinc p c t E).
    reflexivity.
Qed.

Lemma sectionEnd_checks (body : jsstring) :
  includes body (LF :: js "### ") = false ->
  includes body (LF :: js "---") = false ->
  last body 0%N <> LF ->
  forall pre t, body = pre ++ t -> sectionEnd t = false.
Proof.
  intros H1 H2 H3 pre t E. subst body. unfold sectionEnd.
  rewrite (includes_false_suffix pre t _ H1).
  rewrite (includes_false_suffix pre t _ H2). simpl.
  apply eqb_neq. intros ->. apply H3. apply last_last.
Qed.

(** X19. A section that nothing closes is not copied into the changelog.
    The section pattern needs, after the captured text, a line feed
    followed by a third-level heading, by a rule, or by the end of the
    notes.  When the text after the first Internal heading holds no
    such heading and no rule and does not end with a line feed, the
    Internal section is read as empty; the same holds for the Public
    section. *)
Theorem parseReleaseNotesForChangelog_unterminated (pre body : jsstring) :
  includes body (LF :: js "### ") = false ->
  includes body (LF :: js "---") = false ->
  last body 0%N <> LF ->
  (includes (pre ++ js "### Interna") (js "### Internal") = false ->
   internal (parseReleaseNotesForChangelog
               (pre ++ js "### Internal" ++ body)) = [])
  /\ (includes (pre ++ js "### Publi") (js "### Public") = false ->
      public (parseReleaseNotesForChangelog
                (pre ++ js "### Public" ++ body)) = []).
Proof.
  intros H1 H2 H3.
  pose proof (sectionEnd_checks body H1 H2 H3) as Hbody.
  split; intros Hinc; unfold parseReleaseNotesForChangelog;
    cbn [internal public].
  - rewrite (matchSection_unterminated (js "### Internal") pre body);
      [reflexivity | discriminate | exact Hinc | exact Hbody].
  - rewrite (matchSection_unterminated (js "### Public") pre body);
      [reflexivity | discriminate | exact Hinc | exact Hbody].
Qed.

(** X20. What is read as a section stands in the notes: after the
    heading, white space and a line feed, and before a line feed that
    starts a third-level heading or a rule or ends the notes.  The
    section is that text, trimmed. *)
Theorem parseReleaseNotesForChangelog_sound (notes : jsstring) :
  let sections := parseReleaseNotesForChangelog notes in
  (public sections <> [] ->
   exists pre w captured post,
     notes = pre ++ js "### Public" ++ w ++ LF :: captured ++ post
     /\ forallb isWhiteSpace w = true /\ sectionEnd post = true
     /\ public sections = trim captured)
  /\ (internal sections <> [] ->
      exists pre w captured post,
        notes = pre ++ js "### Internal" ++ w ++ LF :: captured ++ post
        /\ forallb isWhiteSpace w = true /\ sectionEnd post = true
        /\ internal sections = trim captured).
Proof.
  intros sections. unfold sections, parseReleaseNotesForChangelog.
  cbn [internal public]. unfold matchSection.
  split; intros Hne.
  - destruct (searchFrom _ notes) as [captured|] eqn:E;
      [|contradiction Hne; reflexivity].
    apply searchFrom_apart in E. destruct E as [pre [t [E1 E2]]].
    destruct (stripPrefix (js "### Public") t) as [r|] eqn:Es;
      [|discriminate].
    apply stripPrefix_some in Es.
    apply spacesThenSection_some in E2.
    destruct E2 as [w [post [E3 [E4 E5]]]].
    exists pre, w, captured, post. subst.
    split; [reflexivity|]. split; [exact E4|]. split; [exact E5|reflexivity].
  - destruct (searchFrom _ notes) as [captured|] eqn:E;
      [|contradiction Hne; reflexivity].
    apply searchFrom_apart in E. destruct E as [pre [t [E1 E2]]].
    destruct (stripPrefix (js "### Internal") t) as [r|] eqn:Es;
      [|discriminate].
    apply stripPrefix_some in Es.
    apply spacesThenSection_some in E2.
    destruct E2 as [w [post [E3 [E4 E5]]]].
    exists pre, w, captured, post. subst.
    split; [reflexivity|]. split; [exact E4|]. split; [exact E5|reflexivity].
Qed.

(** *** The notes of the template in the changelog *)

Lemma stripPrefix_app_cases (p a b r : jsstring) :
  stripPrefix p (a ++ b) = Some r ->
  (exists a', a = p ++ a' /\ r = a' ++ b)
  \/ (exists p', p = a ++ p' /\ p' <> [] /\ stripPrefix p' b = Some r).
Proof.
  revert a. induction p as [|x p IH]; intros a H.
  - simpl in H. inversion H. left. exists a. split; reflexivity.
  - destruct a as [|y a].
    + right. exists (x :: p). split; [reflexivity|].
      split; [discriminate | exact H].
    + simpl in H. destruct (N.eqb x y) eqn:E; [|discriminate].
      apply N.eqb_eq in E. subst y.
      destruct (IH a H) as [[a' [E1 E2]]|[p' [E1 [E2 E3]]]].
      * left. exists a'. split; [simpl; f_equal; exact E1 | exact E2].
      * right. exists p'. split; [simpl; f_equal; exact E1|].
        split; [exact E2 | exact E3].
Qed.

(** White space that holds no line feed, followed by a character that is
    no white space, is not followed by a section. *)
Lemma spacesThenSection_blocked (u x : jsstring) (c : char16) :
  ~ In LF u -> isWhiteSpace c = false ->
  spacesThenSection (u ++ c :: x) = None.
Proof.
  intros Hu Hc. induction u as [|y u IH]; cbn [app spacesThenSection].
  - rewrite Hc. reflexivity.
  - rewrite IH by (intros H; apply Hu; right; exact H).
    destruct (isWhiteSpace y); [|reflexivity].
    destruct (N.eqb y LF) eqn:E; [|reflexivity].
    apply N.eqb_eq in E. subst y. exfalso. apply Hu. left. reflexivity.
Qed.

(** Inside a line that ends with a character which is no white space and
    not the last one of the heading, no section starts. *)
Lemma sectionMatcher_inside_line (heading u rest : jsstring) (c : char16) :
  ~ In LF heading -> last heading 0%N <> c ->
  ~ In LF u -> isWhiteSpace c = false ->
  forall p x t,
    u ++ [c] = p ++ x :: t ->
    match stripPrefix heading (x :: t ++ LF :: rest) with
    | None => None
    | Some r => spacesThenSection r
    end = None.
Proof.
  intros Hh Hl Hu Hc p x t E.
  destruct (stripPrefix heading (x :: t ++ LF :: rest)) as [r|] eqn:Es;
    [|reflexivity].
  change (x :: t ++ LF :: rest) with ((x :: t) ++ LF :: rest) in Es.
  apply stripPrefix_app_cases in Es.
  destruct Es as [[a' [E1 E2]]|[p' [E1 [E2 E3]]]].
  - subst r.
    destruct a' as [|y a'] using rev_ind.
    + exfalso. rewrite app_nil_r in E1.
      assert (Hne : heading <> []) by (rewrite <- E1; discriminate).
      destruct (exists_last Hne) as [hs [h0 Eh]].
      rewrite E1, Eh, app_assoc in E. apply app_inj_tail in E.
      destruct E as [_ E]. apply Hl. rewrite Eh, last_last.
      symmetry. exact E.
    + clear IHa'. rewrite E1 in E.
      rewrite !app_assoc in E. apply app_inj_tail in E.
      destruct E as [Eu Ec]. subst y.
      rewrite <- app_assoc. simpl app.
      apply spacesThenSection_blocked; [|exact Hc].
      intros Hin. apply Hu. rewrite Eu. apply in_or_app. right. exact Hin.
  - exfalso. destruct p' as [|y p']; [contradiction|].
    simpl in E3. destruct (N.eqb y LF) eqn:Ey; [|discriminate].
    apply N.eqb_eq in Ey. subst y. apply Hh. rewrite E1.
    apply in_or_app. right. left. reflexivity.
Qed.

Lemma searchFrom_cons_none {A} (m : jsstring -> option A) (c : char16)
      (t : jsstring) :
  m (c :: t) = None -> searchFrom m (c :: t) = searchFrom m t.
Proof. intros H. cbn [searchFrom]. rewrite H. reflexivity. Qed.

Lemma app_split_at {A} (l r pre t : list A) (c : A) :
  ~ In c l -> l ++ r = pre ++ c :: t -> exists pre', r = pre' ++ c :: t.
Proof.
  revert pre. induction l as [|z l IH]; intros pre Hl E.
  - exists pre. exact E.
  - destruct pre as [|y pre]; simpl in E; injection E as Ez E.
    + exfalso. apply Hl. left. exact Ez.
    + apply (IH pre); [|exact E]. intros H. apply Hl. right. exact H.
Qed.

(** After every line feed of a bullet list comes the next bullet. *)
Lemma bullets_after_LF (changes : list jsstring) (pre t : jsstring) :
  Forall (fun change => ~ In LF change) changes ->
  concat (map (fun change => LF :: js "- " ++ change) changes)
  = pre ++ LF :: t ->
  exists t', t = js "- " ++ t'.
Proof.
  intros Hno. revert pre. induction Hno as [|x xs Hx Hxs IH]; intros pre E.
  - destruct pre; discriminate E.
  - cbn [map concat] in E.
    change ((LF :: js "- " ++ x)
            ++ concat (map (fun change => LF :: js "- " ++ change) xs))
      with (LF :: (js "- " ++ x)
                  ++ concat (map (fun change => LF :: js "- " ++ change) xs))
      in E.
    destruct pre as [|y pre]; simpl app in E at 3.
    + injection E as E. rewrite <- E. rewrite <- ?app_assoc.
      eexists. reflexivity.
    + assert (E2 : (js "- " ++ x)
                   ++ concat (map (fun change => LF :: js "- " ++ change) xs)
                   = pre ++ LF :: t)
        by (injection E as _ E; exact E).
      assert (Hl : ~ In LF (js "- " ++ x)).
      { rewrite in_app_iff. intros [H|H]; [|exact (Hx H)].
        revert H. apply no_LF_check. reflexivity. }
      destruct (app_split_at _ _ _ _ _ Hl E2) as [pre' E3].
      apply (IH pre' E3).
Qed.

Lemma join_bullets (changes : list jsstring) :
  changes <> [] ->
  LF :: join [LF] (map (fun change => js "- " ++ change) changes)
  = concat (map (fun change => LF :: js "- " ++ change) changes).
Proof.
  induction changes as [|x xs IH]; intros H; [contradiction|].
  destruct xs as [|x' xs].
  - simpl. rewrite app_nil_r. reflexivity.
  - change (map (fun change => js "- " ++ change) (x :: x' :: xs))
      with ((js "- " ++ x)
            :: map (fun change => js "- " ++ change) (x' :: xs)).
    rewrite join_cons by discriminate.
    change (concat (map (fun change => LF :: js "- " ++ change)
                        (x :: x' :: xs)))
      with ((LF :: js "- " ++ x)
            ++ concat (map (fun change => LF :: js "- " ++ change)
                           (x' :: xs))).
    rewrite <- IH by discriminate.
    simpl. rewrite <- ?app_assoc. reflexivity.
Qed.

(** No section end follows in a list of one-line bullets. *)
Lemma bullets_unterminated (changes : list jsstring) :
  changes <> [] ->
  Forall (fun change => ~ In LF change) changes ->
  forall pre t,
    LF :: join [LF] (map (fun change => js "- " ++ change) changes)
    = pre ++ t ->
    sectionEnd t = false.
Proof.
  intros Hne Hno pre t E. rewrite (join_bullets changes Hne) in E.
  destruct t as [|c t]; [reflexivity|].
  destruct (N.eqb c LF) eqn:Ec.
  - apply N.eqb_eq in Ec. subst c.
    destruct (bullets_after_LF changes pre t Hno E) as [t' ->].
    reflexivity.
  - unfold sectionEnd. cbn [startsWith eqb].
    rewrite (N.eqb_sym LF c), Ec. reflexivity.
Qed.

Lemma firstLine_no_LF (s : jsstring) : ~ In LF (firstLine s).
Proof.
  apply (split_lines_no_sep LF s). unfold firstLine.
  pose proof (split_nonempty LF s) as H.
  destruct (split LF s); [contradiction | left; reflexivity].
Qed.

Lemma firstn_incl {A} (k : nat) (arr : list A) (x : A) :
  In x (firstn k arr) -> In x arr.
Proof.
  intros H. rewrite <- (firstn_skipn k arr). apply in_or_app. left. exact H.
Qed.

Lemma slice0_incl {A} (n : Z) (arr : list A) (x : A) :
  In x (slice0 n arr) -> In x arr.
Proof. unfold slice0. destruct (n <? 0)%Z; apply firstn_incl. Qed.

Lemma internalChanges_lines (inputs : Inputs)
      (prAnalysis : ReleaseNotesGenerator.PRAnalysis) :
  (forall cs commit,
      ReleaseNotesGenerator.commits prAnalysis = Some cs -> In commit cs ->
      ~ In LF (PRAnalyzer.shortSha commit)
      /\ ~ In LF (PRAnalyzer.url commit)) ->
  ReleaseNotesGenerator.internalChanges inputs prAnalysis <> []
  /\ Forall (fun change => ~ In LF change)
            (ReleaseNotesGenerator.internalChanges inputs prAnalysis).
Proof.
  intros Hlinks. unfold ReleaseNotesGenerator.internalChanges.
  destruct (ReleaseNotesGenerator.commits prAnalysis) as [[|c cs]|] eqn:Ec.
  - split; [discriminate|]. constructor; [|constructor].
    apply no_LF_check. reflexivity.
  - set (mapped := map _ (slice0 _ (c :: cs))).
    assert (Hm : Forall (fun change => ~ In LF change) mapped).
    { unfold mapped. apply Forall_forall. intros change Hin.
      apply in_map_iff in Hin. destruct Hin as [commit [<- Hin]].
      apply slice0_incl in Hin.
      destruct (Hlinks (c :: cs) commit eq_refl Hin) as [Hs Hu].
      destruct (includeCommitLinks inputs); [|apply firstLine_no_LF].
      rewrite !in_app_iff. intros [H|[H|[H|[H|[H|H]]]]].
      - exact (firstLine_no_LF _ H).
      - revert H. apply no_LF_check. reflexivity.
      - exact (Hs H).
      - revert H. apply no_LF_check. reflexivity.
      - exact (Hu H).
      - revert H. apply no_LF_check. reflexivity. }
    destruct mapped as [|m ms].
    + split; [discriminate|]. constructor; [|constructor].
      apply no_LF_check. reflexivity.
    + split; [discriminate | exact Hm].
  - split; [discriminate|]. constructor; [|constructor].
    apply no_LF_check. reflexivity.
Qed.

Lemma template_notes_shape (inputs : Inputs)
      (prAnalysis : ReleaseNotesGenerator.PRAnalysis)
      (versionInfo : ReleaseNotesGenerator.VersionInfo) :
  ReleaseNotesGenerator.releaseNotes
    (ReleaseNotesGenerator.generateFromTemplate inputs prAnalysis
                                                versionInfo)
  = (js "## " ++ ReleaseNotesGenerator.headline inputs versionInfo)
    ++ (LF :: LF :: js "### Public" ++ LF
           :: ReleaseNotesGenerator.publicChanges
                (ReleaseNotesGenerator.analysis prAnalysis))
    ++ [LF; LF]
    ++ js "### Internal"
    ++ LF :: join [LF]
               (map (fun change => js "- " ++ change)
                    (ReleaseNotesGenerator.internalChanges inputs
                                                           prAnalysis)).
Proof.
  unfold ReleaseNotesGenerator.generateFromTemplate.
  cbn [ReleaseNotesGenerator.releaseNotes].
  rewrite <- !app_assoc. reflexivity.
Qed.

Lemma headline_shape (inputs : Inputs)
      (versionInfo : ReleaseNotesGenerator.VersionInfo) :
  exists u,
    js "## " ++ ReleaseNotesGenerator.headline inputs versionInfo
    = u ++ [93%N]
    /\ (~ In LF (ReleaseNotesGenerator.headline inputs versionInfo) ->
        ~ In LF u).
Proof.
  unfold ReleaseNotesGenerator.headline.
  exists (js "## " ++ js "v"
          ++ VersionManager.newVersion
               (ReleaseNotesGenerator.info versionInfo)
          ++ js " - " ++ ReleaseNotesGenerator.buildNumber versionInfo
          ++ js " [" ++ environment inputs).
  split; [rewrite <- !app_assoc; reflexivity|].
  intros H Hin. apply H.
  rewrite !in_app_iff in Hin. rewrite !in_app_iff.
  destruct Hin as [Hin|Hin]; [|tauto].
  exfalso. revert Hin. apply no_LF_check. reflexivity.
Qed.

(** X21. The notes of the template in the changelog.  Of the notes
    that [generateFromTemplate] writes, the changelog reads the Public
    section, which is the public line, and reads the Internal section as
    empty: the list of commits ends the notes, so nothing closes it.
    The version, the build number and the environment are taken to hold
    no line feed, and so are the short hashes and the URLs of the
    commits. *)
Theorem parseReleaseNotesForChangelog_template
        (inputs : Inputs) (prAnalysis : ReleaseNotesGenerator.PRAnalysis)
        (versionInfo : ReleaseNotesGenerator.VersionInfo) :
  ~ In LF (ReleaseNotesGenerator.headline inputs versionInfo) ->
  (forall cs commit,
      ReleaseNotesGenerator.commits prAnalysis = Some cs -> In commit cs ->
      ~ In LF (PRAnalyzer.shortSha commit)
      /\ ~ In LF (PRAnalyzer.url commit)) ->
  let sections :=
    parseReleaseNotesForChangelog
      (ReleaseNotesGenerator.releaseNotes
         (ReleaseNotesGenerator.generateFromTemplate inputs prAnalysis
                                                     versionInfo)) in
  public sections
  = ReleaseNotesGenerator.publicChanges
      (ReleaseNotesGenerator.analysis prAnalysis)
  /\ internal sections = [].
Proof.
  intros Hhead Hlinks sections. unfold sections. clear sections.
  rewrite template_notes_shape.
  destruct (internalChanges_lines inputs prAnalysis Hlinks) as [Hne Hno].
  pose proof (bullets_unterminated _ Hne Hno) as HB.
  set (B := join [LF] _) in *.
  destruct (headline_shape inputs versionInfo) as [u [-> Hu]].
  specialize (Hu Hhead).
  set (P := ReleaseNotesGenerator.publicChanges _).
  assert (HP : P = js "Breaking changes - please review migration notes"
               \/ P = js "New features and enhancements"
               \/ P = js "Bug fixes and stability improvements"
               \/ P = js "General improvements and bug fixes").
  { unfold P, ReleaseNotesGenerator.publicChanges.
    destruct (PRAnalyzer.isBreakingChange _); [tauto|].
    destruct (PRAnalyzer.isFeature _); [tauto|].
    destruct (PRAnalyzer.isBugfix _); tauto. }
  clearbody P B.
  unfold parseReleaseNotesForChangelog. cbn [public internal].
  unfold matchSection.
  set (rest := (LF :: js "### Public" ++ LF :: P)
               ++ [LF; LF] ++ js "### Internal" ++ LF :: B).
  change ((LF :: LF :: js "### Public" ++ LF :: P)
          ++ [LF; LF] ++ js "### Internal" ++ LF :: B)
    with (LF :: rest).
  split.
  - rewrite searchFrom_app_skip.
    2:{ intros p x t E.
        apply (sectionMatcher_inside_line (js "### Public") u rest 93%N)
          with (p := p); try assumption; try reflexivity.
        - apply no_LF_check. reflexivity.
        - discriminate. }
    rewrite searchFrom_cons_none by reflexivity.
    unfold rest. simpl app.
    rewrite searchFrom_cons_none by reflexivity.
    destruct HP as [-> | [-> | [-> | ->]]];
      (erewrite searchFrom_first by reflexivity; reflexivity).
  - rewrite searchFrom_app_skip.
    2:{ intros p x t E.
        apply (sectionMatcher_inside_line (js "### Internal") u rest 93%N)
          with (p := p); try assumption; try reflexivity.
        - apply no_LF_check. reflexivity.
        - discriminate. }
    change (LF :: rest)
      with ((LF :: LF :: js "### Public" ++ LF :: P)
            ++ [LF; LF] ++ js "### Internal" ++ LF :: B).
    rewrite app_assoc.
    assert (Hinc : includes
                     (((LF :: LF :: js "### Public" ++ LF :: P) ++ [LF; LF])
                      ++ removelast (js "### Internal"))
                     (js "### Internal") = false)
      by (destruct HP as [-> | [-> | [-> | ->]]]; vm_compute; reflexivity).
    rewrite searchFrom_app_skip.
    2:{ intros p x t E.
        rewrite (heading_not_before (js "### Internal") _ (LF :: B)
                   ltac:(discriminate) Hinc p x t E).
        reflexivity. }
    rewrite searchFrom_none; [reflexivity|].
    intros pre t E.
    apply (sectionMatcher_unterminated (js "### Internal") (LF :: B) HB
             pre t E).
Qed.

(** *** Updating the file *)

Lemma findInsertionPoint_fresh (repository : option jsstring) :
  (forall r, repository = Some r -> ~ In LF r) ->
  findInsertionPoint (split LF (createInitialChangelog repository))
  = length (split LF (createInitialChangelog repository)).
Proof.
  intros Hrepo.
  rewrite (createInitialChangelog_lines repository Hrepo).
  unfold findInsertionPoint.
  rewrite findInsertionPointFrom_skip by reflexivity.
  rewrite findInsertionPointFrom_skip by reflexivity.
  rewrite findInsertionPointFrom_skip
    by (try apply repository_line_no_heading; reflexivity).
  rewrite findInsertionPointFrom_skip by reflexivity.
  rewrite findInsertionPointFrom_skip by reflexivity.
  rewrite findInsertionPointFrom_skip by reflexivity.
  rewrite findInsertionPointFrom_skip by reflexivity.
  rewrite findInsertionPointFrom_skip by reflexivity.
  reflexivity.
Qed.

Lemma insertEntry_fresh (repository : option jsstring) (entry : jsstring) :
  (forall r, repository = Some r -> ~ In LF r) ->
  insertEntry (createInitialChangelog repository) entry
  = createInitialChangelog repository ++ [LF] ++ entry.
Proof.
  intros Hrepo. unfold insertEntry, splice.
  rewrite (findInsertionPoint_fresh repository Hrepo).
  rewrite firstn_all, skipn_all.
  rewrite join_app by (try apply split_nonempty; discriminate).
  rewrite join_split. reflexivity.
Qed.

Lemma insertEntry_fresh_twice (repository : option jsstring)
      (older newer : jsstring) :
  (forall r, repository = Some r -> ~ In LF r) ->
  matchesVersionHeading (trim (firstLine older)) = true ->
  insertEntry (insertEntry (createInitialChangelog repository) older) newer
  = createInitialChangelog repository ++ [LF] ++ newer ++ [LF] ++ older.
Proof.
  intros Hrepo Hh.
  pose proof (findInsertionPoint_fresh repository Hrepo) as Hidx.
  set (fresh := createInitialChangelog repository) in *.
  assert (Hlines : split LF (insertEntry fresh older)
                   = split LF fresh ++ split LF older).
  { rewrite insertEntry_lines, Hidx, firstn_all, skipn_all, app_nil_r.
    reflexivity. }
  assert (Hidx' : findInsertionPoint (split LF (insertEntry fresh older))
                  = length (split LF fresh)).
  { rewrite (findInsertionPoint_insertEntry fresh older Hh). exact Hidx. }
  assert (E : insertEntry (insertEntry fresh older) newer
              = join [LF]
                  (splice (findInsertionPoint
                             (split LF (insertEntry fresh older)))
                          newer (split LF (insertEntry fresh older))))
    by reflexivity.
  rewrite E, Hidx', Hlines. unfold splice.
  rewrite firstn_app, skipn_app, firstn_all, skipn_all, Nat.sub_diag.
  simpl firstn. simpl skipn. rewrite app_nil_r. simpl app at 2.
  rewrite join_app by (try apply split_nonempty; discriminate).
  rewrite join_cons by apply split_nonempty.
  rewrite !join_split. reflexivity.
Qed.

(** X22. Two releases on a repository without a changelog.  With
    changelog updates disabled nothing is written.  Enabled, and no file
    operation failing, the first update creates the file from the
    initial template and writes the entry after it; the second update,
    which reads that file, writes its entry between the header and the
    first entry, so that the file holds the header, the newer release
    and the older release, in this order.  The repository name is taken
    to hold no line feed and the first version to start with
    [major.minor.patch]. *)
Theorem updateChangelog_twice
        (toLowerCase : jsstring -> jsstring)
        (inputs inputs' : Inputs) (sinks : SinkInputs) (env : Env)
        (isoDate isoDate' : jsstring)
        (notes notes' : ReleaseNotesGenerator.Notes)
        (versionInfo versionInfo' : VersionManager.VersionInfo)
        (prAnalysis prAnalysis' : option FullPRAnalysis)
        (changelogPath : jsstring)
        (major minor patch rest : jsstring) :
  (forall r, GITHUB_REPOSITORY env = Some r -> ~ In LF r) ->
  VersionManager.newVersion versionInfo
  = major ++ js "." ++ minor ++ js "." ++ patch ++ rest ->
  major <> [] -> minor <> [] -> patch <> [] ->
  forallb isDigit major = true -> forallb isDigit minor = true ->
  forallb isDigit patch = true ->
  let first :=
    updateChangelog toLowerCase inputs sinks env isoDate notes versionInfo
                    prAnalysis changelogPath None None in
  let second :=
    updateChangelog toLowerCase inputs' sinks env isoDate' notes'
                    versionInfo' prAnalysis' changelogPath (snd first)
                    None in
  let older :=
    formatChangelogEntry toLowerCase inputs sinks env isoDate
                         (ReleaseNotesGenerator.releaseNotes notes)
                         versionInfo prAnalysis in
  let newer :=
    formatChangelogEntry toLowerCase inputs' sinks env isoDate'
                         (ReleaseNotesGenerator.releaseNotes notes')
                         versionInfo' prAnalysis' in
  let header := createInitialChangelog (GITHUB_REPOSITORY env) in
  (isChangelogEnabled sinks = false ->
   snd first = None /\ snd second = None
   /\ reason (fst first) = Some (js "disabled"))
  /\ (isChangelogEnabled sinks = true ->
      snd first = Some (header ++ [LF] ++ older)
      /\ entry (fst first) = Some older
      /\ snd second = Some (header ++ [LF] ++ newer ++ [LF] ++ older)
      /\ entry (fst second) = Some newer).
Proof.
  intros Hrepo Hv H1 H2 H3 D1 D2 D3 first second older newer header.
  assert (Hh : matchesVersionHeading (trim (firstLine older)) = true).
  { unfold older.
    apply (formatChangelogEntry_opens toLowerCase inputs sinks env isoDate
             _ versionInfo prAnalysis major minor patch rest);
      assumption. }
  unfold second, first, updateChangelog.
  destruct (isChangelogEnabled sinks); simpl negb; cbv iota.
  - split; [discriminate|]. intros _. cbn [fst snd entry].
    fold older. fold newer. fold header.
    split; [unfold header; rewrite insertEntry_fresh by exact Hrepo;
            reflexivity|].
    split; [reflexivity|].
    split; [|reflexivity].
    unfold header. rewrite <- insertEntry_fresh_twice by assumption.
    reflexivity.
  - split; [|discriminate]. intros _. cbn [fst snd reason].
    repeat split; reflexivity.
Qed.

End ChangelogFurther.

(** ** The GitHub release manager *)

Section Releases.
Import Config Settings Pipeline SlackNotifier GitHubReleaseManager.
Variable toLowerCase : jsstring -> jsstring.

(** X23. Creating the release never throws, and says what happened.
    Disabled, it calls nothing and sets no output.  Enabled, its first
    call creates the release from the release data; only when that call
    fails with a message that holds [already_exists] does it go on to
    look the release up and update it.  The release counts as created
    when the creation succeeds, or when lookup and update both do; the
    outputs [release_url] and [tag_name] are set in the first case only.
    When nothing was created a reason is given. *)
Theorem createRelease_outcomes
        (inputs : Inputs) (sinks : SinkInputs) (context : RunContext)
        (releaseNotes : ReleaseNotesGenerator.Notes)
        (versionInfo : ReleaseNotesGenerator.VersionInfo)
        (prAnalysis : option FullPRAnalysis)
        (createOutcome getOutcome updateOutcome
         : ApiOutcome ReleaseObject) :
  let run := createRelease toLowerCase inputs sinks context releaseNotes
                           versionInfo prAnalysis createOutcome getOutcome
                           updateOutcome in
  let fallback :=
    exists message,
      createOutcome = Rejected message
      /\ includes message (js "already_exists") = true in
  (isReleaseEnabled sinks = false ->
   requests (snd run) = [] /\ outputs (snd run) = []
   /\ created (fst run) = false
   /\ reason (fst run) = Some (js "disabled"))
  /\ (isReleaseEnabled sinks = true ->
      exists rest,
        requests (snd run)
        = CreateRelease (buildReleaseData toLowerCase inputs sinks context
                                          releaseNotes versionInfo
                                          prAnalysis) :: rest
        /\ (rest <> [] <-> fallback))
  /\ (created (fst run) = true
      <-> isReleaseEnabled sinks = true
          /\ ((exists release, createOutcome = Resolved release)
              \/ (fallback
                  /\ (exists release, getOutcome = Resolved release)
                  /\ (exists release, updateOutcome = Resolved release))))
  /\ (outputs (snd run) <> []
      <-> isReleaseEnabled sinks = true
          /\ exists release, createOutcome = Resolved release)
  /\ (created (fst run) = false ->
      exists why, reason (fst run) = Some why).
Proof.
  intros run fallback. unfold run, fallback, createRelease.
  destruct (isReleaseEnabled sinks); simpl negb; cbv iota.
  - split; [discriminate|].
    destruct createOutcome as [release|message].
    + cbn [fst snd requests outputs created reason].
      split.
      { intros _. eexists. split; [reflexivity|].
        split; [intros H; contradiction H; reflexivity|].
        intros [m [H _]]. discriminate H. }
      split.
      { split; [intros _; split; [reflexivity|left; eauto] | reflexivity]. }
      split.
      { split; [intros _; split; [reflexivity|eauto] | discriminate]. }
      discriminate.
    + destruct (includes message (js "already_exists")) eqn:Ei.
      * unfold updateExistingRelease.
        assert (Hf : exists m,
                   @Rejected ReleaseObject message = Rejected m
                   /\ includes m (js "already_exists") = true)
          by (exists message; split; [reflexivity | exact Ei]).
        destruct getOutcome as [existing|m1];
          [destruct updateOutcome as [updatedRelease|m2]|];
          cbn [fst snd requests outputs created reason].
        -- split.
           { intros _. eexists. split; [reflexivity|].
             split; [intros _; exact Hf | discriminate]. }
           split.
           { split; [|reflexivity]. intros _. split; [reflexivity|].
             right. split; [exact Hf|]. split; eauto. }
           split.
           { split; [intros H; contradiction H; reflexivity
                    |intros [_ [r H]]; discriminate H]. }
           discriminate.
        -- split.
           { intros _. eexists. split; [reflexivity|].
             split; [intros _; exact Hf | discriminate]. }
           split.
           { split; [discriminate|].
             intros [_ [[r H]|[_ [_ [r H]]]]]; discriminate H. }
           split.
           { split; [intros H; contradiction H; reflexivity
                    |intros [_ [r H]]; discriminate H]. }
           eauto.
        -- split.
           { intros _. eexists. split; [reflexivity|].
             split; [intros _; exact Hf | discriminate]. }
           split.
           { split; [discriminate|].
             intros [_ [[r H]|[_ [[r H] _]]]]; discriminate H. }
           split.
           { split; [intros H; contradiction H; reflexivity
                    |intros [_ [r H]]; discriminate H]. }
           eauto.
      * cbn [fst snd requests outputs created reason].
        split.
        { intros _. eexists. split; [reflexivity|].
          split; [intros H; contradiction H; reflexivity|].
          intros [m [H H']]. inversion H; subst. congruence. }
        split.
        { split; [discriminate|].
          intros [_ [[r H]|[[m [H H']] _]]]; [discriminate H|].
          inversion H; subst. congruence. }
        split.
        { split; [intros H; contradiction H; reflexivity
                 |intros [_ [r H]]; discriminate H]. }
        eauto.
  - cbn [fst snd requests outputs created reason].
    split; [intros _; repeat split; reflexivity|].
    split; [discriminate|].
    split; [split; [discriminate|intros [H _]; discriminate H]|].
    split; [split; [intros H; contradiction H; reflexivity
                   |intros [H _]; discriminate H]|].
    eauto.
Qed.

Lemma buildMetadataSection_shape
      (inputs : Inputs) (versionInfo : ReleaseNotesGenerator.VersionInfo)
      (prAnalysis : option FullPRAnalysis) :
  exists tail,
    buildMetadataSection inputs versionInfo prAnalysis
    = js "## Release Information" ++ [LF] ++ js "**Version:** "
      ++ VersionManager.newVersion (ReleaseNotesGenerator.info versionInfo)
      ++ tail.
Proof.
  unfold buildMetadataSection.
  set (lines := match prAnalysis with Some _ => _ | None => _ end).
  assert (Hl : exists more,
             lines = js "## Release Information"
                     :: (js "**Version:** "
                         ++ VersionManager.newVersion
                              (ReleaseNotesGenerator.info versionInfo))
                     :: more).
  { unfold lines.
    destruct (truthy (VersionManager.previousVersion _));
      destruct prAnalysis as [full|];
      try destruct (0 <? length (PRAnalyzer.changeTypes _))%nat;
      try destruct (0 <? length (PRAnalyzer.filesChanged _))%nat;
      try destruct (PRAnalyzer.isBreakingChange _);
      simpl app; eexists; reflexivity. }
  destruct Hl as [more Hl]. cbv zeta. fold lines. rewrite Hl.
  destruct (join_starts [LF]
              (js "**Version:** "
               ++ VersionManager.newVersion
                    (ReleaseNotesGenerator.info versionInfo)) more)
    as [tail Ht].
  rewrite join_cons by discriminate. exists tail.
  exact (f_equal (fun t => js "## Release Information" ++ [LF] ++ t) Ht).
Qed.

Lemma buildReleaseBody_shape
      (inputs : Inputs) (sinks : SinkInputs) (context : RunContext)
      (notes : jsstring) (versionInfo : ReleaseNotesGenerator.VersionInfo)
      (prAnalysis : option FullPRAnalysis) :
  exists middle,
    buildReleaseBody inputs sinks context notes versionInfo prAnalysis
    = notes ++ [LF; LF] ++ js "## Release Information" ++ [LF]
      ++ js "**Version:** "
      ++ VersionManager.newVersion (ReleaseNotesGenerator.info versionInfo)
      ++ middle ++ footer.
Proof.
  unfold buildReleaseBody.
  destruct (buildMetadataSection_shape inputs versionInfo prAnalysis)
    as [tail ->].
  destruct (includePrLinks sinks || includeCommitLinks inputs);
    [destruct (buildLinksSection inputs sinks context _ prAnalysis)
       as [links|]; [destruct (truthy links)|]|];
    cbv zeta;
    [exists (tail ++ [LF; LF] ++ links) | exists tail | exists tail
     | exists tail];
    repeat rewrite <- app_assoc; reflexivity.
Qed.

(** X24. What is published as the release.  The body opens with the
    release notes, unchanged, followed by the release information, and
    closes with the footer.  A release outside production is always
    marked as a prerelease, whatever the prerelease input says; in
    production the input decides.  When an existing release is updated
    instead, it gets the same name, body and flags. *)
Theorem buildReleaseData_published
        (inputs : Inputs) (sinks : SinkInputs) (context : RunContext)
        (releaseNotes : ReleaseNotesGenerator.Notes)
        (versionInfo : ReleaseNotesGenerator.VersionInfo)
        (prAnalysis : option FullPRAnalysis) :
  let data := buildReleaseData toLowerCase inputs sinks context
                               releaseNotes versionInfo prAnalysis in
  (exists middle,
      body data
      = ReleaseNotesGenerator.releaseNotes releaseNotes ++ [LF; LF]
        ++ js "## Release Information" ++ [LF] ++ js "**Version:** "
        ++ VersionManager.newVersion
             (ReleaseNotesGenerator.info versionInfo)
        ++ middle ++ footer)
  /\ tag_name data
     = VersionManager.tagName (ReleaseNotesGenerator.info versionInfo)
  /\ (isProductionEnvironment toLowerCase inputs = false ->
      prerelease data = true)
  /\ (isProductionEnvironment toLowerCase inputs = true ->
      prerelease data = releasePrerelease sinks)
  /\ forall existing getOutcome updateOutcome,
      getOutcome = Resolved existing ->
      exists update,
        snd (updateExistingRelease toLowerCase inputs sinks context
                                   releaseNotes versionInfo prAnalysis
                                   getOutcome updateOutcome)
        = [GetReleaseByTag (repoOwner context) (repoName context)
                           (tag_name data);
           UpdateRelease update]
        /\ release_id update = id existing
        /\ update_name update = name data
        /\ update_body update = body data
        /\ update_draft update = draft data
        /\ update_prerelease update = prerelease data.
Proof.
  intros data. unfold data, buildReleaseData.
  cbn [body tag_name prerelease name draft].
  split; [apply buildReleaseBody_shape|].
  split; [reflexivity|].
  split; [intros ->; apply orb_true_r|].
  split; [intros ->; apply orb_false_r|].
  intros existing getOutcome updateOutcome ->.
  unfold updateExistingRelease.
  destruct updateOutcome; cbn [snd]; eexists;
    (split; [reflexivity|]); repeat split; reflexivity.
Qed.

End Releases.

Section Links.
Import Config Settings Pipeline GitUtils VersionManager SlackNotifier
       GitHubReleaseManager ChangelogEntries.
Variable semver_valid : jsstring -> option jsstring.
Variable semver_inc : jsstring -> jsstring -> option jsstring.
Variable basicIncrement : jsstring -> jsstring -> jsstring.
Variable toLowerCase : jsstring -> jsstring.

Lemma getLatestTag_truthy (r : ExecResult) : truthy (getLatestTag r) = true.
Proof.
  unfold getLatestTag.
  destruct ((exitCode r =? 0)%Z && truthy (trim (stdout r))) eqn:E;
    [|reflexivity].
  apply andb_true_iff in E. exact (proj2 E).
Qed.

Lemma generateVersion_previousVersion (inputs : Inputs) (repo : Repository)
      (versionIncrement : option jsstring) (versionInfo : VersionInfo) :
  generateVersion semver_valid semver_inc basicIncrement toLowerCase
                  inputs repo versionIncrement = Normal versionInfo ->
  previousVersion versionInfo = getLatestTag (describeTags repo)
  /\ tagName versionInfo = versionPrefix inputs ++ newVersion versionInfo.
Proof.
  unfold generateVersion.
  destruct (isProductionEnvironment toLowerCase inputs).
  - intros H. inversion H. split; reflexivity.
  - destruct (getShortCommit (revParseShort repo)); [|discriminate].
    intros H. inversion H. split; reflexivity.
Qed.

(** X25. The comparison link is always there.  The version manager
    never leaves the previous version empty: without a tag in the
    repository it is [1.0.0].  Hence, for the version information
    of [generateVersion], the links of the release and the links of the
    changelog always hold the line that compares the previous version
    with the new tag, and neither section is ever missing; on a
    repository without tags the comparison starts at [1.0.0]. *)
Theorem compare_link_always
        (inputs : Inputs) (sinks : SinkInputs) (context : RunContext)
        (env : Env) (repo : Repository)
        (versionIncrement : option jsstring) (versionInfo : VersionInfo)
        (prAnalysis : option FullPRAnalysis) :
  generateVersion semver_valid semver_inc basicIncrement toLowerCase
                  inputs repo versionIncrement = Normal versionInfo ->
  let range := previousVersion versionInfo ++ js "..."
               ++ tagName versionInfo in
  truthy (previousVersion versionInfo) = true
  /\ (exitCode (describeTags repo) <> 0%Z ->
      previousVersion versionInfo = js "1.0.0")
  /\ In (js "**Full Changelog:** [" ++ range ++ js "]("
         ++ (serverUrl context ++ js "/" ++ repoOwner context ++ js "/"
             ++ repoName context ++ js "/compare/" ++ range) ++ js ")")
        (linkLines inputs sinks context versionInfo prAnalysis)
  /\ buildLinksSection inputs sinks context versionInfo prAnalysis <> None
  /\ In (js "**Full Changelog:** [" ++ range ++ js "]("
         ++ ((PRAnalyzer.orElse (GITHUB_SERVER_URL env)
                                (js "https://github.com")
              ++ js "/" ++ interpolate (GITHUB_REPOSITORY env))
             ++ js "/compare/" ++ range) ++ js ")")
        (changelogLinks sinks env versionInfo prAnalysis)
  /\ formatChangelogLinks sinks env versionInfo prAnalysis <> [].
Proof.
  intros Hgen range.
  destruct (generateVersion_previousVersion inputs repo versionIncrement
              versionInfo Hgen) as [Hprev Htag].
  assert (Ht : truthy (previousVersion versionInfo) = true)
    by (rewrite Hprev; apply getLatestTag_truthy).
  assert (Hl : In (js "**Full Changelog:** [" ++ range ++ js "]("
                   ++ (serverUrl context ++ js "/" ++ repoOwner context
                       ++ js "/" ++ repoName context ++ js "/compare/"
                       ++ range) ++ js ")")
                  (linkLines inputs sinks context versionInfo prAnalysis)).
  { unfold linkLines. rewrite Ht. unfold range.
    rewrite <- !app_assoc.
    destruct prAnalysis as [full|].
    - destruct (ReleaseNotesGenerator.commits (view full)) as [commits|];
        [destruct (includeCommitLinks inputs);
         [destruct (truthy (join [LF] _))|]|];
        rewrite ?in_app_iff; simpl In; tauto.
    - rewrite in_app_iff. simpl In. tauto. }
  assert (Hc : In (js "**Full Changelog:** [" ++ range ++ js "]("
                   ++ ((PRAnalyzer.orElse (GITHUB_SERVER_URL env)
                                          (js "https://github.com")
                        ++ js "/" ++ interpolate (GITHUB_REPOSITORY env))
                       ++ js "/compare/" ++ range) ++ js ")")
                  (changelogLinks sinks env versionInfo prAnalysis)).
  { unfold changelogLinks. rewrite Ht. unfold range.
    rewrite <- !app_assoc. rewrite in_app_iff. simpl In. tauto. }
  split; [exact Ht|].
  split.
  { intros Hexit. rewrite Hprev. unfold getLatestTag.
    apply Z.eqb_neq in Hexit. rewrite Hexit. reflexivity. }
  split; [exact Hl|].
  split.
  { unfold buildLinksSection.
    destruct (linkLines inputs sinks context versionInfo prAnalysis);
      [contradiction Hl | discriminate]. }
  split; [exact Hc|].
  unfold formatChangelogLinks.
  destruct (changelogLinks sinks env versionInfo prAnalysis);
    [contradiction Hc | discriminate].
Qed.

End Links.

(** ** The run of the action *)

Section Running.
Import Config Settings Pipeline Run.
Variable semver_valid : jsstring -> option jsstring.
Variable semver_inc : jsstring -> jsstring -> option jsstring.
Variable basicIncrement : jsstring -> jsstring -> jsstring.
Variable toLowerCase : jsstring -> jsstring.

(** X26. Before the pull request is analyzed.  An invalid configuration
    fails the run, also for an event that would otherwise be skipped:
    the configuration is validated first.  With a valid configuration, a
    run whose trigger conditions are not met does nothing but clean up
    and is not marked as failed; a trigger check that throws fails the
    run; and when the conditions are met but neither the token input
    nor the GITHUB_TOKEN variable holds a token, the run fails with the
    token message.  In each of these cases nothing is published. *)
Theorem run_before_analysis (w : World) :
  (validationErrors (inputs w) (sinks w) <> [] ->
   exists message,
     Run.run semver_valid semver_inc basicIncrement toLowerCase w
     = [SetFailed message; Cleanup])
  /\ (validationErrors (inputs w) (sinks w) = [] ->
      (forall shouldRun,
          Main.checkTriggerConditions (inputs w) (event w)
          = Normal shouldRun ->
          Main.run shouldRun = false ->
          Run.run semver_valid semver_inc basicIncrement toLowerCase w
          = [Cleanup])
      /\ (forall e,
             Main.checkTriggerConditions (inputs w) (event w) = Throw e ->
             Run.run semver_valid semver_inc basicIncrement toLowerCase w
             = [SetFailed e; Cleanup])
      /\ (forall shouldRun,
             Main.checkTriggerConditions (inputs w) (event w)
             = Normal shouldRun ->
             Main.run shouldRun = true ->
             tokenInput w = [] ->
             tokenVariable w = None \/ tokenVariable w = Some [] ->
             Run.run semver_valid semver_inc basicIncrement toLowerCase w
             = [SetFailed tokenError; Cleanup])).
Proof.
  unfold Run.run, Run.prepare, validate, bind.
  destruct (validationErrors (inputs w) (sinks w)) as [|e es].
  - split; [intros H; contradiction H; reflexivity|]. intros _.
    split; [|split].
    + intros shouldRun -> ->. reflexivity.
    + intros e ->. reflexivity.
    + intros shouldRun -> -> -> [-> | ->]; reflexivity.
  - split; [|intros H; discriminate H]. intros _. eexists. reflexivity.
Qed.

Lemma tagEffects_in (w : World) (p : Prepared) (e : Effect) :
  In e (tagEffects toLowerCase w p) ->
  isProductionEnvironment toLowerCase (inputs w) = true
  /\ isReleaseEnabled (sinks w) = true
  /\ ((exists version message, e = CreateTag version message)
      \/ (tagCreated w = true /\ exists version, e = PushTag version)).
Proof.
  unfold tagEffects.
  destruct (isProductionEnvironment toLowerCase (inputs w));
    destruct (isReleaseEnabled (sinks w)); simpl; try contradiction.
  intros [<-|H]; [repeat split; left; eauto|].
  destruct (tagCreated w); [|contradiction].
  destruct H as [<-|[]]. repeat split. right. eauto.
Qed.

Lemma changelogRun_written (w : World) (p : Prepared) (content : jsstring) :
  snd (changelogRun toLowerCase w p) = Some content ->
  isChangelogEnabled (sinks w) = true /\ changelogFailure w = None
  /\ ChangelogEntries.updated (fst (changelogRun toLowerCase w p)) = true.
Proof.
  unfold changelogRun, ChangelogEntries.updateChangelog.
  destruct (isChangelogEnabled (sinks w)); simpl negb; cbv iota;
    [|discriminate].
  destruct (changelogFailure w); [discriminate|].
  intros _. repeat split.
Qed.

Lemma changelogRun_updated (w : World) (p : Prepared) :
  ChangelogEntries.updated (fst (changelogRun toLowerCase w p)) = true ->
  isChangelogEnabled (sinks w) = true /\ changelogFailure w = None.
Proof.
  unfold changelogRun, ChangelogEntries.updateChangelog.
  destruct (isChangelogEnabled (sinks w)); simpl negb; cbv iota;
    [|discriminate].
  destruct (changelogFailure w); [discriminate|].
  intros _. split; reflexivity.
Qed.

Lemma changelogEffects_in (w : World) (p : Prepared) (e : Effect) :
  In e (changelogEffects toLowerCase w p) ->
  isChangelogEnabled (sinks w) = true /\ changelogFailure w = None
  /\ ((exists content, e = ChangelogWritten content)
      \/ (isProductionEnvironment toLowerCase (inputs w) = true
          /\ exists files message branch,
              e = CommitAndPush files message branch)).
Proof.
  unfold changelogEffects.
  destruct (isChangelogEnabled (sinks w)) eqn:En; [|contradiction].
  rewrite in_app_iff. intros [H|H].
  - destruct (snd (changelogRun toLowerCase w p)) as [content|] eqn:E;
      [|contradiction].
    destruct H as [<-|[]].
    destruct (changelogRun_written w p content E) as [_ [Hf _]].
    split; [reflexivity|]. split; [exact Hf|]. left. eauto.
  - destruct (ChangelogEntries.updated (fst (changelogRun toLowerCase w p)))
      eqn:Eu; [|contradiction].
    destruct (isProductionEnvironment toLowerCase (inputs w));
      [|contradiction].
    destruct H as [<-|[]].
    destruct (changelogRun_updated w p Eu) as [_ Hf].
    split; [reflexivity|]. split; [exact Hf|]. right.
    split; [reflexivity|]. eauto.
Qed.

Lemma releaseEffects_in (w : World) (p : Prepared) (e : Effect) :
  In e (releaseEffects toLowerCase w p) ->
  isReleaseEnabled (sinks w) = true
  /\ ((exists request,
          e = Api request
          /\ forall data, request <> GitHubReleaseManager.CreatePull data)
      \/ exists name value, e = SetOutput name value).
Proof.
  unfold releaseEffects.
  destruct (isReleaseEnabled (sinks w)) eqn:En; [|contradiction].
  rewrite in_app_iff, !in_map_iff.
  intros [[request [<- H]]|[output [<- H]]]; (split; [reflexivity|]);
    [left|right; eauto].
  exists request. split; [reflexivity|].
  revert H. unfold releaseRun, GitHubReleaseManager.createRelease.
  rewrite En. simpl negb. cbv iota.
  destruct (createOutcome w) as [release|message].
  - simpl. intros [<-|[]] data. discriminate.
  - destruct (includes message (js "already_exists")).
    + unfold GitHubReleaseManager.updateExistingRelease.
      destruct (getOutcome w); [destruct (updateOutcome w)|]; simpl;
        intuition (subst; discriminate).
    + simpl. intros [<-|[]] data. discriminate.
Qed.

Lemma pullEffects_in (w : World) (p : Prepared) (e : Effect) :
  In e (pullEffects toLowerCase w p) ->
  isChangelogEnabled (sinks w) = true /\ changelogFailure w = None
  /\ isProductionEnvironment toLowerCase (inputs w) = true
  /\ exists data, e = Api (GitHubReleaseManager.CreatePull data).
Proof.
  unfold pullEffects, changelogUpdated.
  destruct (isChangelogEnabled (sinks w)) eqn:En; [|contradiction].
  destruct (ChangelogEntries.updated (fst (changelogRun toLowerCase w p)))
    eqn:Eu; [|contradiction].
  destruct (changelogRun_updated w p Eu) as [_ Hf].
  destruct (isProductionEnvironment toLowerCase (inputs w)) eqn:Ep;
    [|contradiction].
  unfold GitHubReleaseManager.createPullRequestForChangelog.
  rewrite Ep. simpl.
  destruct (pullOutcome w); simpl; intros [<-|[]]; repeat split;
    try exact Hf; eauto.
Qed.

Lemma slackEffects_in (w : World) (p : Prepared) (e : Effect) :
  In e (slackEffects toLowerCase w p) ->
  isSlackEnabled (sinks w) = true /\ exists payload, e = SlackPost payload.
Proof.
  unfold slackEffects.
  destruct (isSlackEnabled (sinks w)); [|contradiction].
  destruct (snd (slackRun toLowerCase w p)); [|contradiction].
  intros [<-|[]]. split; [reflexivity | eauto].
Qed.

Lemma coreOutputs_in (p : Prepared) (e : Effect) :
  In e (coreOutputs p) -> exists name value, e = SetOutput name value.
Proof.
  unfold coreOutputs. simpl.
  intros [<-|[<-|[<-|[<-|[<-|[]]]]]]; eauto.
Qed.



(** X28. The sinks never fail the run.  Once the release notes are
    ready, the run is not marked as failed whatever the tag, the
    changelog, the release, the pull request and Slack answer; it sets
    the first outputs, then [changelog_updated] and [slack_sent], each
    once and in this order, and cleans up last.  The changelog counts as
    updated exactly when updates are enabled and no file operation
    fails; the notification as sent exactly when Slack is enabled and
    answers with status 200. *)
Theorem run_sinks_never_fail (w : World) (p : Prepared)
        (commits : list PRAnalyzer.Commit) :
  Run.prepare semver_valid semver_inc basicIncrement toLowerCase w
  = Normal (Some p) ->
  ReleaseNotesGenerator.commits (view (prAnalysis p)) = Some commits ->
  (forall message,
      ~ In (SetFailed message)
           (Run.run semver_valid semver_inc basicIncrement toLowerCase w))
  /\ (exists tagAndChangelog releaseAndSlack,
         Run.run semver_valid semver_inc basicIncrement toLowerCase w
         = coreOutputs p
           ++ [SetOutput (js "commits_analyzed") (Count (length commits))]
           ++ tagAndChangelog
           ++ [SetOutput (js "changelog_updated")
                         (Flag (changelogUpdated toLowerCase w p))]
           ++ releaseAndSlack
           ++ [SetOutput (js "slack_sent")
                         (Flag (slackSent toLowerCase w p)); Cleanup]
         /\ (forall name value,
                In (SetOutput name value)
                   (tagAndChangelog ++ releaseAndSlack) ->
                name = js "release_url" \/ name = js "tag_name"))
  /\ (changelogUpdated toLowerCase w p = true
      <-> isChangelogEnabled (sinks w) = true /\ changelogFailure w = None)
  /\ (slackSent toLowerCase w p = true
      <-> isSlackEnabled (sinks w) = true
          /\ exists statusText,
              postOutcome w = SlackNotifier.Responded 200 statusText).
Proof.
  intros Hp Hc.
  assert (Hrun : Run.run semver_valid semver_inc basicIncrement toLowerCase
                         w
                 = coreOutputs p
                   ++ [SetOutput (js "commits_analyzed")
                                 (Count (length commits))]
                   ++ sinkEffects toLowerCase w p ++ [Cleanup]).
  { unfold Run.run. rewrite Hp, Hc. reflexivity. }
  split.
  { intros message Hin. rewrite Hrun in Hin. unfold sinkEffects in Hin.
    rewrite !in_app_iff in Hin. simpl In in Hin.
    destruct Hin
      as [H|[[H|[]]|[[H|[H|[[H|[]]|[H|[H|[H|[H|[]]]]]]]]|[H|[]]]]];
      try discriminate H.
    - apply coreOutputs_in in H. destruct H as [n [v H]]. discriminate H.
    - apply tagEffects_in in H.
      destruct H as [_ [_ [[v [m H]]|[_ [v H]]]]]; discriminate H.
    - apply changelogEffects_in in H.
      destruct H as [_ [_ [[c H]|[_ [f [m [b H]]]]]]]; discriminate H.
    - apply releaseEffects_in in H.
      destruct H as [_ [[r [H _]]|[n [v H]]]]; discriminate H.
    - apply pullEffects_in in H.
      destruct H as [_ [_ [_ [d H]]]]. discriminate H.
    - apply slackEffects_in in H. destruct H as [_ [pl H]]. discriminate H. }
  split.
  { exists (tagEffects toLowerCase w p ++ changelogEffects toLowerCase w p),
           (releaseEffects toLowerCase w p ++ pullEffects toLowerCase w p
            ++ slackEffects toLowerCase w p).
    split.
    { rewrite Hrun. unfold sinkEffects.
      repeat rewrite <- app_assoc. reflexivity. }
    intros name value Hin. rewrite !in_app_iff in Hin.
    destruct Hin as [[H|H]|[H|[H|H]]].
    - apply tagEffects_in in H.
      destruct H as [_ [_ [[v [m H]]|[_ [v H]]]]]; discriminate H.
    - apply changelogEffects_in in H.
      destruct H as [_ [_ [[c H]|[_ [f [m [b H]]]]]]]; discriminate H.
    - revert H. unfold releaseEffects.
      destruct (isReleaseEnabled (sinks w)) eqn:En; [|contradiction].
      rewrite in_app_iff, !in_map_iff.
      intros [[r [H _]]|[output [H Ho]]]; [discriminate H|].
      revert Ho. unfold releaseRun, GitHubReleaseManager.createRelease.
      rewrite En. simpl negb. cbv iota.
      destruct (createOutcome w) as [release|message].
      + simpl. intros [<-|[<-|[]]]; inversion H; auto.
      + destruct (includes message (js "already_exists")).
        * destruct (GitHubReleaseManager.updateExistingRelease _ _ _ _ _ _
                      _ _ _); simpl; contradiction.
        * simpl. contradiction.
    - apply pullEffects_in in H.
      destruct H as [_ [_ [_ [d H]]]]. discriminate H.
    - apply slackEffects_in in H. destruct H as [_ [pl H]]. discriminate H. }
  split.
  { unfold changelogUpdated.
    destruct (isChangelogEnabled (sinks w)) eqn:En.
    - split.
      + intros H. apply changelogRun_updated in H.
        split; [reflexivity | exact (proj2 H)].
      + intros [_ Hf]. unfold changelogRun,
          ChangelogEntries.updateChangelog.
        rewrite En, Hf. reflexivity.
    - split; [discriminate | intros [H _]; discriminate H]. }
  unfold slackSent, slackRun, SlackNotifier.sendNotification.
  destruct (isSlackEnabled (sinks w)) eqn:En; simpl negb; cbv iota.
  - destruct (postOutcome w) as [status st|status data st| |msg]; simpl.
    + destruct (status =? 200)%Z eqn:E2; simpl.
      * apply Z.eqb_eq in E2. subst. split; [eauto|reflexivity].
      * split; [discriminate|]. intros [_ [st' H]]. inversion H; subst.
        discriminate E2.
    + split; [discriminate|]. intros [_ [st' H]]. discriminate H.
    + split; [discriminate|]. intros [_ [st' H]]. discriminate H.
    + split; [discriminate|]. intros [_ [st' H]]. discriminate H.
  - split; [discriminate | intros [H _]; discriminate H].
Qed.

End Running.

(** ** The notes of the template, further *)

Section TemplateFurther.
Import Config ReleaseNotesGenerator.

(** X29. The bullets of the template.  The Internal section is never
    without a bullet: with commits missing or none, and also when the
    limit leaves none of them, it holds the one generic line.  With a
    limit that is not negative it lists at most that many commits.  The
    notification lists three commits at most. *)
Theorem template_bullets_bounds (inputs : Inputs) (prAnalysis : PRAnalysis) :
  1 <= length (internalChanges inputs prAnalysis)
  /\ ((0 <= maxCommitsFallback inputs)%Z ->
      length (internalChanges inputs prAnalysis)
      <= Nat.max 1 (Z.to_nat (maxCommitsFallback inputs)))
  /\ length (slackCommits prAnalysis) <= 3
  /\ (commits prAnalysis = None \/ commits prAnalysis = Some [] ->
      internalChanges inputs prAnalysis
      = [js "Various code improvements and maintenance"])
  /\ (maxCommitsFallback inputs = 0%Z ->
      internalChanges inputs prAnalysis
      = [js "Various code improvements and maintenance"]).
Proof.
  unfold internalChanges, slackCommits.
  split; [|split; [|split; [|split]]].
  - destruct (commits prAnalysis) as [[|c cs]|];
      [simpl; lia | | simpl; lia].
    destruct (map _ (slice0 _ (c :: cs))); simpl; lia.
  - intros Hmax.
    destruct (commits prAnalysis) as [[|c cs]|];
      [cbn [length]; lia | | cbn [length]; lia].
    assert (Hlen : forall f : PRAnalyzer.Commit -> jsstring,
               length (map f (slice0 (maxCommitsFallback inputs) (c :: cs)))
               <= Z.to_nat (maxCommitsFallback inputs)).
    { intros f. unfold slice0. rewrite length_map.
      apply Z.ltb_ge in Hmax. rewrite Hmax. apply firstn_le_length. }
    match goal with
    | |- context [map ?f (slice0 ?n ?l)] =>
        specialize (Hlen f); destruct (map f (slice0 n l)) as [|m ms] eqn:E
    end; [apply Nat.le_max_l|].
    eapply Nat.le_trans; [|apply Nat.le_max_r].
    rewrite <- E. exact Hlen.
  - destruct (commits prAnalysis) as [cs|]; [|cbn [length]; lia].
    rewrite length_map.
    exact (firstn_le_length 3 cs).
  - intros [-> | ->]; reflexivity.
  - intros ->. destruct (commits prAnalysis) as [[|c cs]|]; reflexivity.
Qed.

End TemplateFurther.

(** ** The further properties at sample inputs *)

Lemma not_In_check (c : char16) (s : jsstring) :
  existsb (N.eqb c) s = false -> ~ In c s.
Proof.
  intros H Hin.
  assert (existsb (N.eqb c) s = true).
  { apply existsb_exists. exists c. split; [exact Hin | apply N.eqb_refl]. }
  congruence.
Qed.

Lemma parseCommits_printLog_witness :
  GitLog.parseCommits (GitLogFormat.printLog FurtherSamples.sampleLog)
  = map GitLogFormat.recordOf FurtherSamples.sampleLog.
Proof.
  apply parseCommits_printLog; [discriminate|].
  repeat constructor; try discriminate;
    try (apply not_In_check; vm_compute; reflexivity);
    vm_compute; reflexivity.
Defined.

Lemma cleanVersion_always_valid_witness :
  VersionManager.cleanVersion Semver.valid (js "version-1.2.3") = js "1.0.0"
  /\ VersionChecks.validateVersion Semver.valid (js "version-1.2.3") = true
  /\ VersionChecks.validateVersion Semver.valid (js "not a version") = true.
Proof.
  assert (H : VersionManager.isValid Semver.valid (js "1.0.0") = true)
    by (vm_compute; reflexivity).
  split; [vm_compute; reflexivity|].
  split.
  - exact (proj2 (proj2 (cleanVersion_always_valid
                           Semver.valid (js "version-1.2.3") H))).
  - exact (proj2 (proj2 (cleanVersion_always_valid
                           Semver.valid (js "not a version") H))).
Defined.

Lemma generateBuildNumber_format_witness :
  VersionChecks.generateBuildNumber FurtherSamples.sampleTime
  = js "20240101.1200"
  /\ exists day time,
      VersionChecks.generateBuildNumber FurtherSamples.sampleTime
      = day ++ js "." ++ time
      /\ length day = 8 /\ forallb isDigit day = true
      /\ length time = 4 /\ forallb isDigit time = true.
Proof.
  split; [vm_compute; reflexivity|].
  apply generateBuildNumber_format; simpl; lia.
Defined.

Lemma matchDiffHeader_header_witness :
  PRAnalyzer.matchDiffHeader
    (js "diff --git a/" ++ js "src/old name.js" ++ js " b/"
     ++ js "src/new name.js")
  = Some (js "src/new name.js").
Proof.
  apply matchDiffHeader_header; try discriminate; vm_compute; reflexivity.
Defined.

Lemma insertEntry_newest_first_witness :
  ChangelogManager.findInsertionPoint
    (split LF (ChangelogManager.insertEntry
                 (ChangelogManager.createInitialChangelog None)
                 Samples.sampleEntry))
  = 8
  /\ ChangelogManager.insertEntry
       (ChangelogManager.insertEntry
          (ChangelogManager.createInitialChangelog None)
          Samples.sampleEntry)
       (js "## [1.2.0] - 2024-03-01" ++ [LF])
     = ChangelogManager.createInitialChangelog None ++ [LF]
       ++ js "## [1.2.0] - 2024-03-01" ++ [LF] ++ [LF]
       ++ Samples.sampleEntry.
Proof.
  destruct (insertEntry_newest_first
              (ChangelogManager.createInitialChangelog None)
              Samples.sampleEntry
              (js "## [1.2.0] - 2024-03-01" ++ [LF]))
    as [H _]; [vm_compute; reflexivity|].
  split; [rewrite H|]; vm_compute; reflexivity.
Defined.

Lemma formatChangelogEntry_heading_witness :
  ChangelogManager.matchesVersionHeading
    (trim (firstLine
             (ChangelogEntries.formatChangelogEntry
                asciiToLowerCase (Samples.sampleInputs (js "DEV"))
                FurtherSamples.sampleSinks FurtherSamples.sampleEnv
                (js "2024-01-01T12:00:00.000Z")
                (FurtherSamples.notesHead ++ js "### Internal"
                 ++ FurtherSamples.notesTail)
                (ReleaseNotesGenerator.info Samples.sampleVersionInfo)
                (Some FurtherSamples.samplePR))))
  = true.
Proof.
  refine (proj1 (formatChangelogEntry_heading
                   asciiToLowerCase (Samples.sampleInputs (js "DEV"))
                   FurtherSamples.sampleSinks FurtherSamples.sampleEnv
                   (js "2024-01-01T12:00:00.000Z") _
                   (ReleaseNotesGenerator.info Samples.sampleVersionInfo)
                   (Some FurtherSamples.samplePR)
                   (js "1") (js "3") (js "0") [] _ _ _ _ _ _ _));
    try discriminate; reflexivity.
Defined.

Lemma parseReleaseNotesForChangelog_unterminated_witness :
  ChangelogEntries.internal
    (ChangelogEntries.parseReleaseNotesForChangelog
       (FurtherSamples.notesHead ++ js "### Internal"
        ++ FurtherSamples.notesTail))
  = []
  /\ ChangelogEntries.internal
       (ChangelogEntries.parseReleaseNotesForChangelog
          (FurtherSamples.notesHead ++ js "### Internal"
           ++ FurtherSamples.notesTail ++ [LF]))
     = js "- fix: crash on start".
Proof.
  split; [|vm_compute; reflexivity].
  apply parseReleaseNotesForChangelog_unterminated;
    try (vm_compute; reflexivity).
  vm_compute. discriminate.
Defined.

Lemma parseReleaseNotesForChangelog_template_witness :
  ChangelogEntries.public
    (ChangelogEntries.parseReleaseNotesForChangelog
       (ReleaseNotesGenerator.releaseNotes
          (ReleaseNotesGenerator.generateFromTemplate
             (Samples.sampleInputs (js "PROD")) Samples.breakingFeature
             Samples.sampleVersionInfo)))
  = js "Breaking changes - please review migration notes"
  /\ ChangelogEntries.internal
       (ChangelogEntries.parseReleaseNotesForChangelog
          (ReleaseNotesGenerator.releaseNotes
             (ReleaseNotesGenerator.generateFromTemplate
                (Samples.sampleInputs (js "PROD")) Samples.breakingFeature
                Samples.sampleVersionInfo)))
     = [].
Proof.
  apply (parseReleaseNotesForChangelog_template
           (Samples.sampleInputs (js "PROD")) Samples.breakingFeature
           Samples.sampleVersionInfo).
  - apply not_In_check. vm_compute. reflexivity.
  - intros cs commit H Hin. inversion H. subst cs.
    destruct Hin as [<-|[]].
    split; apply not_In_check; vm_compute; reflexivity.
Defined.

Lemma updateChangelog_twice_witness :
  exists older newer,
    snd (ChangelogEntries.updateChangelog
           asciiToLowerCase (Samples.sampleInputs (js "PROD"))
           FurtherSamples.sampleSinks FurtherSamples.sampleEnv
           (js "2024-02-01T09:00:00.000Z")
           (ReleaseNotesGenerator.generateFromTemplate
              (Samples.sampleInputs (js "PROD")) Samples.breakingFeature
              FurtherSamples.sampleRunVersion)
           (ReleaseNotesGenerator.info FurtherSamples.sampleRunVersion)
           (Some FurtherSamples.samplePR)
           (js "CHANGELOG.md")
           (snd (ChangelogEntries.updateChangelog
                   asciiToLowerCase (Samples.sampleInputs (js "PROD"))
                   FurtherSamples.sampleSinks FurtherSamples.sampleEnv
                   (js "2024-01-01T12:00:00.000Z")
                   (ReleaseNotesGenerator.generateFromTemplate
                      (Samples.sampleInputs (js "PROD"))
                      Samples.breakingFeature Samples.sampleVersionInfo)
                   (ReleaseNotesGenerator.info Samples.sampleVersionInfo)
                   (Some FurtherSamples.samplePR)
                   (js "CHANGELOG.md") None None))
           None)
    = Some (ChangelogManager.createInitialChangelog
              (Some (js "owner/repo"))
            ++ [LF] ++ newer ++ [LF] ++ older)
    /\ startsWith older (js "## [1.3.0] - 2024-01-01") = true
    /\ startsWith newer (js "## [2.0.0] - 2024-02-01") = true.
Proof.
  eexists. eexists. split.
  - refine (proj1 (proj2 (proj2
             (proj2 (updateChangelog_twice
                       asciiToLowerCase
                       (Samples.sampleInputs (js "PROD"))
                       (Samples.sampleInputs (js "PROD"))
                       FurtherSamples.sampleSinks FurtherSamples.sampleEnv
                       (js "2024-01-01T12:00:00.000Z")
                       (js "2024-02-01T09:00:00.000Z")
                       _ _
                       (ReleaseNotesGenerator.info Samples.sampleVersionInfo)
                       (ReleaseNotesGenerator.info
                          FurtherSamples.sampleRunVersion)
                       (Some FurtherSamples.samplePR)
                       (Some FurtherSamples.samplePR)
                       (js "CHANGELOG.md")
                       (js "1") (js "3") (js "0") [] _ _ _ _ _ _ _ _)
                    eq_refl))));
      try discriminate; try reflexivity.
    intros r H. inversion H. apply not_In_check. vm_compute. reflexivity.
  - split; vm_compute; reflexivity.
Defined.

Lemma compare_link_always_witness :
  exists v,
    VersionManager.generateVersion
      Semver.valid FurtherSamples.sampleInc
      FurtherSamples.sampleBasicIncrement asciiToLowerCase
      (Samples.sampleInputs (js "DEV")) Samples.untaggedRepository None
    = Normal v
    /\ VersionManager.previousVersion v = js "1.0.0"
    /\ GitHubReleaseManager.buildLinksSection
         (Samples.sampleInputs (js "DEV")) FurtherSamples.sampleSinks
         FurtherSamples.sampleContext v None
       <> None
    /\ ChangelogEntries.formatChangelogLinks
         FurtherSamples.sampleSinks FurtherSamples.sampleEnv v None
       = [LF] ++ js "**Links:**" ++ [LF]
         ++ js "- **Full Changelog:** [1.0.0...v1.0.0-dev.abc1234](https://github.com/owner/repo/compare/1.0.0...v1.0.0-dev.abc1234)".
Proof.
  eexists. split; [vm_compute; reflexivity|].
  destruct (compare_link_always
              Semver.valid FurtherSamples.sampleInc
              FurtherSamples.sampleBasicIncrement asciiToLowerCase
              (Samples.sampleInputs (js "DEV")) FurtherSamples.sampleSinks
              FurtherSamples.sampleContext FurtherSamples.sampleEnv
              Samples.untaggedRepository None _ None eq_refl)
    as (_ & Hprev & _ & Hlinks & _ & _).
  split; [apply Hprev; discriminate|].
  split; [exact Hlinks|].
  vm_compute. reflexivity.
Defined.


Lemma run_sinks_never_fail_witness :
  Run.prepare Semver.valid FurtherSamples.sampleInc
              FurtherSamples.sampleBasicIncrement asciiToLowerCase
              FurtherSamples.sampleWorld
  = Normal (Some FurtherSamples.samplePrepared)
  /\ ~ In (Run.SetFailed (js "Not Found"))
          (Run.run Semver.valid FurtherSamples.sampleInc
                   FurtherSamples.sampleBasicIncrement asciiToLowerCase
                   FurtherSamples.sampleWorld)
  /\ Run.changelogUpdated asciiToLowerCase FurtherSamples.sampleWorld
                          FurtherSamples.samplePrepared = true
  /\ Run.slackSent asciiToLowerCase FurtherSamples.sampleWorld
                   FurtherSamples.samplePrepared = true.
Proof.
  assert (Hp : Run.prepare Semver.valid FurtherSamples.sampleInc
                           FurtherSamples.sampleBasicIncrement
                           asciiToLowerCase FurtherSamples.sampleWorld
               = Normal (Some FurtherSamples.samplePrepared))
    by (vm_compute; reflexivity).
  destruct (run_sinks_never_fail
              Semver.valid FurtherSamples.sampleInc
              FurtherSamples.sampleBasicIncrement asciiToLowerCase
              FurtherSamples.sampleWorld FurtherSamples.samplePrepared
              [Samples.sampleCommit (js "feat!: drop the v1 API")]
              Hp eq_refl)
    as (Hnever & _ & Hchangelog & Hslack).
  split; [exact Hp|].
  split; [apply Hnever|].
  split.
  - apply Hchangelog. split; reflexivity.
  - apply Hslack. split; [reflexivity|]. eexists. reflexivity.
Defined.
